(** * FileMap knowledge graph: a shallow embedding of
      [filemap/graph/knowledge_graph.py] and of the parts of
      [filemap/core/models.py] and [filemap/storage/datastore.py] it reads.

    Conventions of the embedding.
    - A Python [dict] is an association list in insertion order
      ([pydict]); assigning to a present key keeps its position, assigning
      to an absent key appends.
    - A Python [int] is a [Z].  A Python [float] that the program obtains
      by true division of two ints is the exact rational, kept in lowest
      terms ([Qred]), so that equal quotients are equal terms.  True
      division is correctly rounded and the literal [0.3] is the double
      nearest to 3/10, so the test [x > 0.3] on a quotient of two ints
      below 2^50 agrees with the exact comparison used here.
    - A method that may raise returns an [outcome]. *)

From Stdlib Require Import ZArith QArith String Ascii List Lia.
From stdpp Require Import base decidable option list gmap sets strings sorting.

Open Scope string_scope.
Open Scope Z_scope.

(** ** Insertion-ordered dictionaries *)

Abbreviation pydict K V := (list (K * V)).

Section PyDict.
Context {K V : Type} `{EqDecision K}.

Fixpoint dict_get (k : K) (d : pydict K V) : option V :=
  match d with
  | [] => None
  | (k', v) :: d' => if decide (k = k') then Some v else dict_get k d'
  end.

Fixpoint dict_set (k : K) (v : V) (d : pydict K V) : pydict K V :=
  match d with
  | [] => [(k, v)]
  | (k', v') :: d' =>
      if decide (k = k') then (k', v) :: d' else (k', v') :: dict_set k v d'
  end.

Definition dict_contains (k : K) (d : pydict K V) : bool :=
  bool_decide (is_Some (dict_get k d)).

Definition dict_keys (d : pydict K V) : list K := d.*1.
Definition dict_values (d : pydict K V) : list V := d.*2.
Definition dict_items (d : pydict K V) : list (K * V) := d.

(** [d.update(kv)] *)
Definition dict_update (d : pydict K V) (kv : pydict K V) : pydict K V :=
  fold_left (λ acc p, dict_set p.1 p.2 acc) kv d.

(** [dict(pairs)] *)
Definition dict_of_pairs (kv : list (K * V)) : pydict K V :=
  dict_update [] kv.
End PyDict.

(** ** Values, numbers and exceptions *)

Inductive pyval :=
| VStr (s : string)
| VInt (z : Z)
| VFloat (q : Q).

#[global] Instance Q_eq_dec : EqDecision Q.
Proof. solve_decision. Defined.
#[global] Instance pyval_eq_dec : EqDecision pyval.
Proof. solve_decision. Defined.

(** Numeric values, as held by a [Counter]. *)
Inductive pynum :=
| NInt (z : Z)
| NFloat (q : Q).

Definition num_Q (n : pynum) : Q :=
  match n with NInt z => inject_Z z | NFloat q => q end.

Definition val_Q (v : pyval) : option Q :=
  match v with
  | VStr _ => None
  | VInt z => Some (inject_Z z)
  | VFloat q => Some q
  end.

Inductive exn :=
| KeyError (k : string)
| NetworkXError (n : string)
| TypeError
| ValueError.

Inductive outcome (A : Type) :=
| Return (a : A)
| Raise (e : exn).
Arguments Return {A} a.
Arguments Raise {A} e.

#[global] Instance outcome_ret : MRet outcome := λ A a, Return a.
#[global] Instance outcome_bind : MBind outcome := λ A B f m,
  match m with
  | Return a => f a
  | Raise e => Raise e
  end.

(** [for x in l: s = body x s], with and without exceptions. *)
Definition for_each {A S} (l : list A) (body : A → S → S) (s : S) : S :=
  fold_left (λ acc x, body x acc) l s.

Fixpoint for_eachM {A S} (l : list A) (body : A → S → outcome S) (s : S)
  : outcome S :=
  match l with
  | [] => Return s
  | x :: l' => s' ← body x s; for_eachM l' body s'
  end.

(** [enumerate(l)] *)
Definition enumerate {A} (l : list A) : list (nat * A) :=
  imap (λ i x, (i, x)) l.

(** [l[:n]] for a possibly negative [n]. *)
Definition slice_to {A} (n : Z) (l : list A) : list A :=
  if 0 <=? n then take (Z.to_nat n) l
  else take (length l - Z.to_nat (- n))%nat l.

(** [x + w] for a number [x] and an arbitrary value [w]. *)
Definition num_add (x : pynum) (w : pyval) : outcome pynum :=
  match x, w with
  | _, VStr _ => Raise TypeError
  | NInt a, VInt b => Return (NInt (a + b))
  | NInt a, VFloat b => Return (NFloat (Qred (inject_Z a + b)))
  | NFloat a, VInt b => Return (NFloat (Qred (a + inject_Z b)))
  | NFloat a, VFloat b => Return (NFloat (Qred (a + b)))
  end.

Definition Qltb (a b : Q) : bool := negb (Qle_bool b a).

(** [sorted(l, key=key, reverse=True)]: stable, largest key first. *)
Section Sorted.
Context {A : Type} (key : A → Q).

Fixpoint insert_desc (x : A) (l : list A) : list A :=
  match l with
  | [] => [x]
  | y :: l' =>
      if Qltb (key x) (key y) then y :: insert_desc x l' else x :: y :: l'
  end.

Definition sorted_desc (l : list A) : list A :=
  foldr insert_desc [] l.
End Sorted.

(** ** The entities of [filemap.core.models] that the graph code reads *)

Module Tag.
Record t := mk {
  tag_id : string;
  name : string;
  category : string;
  usage_count : Z
}.
End Tag.

Module File.
Record t := mk {
  file_id : string;
  name : string;
  size : Z;
  tags : list string
}.
End File.

(** ** [filemap.storage.datastore.DataStore] *)

Module DataStore.
Record t := mk {
  files : pydict string File.t;
  tags : pydict string Tag.t
}.

Definition get_file (ds : t) (file_id : string) : option File.t :=
  dict_get file_id (files ds).

Definition get_tag (ds : t) (tag_id : string) : option Tag.t :=
  dict_get tag_id (tags ds).
End DataStore.

(** ** The part of [networkx.Graph] that the source calls

    networkx keeps a node table [_node] and an adjacency table [_adj] whose
    keys are always inserted together; here one table holds, for each node,
    its attribute dict and its neighbour dict.  The data dict of an edge is
    stored under both endpoints (networkx shares one dict object between
    the two; every write below goes to both). *)

Abbreviation attrs := (pydict string pyval).

Module nx.
Record entry := mk_entry {
  attr : attrs;
  nbrs : pydict string attrs
}.

Record Graph := mk { table : pydict string entry }.

Definition empty : Graph := mk [].

(** [G.clear()] *)
Definition clear (g : Graph) : Graph := empty.

(** [n in G] *)
Definition contains (n : string) (g : Graph) : bool :=
  dict_contains n (table g).

(** [G.nodes()] *)
Definition nodes (g : Graph) : list string := dict_keys (table g).

(** [len(G)] *)
Definition number_of_nodes (g : Graph) : Z := Z.of_nat (length (table g)).

(** [G.add_node(n, **at)] *)
Definition add_node (n : string) (at_ : attrs) (g : Graph) : Graph :=
  match dict_get n (table g) with
  | None => mk (dict_set n (mk_entry (dict_update [] at_) []) (table g))
  | Some e =>
      mk (dict_set n (mk_entry (dict_update (attr e) at_) (nbrs e)) (table g))
  end.

Definition ensure_node (n : string) (g : Graph) : Graph :=
  if contains n g then g else mk (dict_set n (mk_entry [] []) (table g)).

(** [G.get_edge_data(u, v)], [None] when there is no such edge *)
Definition get_edge_data (g : Graph) (u v : string) : option attrs :=
  match dict_get u (table g) with
  | Some e => dict_get v (nbrs e)
  | None => None
  end.

Definition set_nbr (u v : string) (dd : attrs) (g : Graph) : Graph :=
  match dict_get u (table g) with
  | Some e =>
      mk (dict_set u (mk_entry (attr e) (dict_set v dd (nbrs e))) (table g))
  | None => g
  end.

(** [G.add_edge(u, v, **at)] *)
Definition add_edge (u v : string) (at_ : attrs) (g : Graph) : Graph :=
  let g1 := ensure_node v (ensure_node u g) in
  let datadict := dict_update (default [] (get_edge_data g1 u v)) at_ in
  set_nbr v u datadict (set_nbr u v datadict g1).

(** A self-loop counts twice. *)
Definition degree_entry (n : string) (e : entry) : Z :=
  Z.of_nat (length (nbrs e)) + (if dict_contains n (nbrs e) then 1 else 0).

(** [G.degree(n)] *)
Definition degree (g : Graph) (n : string) : outcome Z :=
  match dict_get n (table g) with
  | Some e => Return (degree_entry n e)
  | None => Raise (KeyError n)
  end.

(** [G.degree()], iterated *)
Definition degree_view (g : Graph) : list (string * Z) :=
  map (λ ne, (ne.1, degree_entry ne.1 ne.2)) (table g).

(** [G.nodes[n]] *)
Definition nodes_getitem (g : Graph) (n : string) : outcome attrs :=
  match dict_get n (table g) with
  | Some e => Return (attr e)
  | None => Raise (KeyError n)
  end.

(** [G.neighbors(n)] *)
Definition neighbors (g : Graph) (n : string) : outcome (list string) :=
  match dict_get n (table g) with
  | Some e => Return (dict_keys (nbrs e))
  | None => Raise (NetworkXError n)
  end.

Definition sum_Z (l : list Z) : Z := foldr Z.add 0 l.

(** [len(G.edges())], [G.number_of_edges()] *)
Definition number_of_edges (g : Graph) : Z :=
  sum_Z (degree_view g).*2 `div` 2.

(** [nx.density(G)] for an undirected graph *)
Definition density (g : Graph) : pyval :=
  let n := number_of_nodes g in
  let m := number_of_edges g in
  if bool_decide (m = 0) || (n <=? 1) then VInt 0
  else VFloat (Qred (2 * m # Z.to_pos (n * (n - 1)))).

Definition nbr_list (g : Graph) (v : string) : list string :=
  match dict_get v (table g) with
  | Some e => dict_keys (nbrs e)
  | None => []
  end.

(** Breadth-first search from the frontier.  A name joins [seen] when it
    enters the frontier, so it enters at most once, and only node names
    and neighbour names can enter: [bfs_fuel] counts them all. *)
Fixpoint _plain_bfs (fuel : nat) (g : Graph) (frontier seen : list string)
  : list string :=
  match fuel with
  | O => seen
  | S fuel' =>
      match frontier with
      | [] => seen
      | v :: rest =>
          let fresh :=
            filter (λ w, w ∉ seen) (remove_dups (nbr_list g v)) in
          _plain_bfs fuel' g (rest ++ fresh) (seen ++ fresh)
      end
  end.

Definition bfs_fuel (g : Graph) : nat :=
  S (length (table g)
     + foldr (λ ne acc, length (nbrs ne.2) + acc)%nat O (table g)).

(** [nx.number_connected_components(G)] *)
Definition number_connected_components (g : Graph) : Z :=
  (for_each (nodes g)
     (λ v (st : list string * Z),
        if decide (v ∈ st.1) then st
        else ((st.1 ++ _plain_bfs (bfs_fuel g) g [v] [v])%list, st.2 + 1))
     ([], 0)).2.
End nx.

(** ** [filemap.graph.knowledge_graph.KnowledgeGraph] *)

Module KnowledgeGraph.
Record t := mk {
  datastore : DataStore.t;
  graph : nx.Graph
}.

Definition __init__ (ds : DataStore.t) : t := mk ds nx.empty.

(** [tuple(sorted([a, b]))] *)
Definition sorted_pair (a b : string) : string * string :=
  if String.ltb b a then (b, a) else (a, b).

(** [d[pair] += 1] on a [defaultdict(int)] *)
Definition defaultdict_incr (pair : string * string)
    (d : pydict (string * string) Z) : pydict (string * string) Z :=
  dict_set pair (default 0 (dict_get pair d) + 1) d.

(** The counting loops of [_build_tag_graph]. *)
Definition tag_cooccurrence (ds : DataStore.t) : pydict (string * string) Z :=
  for_each (dict_values (DataStore.files ds))
    (λ file,
       for_each (enumerate (File.tags file))
         (λ '(i, tag1_id),
            for_each (drop (S i) (File.tags file))
              (λ tag2_id, defaultdict_incr (sorted_pair tag1_id tag2_id))))
    [].

Definition strength_of (count : Z) (tag1 tag2 : Tag.t) : pyval :=
  let max_usage := Z.max (Tag.usage_count tag1) (Tag.usage_count tag2) in
  if 0 <? max_usage then VFloat (Qred (count # Z.to_pos max_usage))
  else VInt 0.

Definition cooccurrence_attrs (count : Z) (tag1 tag2 : Tag.t) : attrs :=
  [("weight", VInt count);
   ("strength", strength_of count tag1 tag2);
   ("type", VStr "cooccurrence")].

Definition tag_node_attrs (tag : Tag.t) : attrs :=
  [("type", VStr "tag");
   ("name", VStr (Tag.name tag));
   ("category", VStr (Tag.category tag));
   ("usage_count", VInt (Tag.usage_count tag))].

Definition add_cooccurrence_edge (ds : DataStore.t)
    (item : string * string * Z) (g : nx.Graph) : nx.Graph :=
  let '((tag1_id, tag2_id), count) := item in
  if 2 <=? count then
    match DataStore.get_tag ds tag1_id, DataStore.get_tag ds tag2_id with
    | Some tag1, Some tag2 =>
        nx.add_edge tag1_id tag2_id (cooccurrence_attrs count tag1 tag2) g
    | _, _ => g
    end
  else g.

Definition _build_tag_graph (kg : t) : t :=
  let ds := datastore kg in
  let g1 :=
    for_each (dict_values (DataStore.tags ds))
      (λ tag, nx.add_node (Tag.tag_id tag) (tag_node_attrs tag))
      (graph kg) in
  let g2 :=
    for_each (dict_items (tag_cooccurrence ds)) (add_cooccurrence_edge ds) g1 in
  mk ds g2.

Definition _calculate_tag_similarity (file1 file2 : File.t) : Q :=
  if bool_decide (File.tags file1 = []) || bool_decide (File.tags file2 = [])
  then 0%Q
  else
    let tags1 : gset string := list_to_set (File.tags file1) in
    let tags2 : gset string := list_to_set (File.tags file2) in
    let intersection := size (tags1 ∩ tags2) in
    let union := size (tags1 ∪ tags2) in
    if (0 <? union)%nat
    then Qred (Z.of_nat intersection # Pos.of_nat union)
    else 0%Q.

Definition file_node_attrs (file : File.t) : attrs :=
  [("type", VStr "file");
   ("name", VStr (File.name file));
   ("size", VInt (File.size file));
   ("tag_count", VInt (Z.of_nat (length (File.tags file))))].

Definition add_similarity_edge (file1 file2 : File.t) (g : nx.Graph)
  : nx.Graph :=
  let similarity := _calculate_tag_similarity file1 file2 in
  if Qltb (3 # 10) similarity then
    nx.add_edge (File.file_id file1) (File.file_id file2)
      [("weight", VFloat similarity); ("type", VStr "similarity")] g
  else g.

Definition _build_file_graph (kg : t) : t :=
  let ds := datastore kg in
  let g1 :=
    for_each (dict_values (DataStore.files ds))
      (λ file, nx.add_node (File.file_id file) (file_node_attrs file))
      (graph kg) in
  let files := dict_values (DataStore.files ds) in
  let g2 :=
    for_each (enumerate files)
      (λ '(i, file1),
         for_each (drop (S i) files) (add_similarity_edge file1))
      g1 in
  mk ds g2.

Definition _link_tags_and_files (kg : t) : t :=
  let ds := datastore kg in
  let g :=
    for_each (dict_values (DataStore.files ds))
      (λ file,
         for_each (File.tags file)
           (λ tag_id g,
              if nx.contains tag_id g && nx.contains (File.file_id file) g
              then nx.add_edge (File.file_id file) tag_id
                     [("type", VStr "tagged")] g
              else g))
      (graph kg) in
  mk ds g.

Definition generate (mode : string) (kg : t) : outcome t :=
  let kg := mk (datastore kg) (nx.clear (graph kg)) in
  let kg :=
    if bool_decide (mode ∈ ["tags"; "full"]) then _build_tag_graph kg
    else kg in
  let kg :=
    if bool_decide (mode ∈ ["files"; "full"]) then _build_file_graph kg
    else kg in
  let kg :=
    if bool_decide (mode = "full") then _link_tags_and_files kg else kg in
  Return kg.

Definition find_hubs (top_n : Z) (kg : t) : outcome (list (string * Z)) :=
  let degrees := dict_of_pairs (nx.degree_view (graph kg)) in
  let sorted_nodes :=
    sorted_desc (λ x, inject_Z x.2) (dict_items degrees) in
  Return (slice_to top_n sorted_nodes).

(** The body of the loop of [find_orphans]. *)
Definition find_orphans_step (kg : t) (node_type : option string)
    (node : string) (orphans : list string) : outcome (list string) :=
  d ← nx.degree (graph kg) node;
  if d <=? 1 then
    match node_type with
    | None => Return (orphans ++ [node])%list
    | Some ty =>
        node_data ← nx.nodes_getitem (graph kg) node;
        if bool_decide (dict_get "type" node_data = Some (VStr ty))
        then Return (orphans ++ [node])%list
        else Return orphans
    end
  else Return orphans.

Definition find_orphans (node_type : option string) (kg : t)
  : outcome (list string) :=
  for_eachM (nx.nodes (graph kg)) (find_orphans_step kg node_type) [].

(** [Counter.most_common(n)]: [heapq.nlargest(n, items, key=count)],
    which is empty for [n <= 0] and otherwise the first [n] items of the
    stable descending sort. *)
Definition most_common (n : Z) (c : pydict string pynum)
  : list (string * pynum) :=
  if n <=? 0 then []
  else take (Z.to_nat n) (sorted_desc (λ x, num_Q x.2) (dict_items c)).

(** [c[k] += w] on a [Counter] *)
Definition counter_add (k : string) (w : pyval) (c : pydict string pynum)
  : outcome (pydict string pynum) :=
  s ← num_add (default (NInt 0) (dict_get k c)) w;
  Return (dict_set k s c).

Definition edge_weight (edge_data : option attrs) : pyval :=
  match edge_data with
  | Some ((_ :: _) as d) => default (VInt 1) (dict_get "weight" d)
  | _ => VInt 1
  end.

(** The body of the inner loop of [recommend_tags]. *)
Definition score_neighbor (kg : t) (file : File.t) (tag_id : string)
    (neighbor : string) (tag_scores : pydict string pynum)
  : outcome (pydict string pynum) :=
  neighbor_data ← nx.nodes_getitem (graph kg) neighbor;
  if bool_decide (dict_get "type" neighbor_data = Some (VStr "tag"))
     && bool_decide (neighbor ∉ File.tags file)
  then
    let edge_data := nx.get_edge_data (graph kg) tag_id neighbor in
    counter_add neighbor (edge_weight edge_data) tag_scores
  else Return tag_scores.

(** The body of the outer loop of [recommend_tags]. *)
Definition score_tag (kg : t) (file : File.t) (tag_id : string)
    (tag_scores : pydict string pynum) : outcome (pydict string pynum) :=
  if nx.contains tag_id (graph kg) then
    neighbors ← nx.neighbors (graph kg) tag_id;
    for_eachM neighbors (score_neighbor kg file tag_id) tag_scores
  else Return tag_scores.

Definition recommend_tags (file_id : string) (top_n : Z) (kg : t)
  : outcome (list (string * pynum)) :=
  match DataStore.get_file (datastore kg) file_id with
  | None => Return []
  | Some file =>
      tag_scores ← for_eachM (File.tags file) (score_tag kg file) [];
      Return (most_common top_n tag_scores)
  end.

Definition count_nodes_of_type (ty : string) (g : nx.Graph) : outcome Z :=
  for_eachM (nx.nodes g)
    (λ n acc,
       node_data ← nx.nodes_getitem g n;
       if bool_decide (dict_get "type" node_data = Some (VStr ty))
       then Return (acc + 1) else Return acc)
    0.

Definition get_stats (kg : t) : outcome (pydict string pyval) :=
  let g := graph kg in
  if bool_decide (nx.number_of_nodes g = 0) then
    Return [("total_nodes", VInt 0);
            ("total_edges", VInt 0);
            ("tag_nodes", VInt 0);
            ("file_nodes", VInt 0);
            ("avg_degree", VInt 0);
            ("density", VInt 0)]
  else
    tag_nodes ← count_nodes_of_type "tag" g;
    file_nodes ← count_nodes_of_type "file" g;
    Return [("total_nodes", VInt (Z.of_nat (length (nx.nodes g))));
            ("total_edges", VInt (nx.number_of_edges g));
            ("tag_nodes", VInt tag_nodes);
            ("file_nodes", VInt file_nodes);
            ("avg_degree",
              VFloat (Qred (nx.sum_Z (dict_values
                                        (dict_of_pairs (nx.degree_view g)))
                            # Z.to_pos (Z.of_nat (length (nx.nodes g))))));
            ("density", nx.density g);
            ("connected_components",
              VInt (nx.number_connected_components g))].
End KnowledgeGraph.

Module Scenario.
Import KnowledgeGraph.
Definition A := Tag.mk "A" "a" "topic" 5.
Definition B := Tag.mk "B" "b" "topic" 3.
Definition C := Tag.mk "C" "c" "topic" 1.
Definition F1 := File.mk "F1" "f1" 10 ["A"; "B"].
Definition F2 := File.mk "F2" "f2" 10 ["A"; "B"].
Definition F3 := File.mk "F3" "f3" 10 ["A"; "C"].
Definition F4 := File.mk "F4" "f4" 10 ["A"].
Definition F5 := File.mk "F5" "f5" 0 [].
Definition store : DataStore.t :=
  DataStore.mk
    [("F1", F1); ("F2", F2); ("F3", F3); ("F4", F4); ("F5", F5)]
    [("A", A); ("B", B); ("C", C)].
Definition kg0 := __init__ store.

(** A store whose files repeat tags: [G1] carries [A] and [B] twice,
    [G2] carries [A] twice. *)
Definition G1 := File.mk "G1" "g1" 10 ["A"; "B"; "A"; "B"].
Definition G2 := File.mk "G2" "g2" 10 ["A"; "A"].
Definition dup_store : DataStore.t :=
  DataStore.mk [("G1", G1); ("G2", G2)] [("A", A); ("B", B)].

(** A store whose usage counts are below the number of tagged files. *)
Definition A1 := Tag.mk "A" "a" "topic" 1.
Definition B1 := Tag.mk "B" "b" "topic" 1.
Definition low_usage_store : DataStore.t :=
  DataStore.mk [("F1", F1); ("F2", F2)] [("A", A1); ("B", B1)].

Definition empty_store : DataStore.t := DataStore.mk [] [].
End Scenario.

(** ** Notions used to state the properties *)

(** The pairs of positions [i < j] of a list, first position outermost:
    the order in which the nested loops over [enumerate(l)] and
    [l[i + 1:]] visit them. *)
Fixpoint pairs_lt {A} (l : list A) : list (A * A) :=
  match l with
  | [] => []
  | x :: r => (map (pair x) r ++ pairs_lt r)%list
  end.

(** Number of occurrences of [x] in [l]. *)
Definition occ {A} `{EqDecision A} (x : A) (l : list A) : Z :=
  Z.of_nat (length (filter (λ y, y = x) l)).

Module Store.
Import KnowledgeGraph.

(** The keys under which one file increments the counter. *)
Definition file_pairs (file : File.t) : list (string * string) :=
  map (λ p, sorted_pair p.1 p.2) (pairs_lt (File.tags file)).

Definition all_pairs (ds : DataStore.t) : list (string * string) :=
  dict_values (DataStore.files ds) ≫= file_pairs.

(** The counter of the pair of [a] and [b] after all files are scanned. *)
Definition cooccurrence_count (ds : DataStore.t) (a b : string) : Z :=
  default 0 (dict_get (sorted_pair a b) (tag_cooccurrence ds)).

(** The files that carry tag [a], and those that carry both [a] and [b]. *)
Definition files_with (ds : DataStore.t) (a : string) : list File.t :=
  filter (λ f, a ∈ File.tags f) (dict_values (DataStore.files ds)).

Definition files_with_both (ds : DataStore.t) (a b : string) : list File.t :=
  filter (λ f, a ∈ File.tags f ∧ b ∈ File.tags f)
    (dict_values (DataStore.files ds)).

(** No file lists a tag twice ([File.add_tag] keeps it so). *)
Definition tags_nodup (ds : DataStore.t) : Prop :=
  Forall (λ f, NoDup (File.tags f)) (dict_values (DataStore.files ds)).

(** A tag's usage count is at least the number of files carrying it. *)
Definition usage_consistent (ds : DataStore.t) : Prop :=
  Forall (λ kt, Z.of_nat (length (files_with ds kt.1)) ≤ Tag.usage_count kt.2)
    (dict_items (DataStore.tags ds)).

(** Files are stored under distinct identifiers. *)
Definition file_ids_distinct (ds : DataStore.t) : Prop :=
  NoDup (File.file_id <$> dict_values (DataStore.files ds)).
End Store.

(** An edge insertion [G.add_edge(u, v, **kw)], as data: the loops that
    add edges are shown below to perform a list of these in order. *)
Definition edge_req : Type := string * string * attrs.

Definition apply_reqs (rs : list edge_req) (g : nx.Graph) : nx.Graph :=
  for_each rs (λ r, nx.add_edge r.1.1 r.1.2 r.2) g.

Definition req_key (r : edge_req) : string * string :=
  KnowledgeGraph.sorted_pair r.1.1 r.1.2.

Definition cooccurrence_req (ds : DataStore.t) (item : string * string * Z)
  : option edge_req :=
  if 2 <=? item.2 then
    match DataStore.get_tag ds item.1.1, DataStore.get_tag ds item.1.2 with
    | Some tag1, Some tag2 =>
        Some (item.1.1, item.1.2,
              KnowledgeGraph.cooccurrence_attrs item.2 tag1 tag2)
    | _, _ => None
    end
  else None.

Definition similarity_attrs (similarity : Q) : attrs :=
  [("weight", VFloat similarity); ("type", VStr "similarity")].

Definition similarity_req (p : File.t * File.t) : option edge_req :=
  let similarity := KnowledgeGraph._calculate_tag_similarity p.1 p.2 in
  if Qltb (3 # 10) similarity then
    Some (File.file_id p.1, File.file_id p.2, similarity_attrs similarity)
  else None.

Definition edge_free (g : nx.Graph) : Prop :=
  ∀ a b, nx.get_edge_data g a b = None.

(** The graph after the node loops of the two builders, on a cleared graph. *)
Definition tag_nodes_graph (ds : DataStore.t) : nx.Graph :=
  for_each (dict_values (DataStore.tags ds))
    (λ tag, nx.add_node (Tag.tag_id tag) (KnowledgeGraph.tag_node_attrs tag))
    nx.empty.

Definition file_nodes_graph (ds : DataStore.t) : nx.Graph :=
  for_each (dict_values (DataStore.files ds))
    (λ file, nx.add_node (File.file_id file)
               (KnowledgeGraph.file_node_attrs file))
    nx.empty.

(** Payload ranges.  [payload_in P key d]: the dict [d] holds a number
    under [key], and it satisfies [P]. *)
Definition payload_in (P : Q → Prop) (key : string) (d : attrs) : Prop :=
  ∃ v q, dict_get key d = Some v ∧ val_Q v = Some q ∧ P q.

Definition nonneg (q : Q) : Prop := (0 <= q)%Q.
Definition unit_interval (q : Q) : Prop := (0 <= q)%Q ∧ (q <= 1)%Q.

(** A cooccurrence edge carries a [strength] satisfying [P]; a similarity
    edge carries a [weight] in the unit interval. *)
Definition edge_payload_ok (P : Q → Prop) (d : attrs) : Prop :=
  (dict_get "type" d = Some (VStr "cooccurrence") → payload_in P "strength" d)
  ∧ (dict_get "type" d = Some (VStr "similarity")
     → payload_in unit_interval "weight" d).

Definition edges_ok (P : Q → Prop) (g : nx.Graph) : Prop :=
  ∀ a b d, nx.get_edge_data g a b = Some d → edge_payload_ok P d.

(** The test made by the loop body of [find_orphans] for one node. *)
Definition is_orphan (g : nx.Graph) (node_type : option string) (n : string)
  : bool :=
  match dict_get n (nx.table g) with
  | Some e =>
      (nx.degree_entry n e <=? 1)
      && match node_type with
         | None => true
         | Some ty => bool_decide (dict_get "type" (nx.attr e) = Some (VStr ty))
         end
  | None => false
  end.

(** The [type] attribute of a node, if the node exists and has one. *)
Definition node_type (g : nx.Graph) (n : string) : option pyval :=
  match dict_get n (nx.table g) with
  | Some e => dict_get "type" (nx.attr e)
  | None => None
  end.

(** Graphs on which [recommend_tags] cannot raise: every neighbour is a
    node and every edge weight that is present is a number. *)
Definition numeric (v : pyval) : Prop :=
  match v with VStr _ => False | _ => True end.

Definition weight_ok (d : attrs) : Prop :=
  numeric (default (VInt 1) (dict_get "weight" d)).

Definition graph_closed (g : nx.Graph) : Prop :=
  ∀ u v d, nx.get_edge_data g u v = Some d →
           nx.contains v g = true ∧ weight_ok d.

(** ** Further methods: [File], [DataStore], [export_json] *)

(** [l.remove(x)]: drops the first occurrence, raises when there is none. *)
Fixpoint list_remove (x : string) (l : list string) : outcome (list string) :=
  match l with
  | [] => Raise ValueError
  | y :: r =>
      if decide (y = x) then Return r
      else r' ← list_remove x r; Return (y :: r')
  end.

(** [del d[k]]: raises [KeyError] when the key is absent. *)
Fixpoint dict_del {V} (k : string) (d : pydict string V)
  : outcome (pydict string V) :=
  match d with
  | [] => Raise (KeyError k)
  | (k', v) :: d' =>
      if decide (k = k') then Return d'
      else d'' ← dict_del k d'; Return ((k', v) :: d'')
  end.

(** A loop over [d.values()] that changes each value in place. *)
Fixpoint dict_mapM {V} (f : V → outcome V) (d : pydict string V)
  : outcome (pydict string V) :=
  match d with
  | [] => Return []
  | (k, v) :: d' =>
      v' ← f v; d'' ← dict_mapM f d'; Return ((k, v') :: d'')
  end.

(** The methods of [File] that touch the tag list. *)
Module FileMethods.
Definition with_tags (file : File.t) (tags : list string) : File.t :=
  File.mk (File.file_id file) (File.name file) (File.size file) tags.

Definition add_tag (tag_id : string) (file : File.t) : File.t :=
  if decide (tag_id ∉ File.tags file)
  then with_tags file (File.tags file ++ [tag_id])
  else file.

Definition remove_tag (tag_id : string) (file : File.t) : outcome File.t :=
  if decide (tag_id ∈ File.tags file) then
    tags ← list_remove tag_id (File.tags file);
    Return (with_tags file tags)
  else Return file.

Definition has_tag (tag_id : string) (file : File.t) : bool :=
  bool_decide (tag_id ∈ File.tags file).
End FileMethods.

(** The file and tag operations of [DataStore].  The state is the
    in-memory store together with what [files.json] and [tags.json] hold
    ([None]: not written yet); a saved dict stands for its JSON document. *)
Module DataStoreMethods.
Record state := mk {
  mem : DataStore.t;
  files_json : option (pydict string File.t);
  tags_json : option (pydict string Tag.t)
}.

Definition set_files (files : pydict string File.t) (st : state) : state :=
  mk (DataStore.mk files (DataStore.tags (mem st)))
     (files_json st) (tags_json st).

Definition set_tags (tags : pydict string Tag.t) (st : state) : state :=
  mk (DataStore.mk (DataStore.files (mem st)) tags)
     (files_json st) (tags_json st).

Definition save_files (st : state) : state :=
  mk (mem st) (Some (DataStore.files (mem st))) (tags_json st).

Definition save_tags (st : state) : state :=
  mk (mem st) (files_json st) (Some (DataStore.tags (mem st))).

Definition add_file (file : File.t) (st : state) : state :=
  save_files
    (set_files (dict_set (File.file_id file) file (DataStore.files (mem st)))
       st).

Definition get_file (file_id : string) (st : state) : option File.t :=
  DataStore.get_file (mem st) file_id.

Definition remove_file (file_id : string) (st : state)
  : outcome (state * bool) :=
  if dict_contains file_id (DataStore.files (mem st)) then
    files ← dict_del file_id (DataStore.files (mem st));
    Return (save_files (set_files files st), true)
  else Return (st, false).

Definition update_file (file : File.t) (st : state) : state :=
  save_files
    (set_files (dict_set (File.file_id file) file (DataStore.files (mem st)))
       st).

Definition add_tag (tag : Tag.t) (st : state) : state :=
  save_tags
    (set_tags (dict_set (Tag.tag_id tag) tag (DataStore.tags (mem st))) st).

Definition get_tag (tag_id : string) (st : state) : option Tag.t :=
  DataStore.get_tag (mem st) tag_id.

Definition remove_tag (tag_id : string) (st : state)
  : outcome (state * bool) :=
  if dict_contains tag_id (DataStore.tags (mem st)) then
    files ←
      dict_mapM
        (λ file,
           if decide (tag_id ∈ File.tags file)
           then FileMethods.remove_tag tag_id file
           else Return file)
        (DataStore.files (mem st));
    let st1 := save_files (set_files files st) in
    tags ← dict_del tag_id (DataStore.tags (mem st1));
    Return (save_tags (set_tags tags st1), true)
  else Return (st, false).

Definition update_tag (tag : Tag.t) (st : state) : state :=
  save_tags
    (set_tags (dict_set (Tag.tag_id tag) tag (DataStore.tags (mem st))) st).
End DataStoreMethods.

(** ** The tag commands of [filemap.cli.tag_commands]

    The commands print to the console, which is left out; what they do to
    the store is kept.  An object of the store is identified with the
    entry that holds it, as after loading: [get_tag_by_name] gives the key
    of the entry along with the tag, and a change made to the object is
    made to that entry. *)
Module TagCommands.
Import DataStoreMethods.

(** [tag.usage_count = n] *)
Definition set_usage_count (n : Z) (tag : Tag.t) : Tag.t :=
  Tag.mk (Tag.tag_id tag) (Tag.name tag) (Tag.category tag) n.

Section Named.
(** [tag.name == name or name in tag.aliases]: the aliases are not among
    the fields of [Tag.t]. *)
Variable matches : Tag.t → string → bool.

(** [DataStore.get_tag_by_name] *)
Definition get_tag_by_name (ds : DataStore.t) (name : string)
  : option (string * Tag.t) :=
  List.find (λ kt, matches kt.2 name) (dict_items (DataStore.tags ds)).

(** The body of the loop of [add_tag_to_file]; the state is the store,
    the file object and [added_count]. *)
Definition add_tag_step (file_id : string) (tag_name : string)
    (s : state * File.t * Z) : state * File.t * Z :=
  match get_tag_by_name (mem s.1.1) tag_name with
  | Some (key, tag) =>
      if negb (FileMethods.has_tag (Tag.tag_id tag) s.1.2) then
        let file := FileMethods.add_tag (Tag.tag_id tag) s.1.2 in
        let tag := set_usage_count (Tag.usage_count tag + 1) tag in
        let st :=
          set_files (dict_set file_id file (DataStore.files (mem s.1.1)))
            s.1.1 in
        let st := set_tags (dict_set key tag (DataStore.tags (mem st))) st in
        (update_tag tag st, file, s.2 + 1)
      else s
  | None => s
  end.

Definition add_tag_to_file (file_id : string) (tag_names : list string)
    (st : state) : state :=
  match get_file file_id st with
  | None => st
  | Some file =>
      let s := for_each tag_names (add_tag_step file_id) (st, file, 0) in
      if 0 <? s.2 then update_file s.1.2 s.1.1 else s.1.1
  end.

(** The body of the loop of [remove_tag_from_file]. *)
Definition remove_tag_step (file_id : string) (tag_name : string)
    (s : state * File.t * Z) : outcome (state * File.t * Z) :=
  match get_tag_by_name (mem s.1.1) tag_name with
  | Some (key, tag) =>
      if FileMethods.has_tag (Tag.tag_id tag) s.1.2 then
        file ← FileMethods.remove_tag (Tag.tag_id tag) s.1.2;
        let tag := set_usage_count (Z.max 0 (Tag.usage_count tag - 1)) tag in
        let st :=
          set_files (dict_set file_id file (DataStore.files (mem s.1.1)))
            s.1.1 in
        let st := set_tags (dict_set key tag (DataStore.tags (mem st))) st in
        Return (update_tag tag st, file, s.2 + 1)
      else Return s
  | None => Return s
  end.

Definition remove_tag_from_file (file_id : string) (tag_names : list string)
    (st : state) : outcome state :=
  match get_file file_id st with
  | None => Return st
  | Some file =>
      s ← for_eachM tag_names (remove_tag_step file_id) (st, file, 0);
      Return (if 0 <? s.2 then update_file s.1.2 s.1.1 else s.1.1)
  end.

(** [delete_tag] *)
Definition delete_tag (tag_name : string) (st : state) : outcome state :=
  match get_tag_by_name (mem st) tag_name with
  | None => Return st
  | Some (_, tag) =>
      r ← DataStoreMethods.remove_tag (Tag.tag_id tag) st;
      Return r.1
  end.
End Named.
End TagCommands.

(** [G.edges(data=True)], iterated: every neighbour entry whose
    neighbour has not been visited as a node yet. *)
Definition edges_data (g : nx.Graph) : list (string * string * attrs) :=
  (for_each (nx.table g)
     (λ ne (st : list string * list (string * string * attrs)),
        ((st.1 ++ [ne.1])%list,
         (st.2
          ++ omap (λ vd : string * attrs,
                     if decide (vd.1 ∈ st.1) then None
                     else Some (ne.1, vd.1, vd.2))
               (nx.nbrs ne.2))%list))
     ([], [])).2.

(** [KnowledgeGraph.export_json] *)
Record exported := mk_exported {
  exp_nodes : list attrs;
  exp_edges : list attrs;
  exp_stats : attrs
}.

Definition export_json (kg : KnowledgeGraph.t) : outcome exported :=
  nodes ←
    for_eachM (nx.nodes (KnowledgeGraph.graph kg))
      (λ node_id nodes,
         node_data ← nx.nodes_getitem (KnowledgeGraph.graph kg) node_id;
         Return (nodes ++ [dict_set "id" (VStr node_id) node_data])%list)
      [];
  let edges :=
    for_each (edges_data (KnowledgeGraph.graph kg))
      (λ uvd edges,
         (edges
          ++ [dict_set "target" (VStr uvd.1.2)
                (dict_set "source" (VStr uvd.1.1) uvd.2)])%list)
      [] in
  stats ← KnowledgeGraph.get_stats kg;
  Return (mk_exported nodes edges stats).

(** A file after [DataStore.remove_tag] has visited it. *)
Definition tags_without (tag_id : string) (file : File.t) : File.t :=
  match FileMethods.remove_tag tag_id file with
  | Return file' => file'
  | Raise _ => file
  end.

(** Stores whose entries are held under their own, distinct identifiers. *)
Definition files_keyed (ds : DataStore.t) : Prop :=
  NoDup (dict_keys (DataStore.files ds))
  ∧ Forall (λ kf, File.file_id kf.2 = kf.1) (dict_items (DataStore.files ds)).

Definition tags_keyed (ds : DataStore.t) : Prop :=
  NoDup (dict_keys (DataStore.tags ds))
  ∧ Forall (λ kt, Tag.tag_id kt.2 = kt.1) (dict_items (DataStore.tags ds)).

(** Stores as the graph code expects them: every entry under its own
    id, no file with a repeated tag, and usage counts that cover the files
    carrying the tag. *)
Definition store_consistent (ds : DataStore.t) : Prop :=
  files_keyed ds ∧ tags_keyed ds
  ∧ Store.tags_nodup ds ∧ Store.usage_consistent ds.

(** What the loops keep: a consistent store that holds the file object
    under the id, with the keys and the other files as at the start. *)
Definition loop_inv (st0 : DataStoreMethods.state) (file_id : string)
    (R : File.t → Prop) (s : DataStoreMethods.state * File.t * Z) : Prop :=
  store_consistent (DataStoreMethods.mem s.1.1)
  ∧ dict_get file_id (DataStore.files (DataStoreMethods.mem s.1.1))
    = Some s.1.2
  ∧ dict_keys (DataStore.files (DataStoreMethods.mem s.1.1))
    = dict_keys (DataStore.files (DataStoreMethods.mem st0))
  ∧ dict_keys (DataStore.tags (DataStoreMethods.mem s.1.1))
    = dict_keys (DataStore.tags (DataStoreMethods.mem st0))
  ∧ (∀ other, other ≠ file_id →
       DataStoreMethods.get_file other s.1.1
       = DataStoreMethods.get_file other st0)
  ∧ R s.1.2.
(** No node and no neighbour is listed twice. *)
Definition no_repeats (g : nx.Graph) : Prop :=
  NoDup (nx.nodes g)
  ∧ (∀ u e, (u, e) ∈ nx.table g → NoDup (dict_keys (nx.nbrs e))).

(** Well-formed undirected graphs: no node and no neighbour is listed
    twice, an edge has the same data from both ends, and every neighbour
    is a node. *)
Definition graph_wf (g : nx.Graph) : Prop :=
  NoDup (nx.nodes g)
  ∧ (∀ u e, (u, e) ∈ nx.table g → NoDup (dict_keys (nx.nbrs e)))
  ∧ (∀ u v, nx.get_edge_data g u v = nx.get_edge_data g v u)
  ∧ (∀ u v d, nx.get_edge_data g u v = Some d → nx.contains v g = true).

(** Graphs all of whose edges, seen from either end, satisfy [P]. *)
Definition edges_all (P : string → string → attrs → Prop) (g : nx.Graph)
  : Prop :=
  ∀ a b d, nx.get_edge_data g a b = Some d → P a b d.

(** The edge from [a] to [b] is there and is typed [ty]. *)
Definition edge_typed (ty : string) (g : nx.Graph) (a b : string) : Prop :=
  ∃ d, nx.get_edge_data g a b = Some d ∧ dict_get "type" d = Some (VStr ty).

(** [a] and [b] are a file of the store and one of its tags. *)
Definition file_and_tag (ds : DataStore.t) (a b : string) : Prop :=
  ∃ file, file ∈ dict_values (DataStore.files ds)
          ∧ a = File.file_id file ∧ b ∈ File.tags file.

(** What [recommend_tags] adds to the score of [r] when it visits the
    neighbours of the tag [t] of the file: the weight of the edge, on
    graphs whose weights are integers. *)
Definition contribution (kg : KnowledgeGraph.t) (file : File.t)
    (t r : string) : option Z :=
  match nx.get_edge_data (KnowledgeGraph.graph kg) t r with
  | Some d =>
      if bool_decide (node_type (KnowledgeGraph.graph kg) r
                      = Some (VStr "tag"))
         && bool_decide (r ∉ File.tags file)
      then match KnowledgeGraph.edge_weight (Some d) with
           | VInt w => Some w
           | _ => None
           end
      else None
  | None => None
  end.

(** Adding up contributions; [None] stands for no contribution at all. *)
Definition oplus (a b : option Z) : option Z :=
  match a, b with
  | Some x, Some y => Some (x + y)
  | Some x, None => Some x
  | None, _ => b
  end.

Definition total (l : list (option Z)) : option Z := foldr oplus None l.

(** The counter [c] holds exactly the integer scores given by [f]. *)
Definition scores (c : pydict string pynum) (f : string → option Z) : Prop :=
  NoDup c.*1 ∧ ∀ k, dict_get k c = NInt <$> f k.

(** The sum, over the tags of the file, of the co-occurrence counts with
    [r] that are at least 2 and belong to a stored tag. *)
Definition cooccurrence_score (ds : DataStore.t) (file : File.t) (r : string)
  : Z :=
  nx.sum_Z
    ((λ t, if bool_decide (is_Some (DataStore.get_tag ds t))
              && (2 <=? Store.cooccurrence_count ds t r)
           then Store.cooccurrence_count ds t r else 0)
       <$> File.tags file).

(** The ids that a mode makes tag nodes, and file nodes, of. *)
Definition mode_tags (mode : string) (ds : DataStore.t) : list string :=
  if bool_decide (mode ∈ ["tags"; "full"]) then dict_keys (DataStore.tags ds)
  else [].

Definition mode_files (mode : string) (ds : DataStore.t) : list string :=
  if bool_decide (mode ∈ ["files"; "full"])
  then dict_keys (DataStore.files ds) else [].

(** Counting the edges that [G.edges()] yields, and the degrees, along
    the node table: [seen] holds the nodes already visited. *)
Fixpoint edge_count (seen : list string) (T : pydict string nx.entry) : nat :=
  match T with
  | [] => 0
  | (n, e) :: T' =>
      length (filter (λ v, v ∉ seen) (dict_keys (nx.nbrs e)))
      + edge_count (seen ++ [n]) T'
  end.

(** The edges that [G.edges(data=True)] yields along [T]. *)
Fixpoint edges_from (seen : list string) (T : pydict string nx.entry)
  : list (string * string * attrs) :=
  match T with
  | [] => []
  | (n, e) :: T' =>
      (omap (λ vd : string * attrs,
               if decide (vd.1 ∈ seen) then None else Some (n, vd.1, vd.2))
         (nx.nbrs e)
       ++ edges_from (seen ++ [n]) T')%list
  end.

Definition self_loop (n : string) (e : nx.entry) : nat :=
  if decide (n ∈ dict_keys (nx.nbrs e)) then 1 else 0.

Fixpoint unseen_degree_sum (seen : list string) (T : pydict string nx.entry)
  : nat :=
  match T with
  | [] => 0
  | (n, e) :: T' =>
      length (filter (λ v, v ∉ seen) (dict_keys (nx.nbrs e))) + self_loop n e
      + unseen_degree_sum seen T'
  end.

(** The number of entries of [T] that list [n] as a neighbour. *)
Fixpoint nbr_count (n : string) (T : pydict string nx.entry) : nat :=
  match T with
  | [] => 0
  | (_, e) :: T' =>
      (if decide (n ∈ dict_keys (nx.nbrs e)) then 1 else 0) + nbr_count n T'
  end.

(** Tags that answer to their name only, as when none has an alias. *)
Definition name_matches (tag : Tag.t) (name : string) : bool :=
  String.eqb (Tag.name tag) name.

(** A state of the store to start from: [Scenario.store], nothing saved. *)
Definition st0 : DataStoreMethods.state :=
  DataStoreMethods.mk Scenario.store None None.

(** Case analysis on every decision in sight; the membership facts needed
    to discard the impossible cases are expected in the context. *)
Ltac decide_cases :=
  repeat match goal with
         | |- context [decide ?P] => destruct (decide P)
         | H : context [decide ?P] |- _ => destruct (decide P)
         end;
  cbn [length] in *; try lia; try (exfalso; tauto).

(** * Properties *)

(** ** Dictionaries *)

Section PyDictFacts.
Context {K V : Type} `{EqDecision K}.
Implicit Types (k : K) (v : V) (d : pydict K V).

Lemma dict_get_set k k' v d :
  dict_get k (dict_set k' v d) = if decide (k = k') then Some v else dict_get k d.
Proof.
  induction d as [|[k0 v0] d IH]; simpl.
  - by destruct (decide (k = k')).
  - destruct (decide (k' = k0)) as [->|Hne]; simpl.
    + by destruct (decide (k = k0)).
    + destruct (decide (k = k0)) as [->|Hne'].
      * by rewrite decide_False by done.
      * done.
Qed.

Lemma dict_get_set_eq k v d : dict_get k (dict_set k v d) = Some v.
Proof. rewrite dict_get_set. by case_decide. Qed.

Lemma dict_get_set_ne k k' v d :
  k ≠ k' → dict_get k (dict_set k' v d) = dict_get k d.
Proof. intros. rewrite dict_get_set. by case_decide. Qed.

Lemma dict_get_Some_elem k v d : dict_get k d = Some v → (k, v) ∈ d.
Proof.
  induction d as [|[k0 v0] d IH]; simpl; [done|].
  destruct (decide (k = k0)) as [->|Hne]; intros Hget.
  - injection Hget as ->. left.
  - right. by apply IH.
Qed.

Lemma dict_get_None k d : dict_get k d = None ↔ k ∉ d.*1.
Proof.
  induction d as [|[k0 v0] d IH]; simpl.
  - split; [intros _; apply not_elem_of_nil | done].
  - rewrite not_elem_of_cons. destruct (decide (k = k0)) as [->|Hne].
    + split; [done | by intros [? _]].
    + rewrite IH. split; [done | by intros [_ ?]].
Qed.

Lemma dict_get_is_Some k d : is_Some (dict_get k d) ↔ k ∈ d.*1.
Proof.
  destruct (dict_get k d) eqn:E.
  - split; [intros _ | by eauto].
    apply dict_get_Some_elem in E. apply (list_elem_of_fmap_2 fst) in E. done.
  - apply dict_get_None in E. split; [by intros [? ?] | done].
Qed.

Lemma dict_get_elem_NoDup k v d :
  NoDup d.*1 → (k, v) ∈ d → dict_get k d = Some v.
Proof.
  induction d as [|[k0 v0] d IH]; simpl; intros Hnd Hin.
  - by apply elem_of_nil in Hin.
  - apply NoDup_cons in Hnd as [Hk0 Hnd].
    apply elem_of_cons in Hin as [Heq | Hin]; simplify_eq.
    + by case_decide.
    + case_decide; [|by auto]. subst k0. exfalso. apply Hk0.
      by apply (list_elem_of_fmap_2 fst) in Hin.
Qed.

Lemma dict_set_keys k v d :
  (dict_set k v d).*1 = if decide (k ∈ d.*1) then d.*1 else (d.*1 ++ [k])%list.
Proof.
  induction d as [|[k0 v0] d IH].
  - simpl. destruct (decide (k ∈ [])) as [Hin|_]; [by apply elem_of_nil in Hin | done].
  - cbn [dict_set]. destruct (decide (k = k0)) as [->|Hne].
    + rewrite !fmap_cons. cbn [fst]. rewrite decide_True; [done | left].
    + rewrite !fmap_cons, IH. cbn [fst].
      destruct (decide (k ∈ d.*1)) as [Hin|Hin].
      * rewrite decide_True; [done | by right].
      * rewrite decide_False; [done |].
        rewrite not_elem_of_cons. done.
Qed.

Lemma dict_set_NoDup k v d : NoDup d.*1 → NoDup (dict_set k v d).*1.
Proof.
  intros Hnd. rewrite dict_set_keys. case_decide; [done|].
  apply NoDup_app. split_and!; [done | | apply NoDup_singleton].
  intros x Hx Hx'. apply list_elem_of_singleton in Hx'. by subst.
Qed.

Lemma dict_set_length k v d :
  length (dict_set k v d) = if decide (k ∈ d.*1) then length d else S (length d).
Proof.
  rewrite <-(length_fmap fst (dict_set k v d)), dict_set_keys.
  case_decide; rewrite ?length_app, ?length_fmap; simpl; lia.
Qed.
End PyDictFacts.

(** ** Loops *)

Lemma for_each_app {A St} (l1 l2 : list A) (body : A → St → St) (s : St) :
  for_each (l1 ++ l2) body s = for_each l2 body (for_each l1 body s).
Proof. unfold for_each. apply fold_left_app. Qed.

Lemma for_each_map {A B St} (f : A → B) (l : list A) (body : B → St → St) (s : St) :
  for_each (map f l) body s = for_each l (λ x, body (f x)) s.
Proof. revert s. induction l as [|x l IH]; intros s; simpl; [done | apply IH]. Qed.

Lemma for_each_ext {A St} (l : list A) (f g : A → St → St) (s : St) :
  (∀ x s', x ∈ l → f x s' = g x s') → for_each l f s = for_each l g s.
Proof.
  revert s. induction l as [|x l IH]; intros s Hfg; simpl; [done|].
  rewrite Hfg by left. apply IH. intros y s' Hy. apply Hfg. by right.
Qed.

Lemma for_each_bind {A B St} (f : A → list B) (l : list A)
    (body : B → St → St) (s : St) :
  for_each (l ≫= f) body s = for_each l (λ x, for_each (f x) body) s.
Proof.
  revert s. induction l as [|x l IH]; intros s; [done|].
  rewrite bind_cons, for_each_app, IH. done.
Qed.

(** The nested loops over [enumerate(l)] and [l[i + 1:]] visit [pairs_lt l]. *)
Lemma for_each_enumerate_drop_aux {A St} (f : A * A → St → St)
    (pre suf : list A) (s : St) :
  for_each (imap (λ i x, ((length pre + i)%nat, x)) suf)
    (λ '(i, x), for_each (drop (S i) (pre ++ suf)) (λ y, f (x, y))) s
  = for_each (pairs_lt suf) f s.
Proof.
  revert pre s. induction suf as [|x suf IH]; intros pre s; [done|].
  rewrite imap_cons. cbn [pairs_lt]. rewrite for_each_app, for_each_map.
  unfold for_each at 1. cbn [fold_left]. fold (@for_each (nat * A) St).
  replace (drop (S (length pre + 0)) (pre ++ x :: suf)) with suf.
  2:{ rewrite Nat.add_0_r, (cons_middle x pre suf), app_assoc.
      rewrite drop_app_length'; [done | rewrite length_app; simpl; lia]. }
  rewrite <-(IH (pre ++ [x])%list (for_each suf (λ y, f (x, y)) s)).
  rewrite <-app_assoc. cbn [app]. unfold for_each at 3.
  f_equal. apply imap_ext. intros i y _. cbn. rewrite length_app. cbn.
  f_equal. lia.
Qed.

Lemma for_each_enumerate_drop {A St} (f : A * A → St → St) (l : list A) (s : St) :
  for_each (enumerate l)
    (λ '(i, x), for_each (drop (S i) l) (λ y, f (x, y))) s
  = for_each (pairs_lt l) f s.
Proof. apply (for_each_enumerate_drop_aux f [] l s). Qed.

(** ** Occurrence counts *)

Section Occ.
Context {A : Type} `{EqDecision A}.
Implicit Types (x y : A) (l : list A).

Lemma occ_nil x : occ x [] = 0.
Proof. done. Qed.

Lemma occ_cons x y l :
  occ x (y :: l) = (if decide (y = x) then 1 else 0) + occ x l.
Proof.
  unfold occ. rewrite filter_cons.
  destruct (decide (y = x)); cbn [length]; lia.
Qed.

Lemma occ_app x l1 l2 : occ x (l1 ++ l2) = occ x l1 + occ x l2.
Proof. unfold occ. rewrite filter_app, length_app. lia. Qed.

Lemma occ_nonneg x l : 0 ≤ occ x l.
Proof. unfold occ. lia. Qed.

Lemma occ_not_elem x l : x ∉ l → occ x l = 0.
Proof.
  induction l as [|y l IH]; [done|].
  rewrite not_elem_of_cons, occ_cons. intros [Hne Hl].
  rewrite decide_False by done. rewrite IH by done. done.
Qed.

Lemma occ_elem x l : x ∈ l → 1 ≤ occ x l.
Proof.
  induction l as [|y l IH]; [by intros ?%elem_of_nil|].
  rewrite occ_cons. pose proof (occ_nonneg x l).
  intros [->|Hin]%elem_of_cons.
  - rewrite decide_True by done. lia.
  - specialize (IH Hin). destruct (decide (y = x)); lia.
Qed.

Lemma occ_NoDup x l : NoDup l → occ x l = if decide (x ∈ l) then 1 else 0.
Proof.
  induction l as [|y l IH]; intros Hnd.
  - rewrite decide_False; [done | apply not_elem_of_nil].
  - apply NoDup_cons in Hnd as [Hy Hnd]. rewrite occ_cons, IH by done.
    destruct (decide (y = x)) as [->|Hne].
    + rewrite (decide_False (P := x ∈ l)) by done.
      rewrite decide_True; [done | left].
    + destruct (decide (x ∈ l)) as [Hin|Hin].
      * rewrite decide_True; [done | by right].
      * rewrite decide_False; [done|].
        rewrite not_elem_of_cons. split; [congruence | done].
Qed.
End Occ.

(** ** Sorted pairs *)

Section SortedPair.
Import KnowledgeGraph.

Lemma sorted_pair_comm a b : sorted_pair a b = sorted_pair b a.
Proof.
  unfold sorted_pair, String.ltb.
  rewrite (String.compare_antisym b a).
  destruct (String.compare a b) eqn:E; cbn; try done.
  apply String.compare_eq_iff in E. by subst.
Qed.

Lemma sorted_pair_cases a b :
  sorted_pair a b = (a, b) ∨ sorted_pair a b = (b, a).
Proof. unfold sorted_pair. destruct (String.ltb b a); auto. Qed.

Lemma sorted_pair_eq a b c d :
  sorted_pair a b = sorted_pair c d ↔ (a = c ∧ b = d) ∨ (a = d ∧ b = c).
Proof.
  split.
  - destruct (sorted_pair_cases a b) as [-> | ->],
      (sorted_pair_cases c d) as [-> | ->]; intros [= -> ->]; auto.
  - intros [[-> ->] | [-> ->]]; [done | apply sorted_pair_comm].
Qed.

Lemma sorted_pair_idem a b :
  sorted_pair (sorted_pair a b).1 (sorted_pair a b).2 = sorted_pair a b.
Proof.
  destruct (sorted_pair_cases a b) as [E | E]; rewrite E at 1 2; cbn.
  - done.
  - apply sorted_pair_comm.
Qed.
End SortedPair.

(** ** The co-occurrence counter *)

Section Counter.
Import KnowledgeGraph Store.
Implicit Types (k p : string * string) (d : pydict (string * string) Z).

Lemma defaultdict_incr_get k p d :
  default 0 (dict_get k (defaultdict_incr p d))
  = default 0 (dict_get k d) + (if decide (p = k) then 1 else 0).
Proof.
  unfold defaultdict_incr. rewrite dict_get_set.
  destruct (decide (k = p)) as [->|Hne].
  - rewrite decide_True by done. done.
  - rewrite decide_False by congruence. lia.
Qed.

Lemma counter_get k ps d :
  default 0 (dict_get k (for_each ps defaultdict_incr d))
  = default 0 (dict_get k d) + occ k ps.
Proof.
  revert d. induction ps as [|p ps IH]; intros d.
  - rewrite occ_nil. cbn. lia.
  - cbn. fold (for_each ps defaultdict_incr (defaultdict_incr p d)).
    rewrite IH, defaultdict_incr_get, occ_cons. lia.
Qed.

Lemma counter_NoDup ps d :
  NoDup d.*1 → NoDup (for_each ps defaultdict_incr d).*1.
Proof.
  revert d. induction ps as [|p ps IH]; intros d Hnd; [done|].
  cbn. apply IH. by apply dict_set_NoDup.
Qed.

Lemma counter_keys k ps d :
  k ∈ (for_each ps defaultdict_incr d).*1 → k ∈ d.*1 ∨ k ∈ ps.
Proof.
  revert d. induction ps as [|p ps IH]; intros d; [by left|].
  cbn. intros [Hk | Hk]%IH.
  - unfold defaultdict_incr in Hk. rewrite dict_set_keys in Hk.
    destruct (decide (p ∈ d.*1)); [by left|].
    apply elem_of_app in Hk as [Hk | ->%list_elem_of_singleton];
      [by left | right; left].
  - right. by right.
Qed.

Lemma tag_cooccurrence_all_pairs ds :
  tag_cooccurrence ds = for_each (all_pairs ds) defaultdict_incr [].
Proof.
  unfold tag_cooccurrence, all_pairs. rewrite for_each_bind.
  apply for_each_ext. intros file d _.
  rewrite (for_each_enumerate_drop
             (λ p, defaultdict_incr (sorted_pair p.1 p.2))).
  unfold file_pairs. by rewrite for_each_map.
Qed.

Lemma cooccurrence_count_occ ds a b :
  cooccurrence_count ds a b = occ (sorted_pair a b) (all_pairs ds).
Proof.
  unfold cooccurrence_count.
  by rewrite tag_cooccurrence_all_pairs, counter_get.
Qed.

Lemma tag_cooccurrence_NoDup ds : NoDup (tag_cooccurrence ds).*1.
Proof.
  rewrite tag_cooccurrence_all_pairs. apply counter_NoDup, NoDup_nil_2.
Qed.

Lemma all_pairs_sorted ds k :
  k ∈ all_pairs ds → sorted_pair k.1 k.2 = k.
Proof.
  unfold all_pairs. intros (f & Hk & _)%list_elem_of_bind.
  unfold file_pairs in Hk. apply list_elem_of_fmap in Hk as ([x y] & -> & _).
  apply sorted_pair_idem.
Qed.

(** Every item of the counter holds the number of position pairs that
    sort to its key, and its key is a sorted pair. *)
Lemma tag_cooccurrence_item ds k c :
  (k, c) ∈ dict_items (tag_cooccurrence ds) →
  c = cooccurrence_count ds k.1 k.2 ∧ sorted_pair k.1 k.2 = k ∧ 1 ≤ c.
Proof.
  intros Hin. unfold dict_items in Hin.
  assert (k ∈ all_pairs ds) as Hk.
  { apply (list_elem_of_fmap_2 fst) in Hin. cbn in Hin.
    rewrite tag_cooccurrence_all_pairs in Hin.
    apply counter_keys in Hin as [Hin | Hin]; [|done].
    by apply elem_of_nil in Hin. }
  pose proof (all_pairs_sorted _ _ Hk) as Hs.
  apply dict_get_elem_NoDup in Hin; [|apply tag_cooccurrence_NoDup].
  unfold cooccurrence_count. rewrite Hs, Hin. cbn. split_and!; [done..|].
  pose proof (cooccurrence_count_occ ds k.1 k.2) as Hc.
  unfold cooccurrence_count in Hc. rewrite Hs, Hin in Hc. cbn in Hc.
  rewrite Hc. by apply occ_elem.
Qed.
End Counter.

(** ** The graph operations *)

Section GraphFacts.
Implicit Types (g : nx.Graph) (u v a b n : string) (dd kw : attrs).

Lemma contains_spec n g :
  nx.contains n g = true ↔ is_Some (dict_get n (nx.table g)).
Proof. unfold nx.contains, dict_contains. apply bool_decide_eq_true. Qed.

Lemma contains_false n g :
  nx.contains n g = false ↔ dict_get n (nx.table g) = None.
Proof.
  unfold nx.contains, dict_contains. rewrite bool_decide_eq_false.
  rewrite <-eq_None_not_Some. done.
Qed.

Lemma get_edge_data_empty a b : nx.get_edge_data nx.empty a b = None.
Proof. done. Qed.

Lemma get_edge_data_add_node n kw g a b :
  nx.get_edge_data (nx.add_node n kw g) a b = nx.get_edge_data g a b.
Proof.
  unfold nx.get_edge_data, nx.add_node.
  destruct (dict_get n (nx.table g)) as [e|] eqn:E; cbn;
    rewrite dict_get_set; destruct (decide (a = n)) as [->|Hne]; cbn;
    by rewrite ?E.
Qed.

Lemma get_edge_data_ensure_node n g a b :
  nx.get_edge_data (nx.ensure_node n g) a b = nx.get_edge_data g a b.
Proof.
  unfold nx.ensure_node. destruct (nx.contains n g) eqn:E; [done|].
  apply contains_false in E. unfold nx.get_edge_data. cbn.
  rewrite dict_get_set. destruct (decide (a = n)) as [->|Hne]; cbn;
    by rewrite ?E.
Qed.

Lemma contains_ensure_node n g a :
  nx.contains a (nx.ensure_node n g) = nx.contains a g || bool_decide (a = n).
Proof.
  unfold nx.ensure_node. destruct (nx.contains n g) eqn:E.
  - destruct (decide (a = n)) as [->|Hne].
    + by rewrite E.
    + rewrite (bool_decide_eq_false_2 (a = n)) by done. by rewrite orb_false_r.
  - unfold nx.contains, dict_contains. cbn. rewrite dict_get_set.
    destruct (decide (a = n)) as [->|Hne].
    + rewrite bool_decide_eq_true_2 by eauto.
      by rewrite (bool_decide_eq_true_2 (n = n)), orb_true_r.
    + rewrite (bool_decide_eq_false_2 (a = n)) by done. by rewrite orb_false_r.
Qed.

Lemma get_edge_data_set_nbr u v dd g a b :
  nx.contains u g = true →
  nx.get_edge_data (nx.set_nbr u v dd g) a b
  = if decide (a = u ∧ b = v) then Some dd else nx.get_edge_data g a b.
Proof.
  intros [e E]%contains_spec. unfold nx.get_edge_data, nx.set_nbr.
  rewrite E. cbn. rewrite dict_get_set.
  destruct (decide (a = u)) as [->|Hne]; cbn.
  - rewrite dict_get_set, E. destruct (decide (b = v)) as [->|Hne].
    + by rewrite decide_True.
    + rewrite decide_False; [done | by intros [_ ?]].
  - rewrite decide_False; [done | by intros [? _]].
Qed.

Lemma contains_set_nbr u v dd g a :
  nx.contains a (nx.set_nbr u v dd g) = nx.contains a g.
Proof.
  unfold nx.set_nbr. destruct (dict_get u (nx.table g)) as [e|] eqn:E; [|done].
  unfold nx.contains, dict_contains. cbn. rewrite dict_get_set.
  destruct (decide (a = u)) as [->|Hne]; [|done].
  rewrite E. apply bool_decide_ext. split; eauto.
Qed.

(** After [add_edge(u, v, **at)] the data dict of the edge is the old
    one (or an empty one) updated with [at], seen from both endpoints;
    all other edges are untouched. *)
Lemma get_edge_data_add_edge u v kw g a b :
  nx.get_edge_data (nx.add_edge u v kw g) a b
  = if decide ((a = u ∧ b = v) ∨ (a = v ∧ b = u))
    then Some (dict_update (default [] (nx.get_edge_data g u v)) kw)
    else nx.get_edge_data g a b.
Proof.
  unfold nx.add_edge.
  set (g1 := nx.ensure_node v (nx.ensure_node u g)).
  assert (nx.contains u g1 = true) as Hu.
  { unfold g1. rewrite !contains_ensure_node.
    rewrite (bool_decide_eq_true_2 (u = u)) by done.
    by rewrite orb_true_r. }
  assert (nx.contains v g1 = true) as Hv.
  { unfold g1. rewrite contains_ensure_node.
    rewrite (bool_decide_eq_true_2 (v = v)) by done.
    by rewrite orb_true_r. }
  assert (∀ x y, nx.get_edge_data g1 x y = nx.get_edge_data g x y) as Hg1.
  { intros x y. unfold g1. by rewrite !get_edge_data_ensure_node. }
  rewrite get_edge_data_set_nbr by (by rewrite contains_set_nbr).
  rewrite get_edge_data_set_nbr by done. rewrite !Hg1.
  destruct (decide (a = v ∧ b = u)) as [Hvu|Hvu].
  - rewrite decide_True by auto. done.
  - destruct (decide (a = u ∧ b = v)) as [Huv|Huv].
    + rewrite decide_True by auto. done.
    + rewrite decide_False; [done | by intros [?|?]].
Qed.

Lemma contains_add_node n kw g a :
  nx.contains a (nx.add_node n kw g) = nx.contains a g || bool_decide (a = n).
Proof.
  unfold nx.add_node, nx.contains, dict_contains.
  destruct (dict_get n (nx.table g)) as [e|] eqn:E; cbn;
    rewrite dict_get_set; destruct (decide (a = n)) as [->|Hne].
  - rewrite E, !bool_decide_eq_true_2 by eauto. done.
  - rewrite (bool_decide_eq_false_2 (a = n)) by done. by rewrite orb_false_r.
  - rewrite E, (bool_decide_eq_true_2 (n = n)) by done.
    rewrite orb_true_r. apply bool_decide_eq_true_2. eauto.
  - rewrite (bool_decide_eq_false_2 (a = n)) by done. by rewrite orb_false_r.
Qed.
End GraphFacts.

(** ** Position pairs *)

Lemma pairs_lt_elem {A} (l : list A) (x y : A) :
  (x, y) ∈ pairs_lt l → x ∈ l ∧ y ∈ l.
Proof.
  induction l as [|z l IH]; cbn; [by intros ?%elem_of_nil|].
  intros [Hin | Hin]%elem_of_app.
  - apply list_elem_of_fmap in Hin as (w & [= -> ->] & Hw).
    split; [left | by right].
  - destruct (IH Hin). split; by right.
Qed.

Lemma pairs_lt_total {A} (l : list A) (x y : A) :
  x ∈ l → y ∈ l → x ≠ y → (x, y) ∈ pairs_lt l ∨ (y, x) ∈ pairs_lt l.
Proof.
  induction l as [|z l IH]; [by intros ?%elem_of_nil|].
  intros Hx Hy Hne. cbn. rewrite !elem_of_app.
  apply elem_of_cons in Hx as [-> | Hx]; apply elem_of_cons in Hy as [-> | Hy].
  - done.
  - left. left. by apply (list_elem_of_fmap_2 (pair z)).
  - right. left. by apply (list_elem_of_fmap_2 (pair z)).
  - destruct (IH Hx Hy Hne); auto.
Qed.

Lemma pairs_lt_NoDup_ne {A} (l : list A) (x y : A) :
  NoDup l → (x, y) ∈ pairs_lt l → x ≠ y.
Proof.
  induction l as [|z l IH]; cbn; [by intros _ ?%elem_of_nil|].
  intros [Hz Hnd]%NoDup_cons [Hin | Hin]%elem_of_app.
  - apply list_elem_of_fmap in Hin as (w & [= -> ->] & Hw). by intros ->.
  - by apply IH.
Qed.

Lemma pairs_lt_fmap {A B} (f : A → B) (l : list A) :
  pairs_lt (f <$> l) = prod_map f f <$> pairs_lt l.
Proof.
  induction l as [|z l IH]; [done|].
  cbn [pairs_lt]. rewrite fmap_cons. cbn [pairs_lt].
  rewrite fmap_app, IH. f_equal.
  change (map (pair (f z)) (f <$> l)) with (pair (f z) <$> (f <$> l)).
  change (map (pair z) l) with (pair z <$> l).
  rewrite <-!list_fmap_compose. done.
Qed.

Lemma pairs_lt_sorted_NoDup (l : list string) :
  NoDup l →
  NoDup ((λ p, KnowledgeGraph.sorted_pair p.1 p.2) <$> pairs_lt l).
Proof.
  induction l as [|z l IH]; intros Hnd; [apply NoDup_nil_2|].
  apply NoDup_cons in Hnd as [Hz Hnd]. cbn [pairs_lt].
  rewrite fmap_app. apply NoDup_app. split_and!.
  - change (map (pair z) l) with (pair z <$> l).
    rewrite <-list_fmap_compose. apply NoDup_fmap_2_strong; [|done].
    intros x y _ _ Heq. cbn in Heq.
    apply sorted_pair_eq in Heq as [[_ ?] | [-> <-]]; done.
  - intros k Hk1 Hk2.
    apply list_elem_of_fmap in Hk1 as ([x y] & -> & Hxy).
    apply list_elem_of_fmap in Hxy as (w & [= -> ->] & Hw).
    apply list_elem_of_fmap in Hk2 as ([p q] & Heq & Hpq). cbn in Heq.
    apply pairs_lt_elem in Hpq as [Hp Hq].
    apply sorted_pair_eq in Heq as [[-> _] | [-> _]]; done.
  - by apply IH.
Qed.

Lemma NoDup_fmap_elem_inj {A B} (f : A → B) (l : list A) (x y : A) :
  NoDup (f <$> l) → x ∈ l → y ∈ l → f x = f y → x = y.
Proof.
  induction l as [|z l IH]; [by intros _ ?%elem_of_nil|].
  rewrite fmap_cons. intros [Hz Hnd]%NoDup_cons Hx Hy Heq.
  apply elem_of_cons in Hx as [-> | Hx]; apply elem_of_cons in Hy as [-> | Hy].
  - done.
  - exfalso. apply Hz. rewrite Heq. by apply list_elem_of_fmap_2.
  - exfalso. apply Hz. rewrite <-Heq. by apply list_elem_of_fmap_2.
  - by apply IH.
Qed.

(** ** Lists of edge insertions *)

Lemma for_each_omap {A B St} (h : A → option B) (body : B → St → St)
    (l : list A) (s : St) :
  for_each l (λ x s', match h x with Some r => body r s' | None => s' end) s
  = for_each (omap h l) body s.
Proof.
  revert s. induction l as [|x l IH]; intros s; [done|].
  cbn. destruct (h x); cbn; apply IH.
Qed.

Lemma NoDup_omap_key {A B K} (key : A → K) (h : A → option B)
    (key' : B → K) (l : list A) :
  (∀ x r, x ∈ l → h x = Some r → key' r = key x) →
  NoDup (key <$> l) → NoDup (key' <$> omap h l).
Proof.
  induction l as [|x l IH]; intros Hkey Hnd; [apply NoDup_nil_2|].
  rewrite fmap_cons in Hnd. apply NoDup_cons in Hnd as [Hx Hnd].
  assert (NoDup (key' <$> omap h l)) as IH'.
  { apply IH; [|done]. intros y r Hy. apply Hkey. by right. }
  cbn. destruct (h x) as [r|] eqn:E; [|done].
  rewrite fmap_cons. apply NoDup_cons. split; [|done].
  intros Hin. apply Hx.
  apply list_elem_of_fmap in Hin as (r' & Hr' & Hin).
  apply list_elem_of_omap in Hin as (y & Hy & Hhy).
  rewrite <-(Hkey x r), Hr' by (done || left).
  rewrite (Hkey y r') by (done || by right). by apply list_elem_of_fmap_2.
Qed.

Lemma apply_reqs_other (rs : list edge_req) (g : nx.Graph) (a b : string) :
  (∀ r, r ∈ rs → req_key r ≠ KnowledgeGraph.sorted_pair a b) →
  nx.get_edge_data (apply_reqs rs g) a b = nx.get_edge_data g a b.
Proof.
  revert g. induction rs as [|[[u v] kw] rs IH]; intros g Hrs; [done|].
  cbn. fold (apply_reqs rs (nx.add_edge u v kw g)).
  rewrite IH by (intros r Hr; apply Hrs; by right).
  rewrite get_edge_data_add_edge. rewrite decide_False; [done|].
  intros Huv. apply (Hrs (u, v, kw)); [left|].
  unfold req_key. cbn. apply sorted_pair_eq.
  destruct Huv as [[-> ->] | [-> ->]]; auto.
Qed.

Lemma apply_reqs_unique (rs : list edge_req) (g : nx.Graph) (a b : string)
    (r : edge_req) :
  edge_free g → NoDup (req_key <$> rs) → r ∈ rs →
  req_key r = KnowledgeGraph.sorted_pair a b →
  nx.get_edge_data (apply_reqs rs g) a b = Some (dict_update [] r.2).
Proof.
  intros Hg Hnd Hr Hkey.
  apply list_elem_of_split in Hr as (rs1 & rs2 & ->).
  rewrite fmap_app, fmap_cons in Hnd.
  apply NoDup_app in Hnd as (_ & Hdisj & [Hr2 _]%NoDup_cons).
  unfold apply_reqs. rewrite for_each_app. cbn.
  fold (apply_reqs rs1 g).
  fold (apply_reqs rs2 (nx.add_edge r.1.1 r.1.2 r.2 (apply_reqs rs1 g))).
  rewrite apply_reqs_other.
  2:{ intros r' Hr' Heq. apply Hr2. rewrite Hkey, <-Heq.
      by apply list_elem_of_fmap_2. }
  rewrite get_edge_data_add_edge. rewrite decide_True.
  2:{ unfold req_key in Hkey. apply sorted_pair_eq in Hkey.
      destruct Hkey as [[-> ->] | [-> ->]]; auto. }
  rewrite apply_reqs_other, Hg; [done|].
  intros r' Hr' Heq. apply (Hdisj (req_key r')).
  - by apply list_elem_of_fmap_2.
  - rewrite Heq. left.
Qed.

(** ** The tag graph *)

Section TagGraph.
Import KnowledgeGraph Store.
Implicit Types (ds : DataStore.t) (g : nx.Graph) (a b : string).

Lemma add_nodes_edge_free {A} (l : list A) (id : A → string)
    (kw : A → attrs) g :
  edge_free g → edge_free (for_each l (λ x, nx.add_node (id x) (kw x)) g).
Proof.
  revert g. induction l as [|x l IH]; intros g Hg; [done|].
  cbn. apply IH. intros a b. by rewrite get_edge_data_add_node.
Qed.

Lemma add_cooccurrence_edge_req ds item g :
  add_cooccurrence_edge ds item g
  = match cooccurrence_req ds item with
    | Some r => nx.add_edge r.1.1 r.1.2 r.2 g
    | None => g
    end.
Proof.
  destruct item as [[x y] c]. unfold add_cooccurrence_edge, cooccurrence_req.
  cbn. destruct (2 <=? c); [|done].
  by destruct (DataStore.get_tag ds x), (DataStore.get_tag ds y).
Qed.

Lemma _build_tag_graph_reqs ds :
  graph (_build_tag_graph (mk ds nx.empty))
  = apply_reqs (omap (cooccurrence_req ds) (tag_cooccurrence ds))
      (tag_nodes_graph ds).
Proof.
  unfold _build_tag_graph, apply_reqs. cbn.
  rewrite <-for_each_omap. apply for_each_ext. intros item g _.
  apply add_cooccurrence_edge_req.
Qed.

Lemma strength_of_comm c t1 t2 : strength_of c t1 t2 = strength_of c t2 t1.
Proof. unfold strength_of. by rewrite Z.max_comm. Qed.

Lemma cooccurrence_attrs_comm c t1 t2 :
  cooccurrence_attrs c t1 t2 = cooccurrence_attrs c t2 t1.
Proof. unfold cooccurrence_attrs. by rewrite strength_of_comm. Qed.

Lemma cooccurrence_count_comm ds a b :
  cooccurrence_count ds a b = cooccurrence_count ds b a.
Proof. unfold cooccurrence_count. by rewrite sorted_pair_comm. Qed.

Lemma cooccurrence_count_sorted ds a b :
  cooccurrence_count ds (sorted_pair a b).1 (sorted_pair a b).2
  = cooccurrence_count ds a b.
Proof. unfold cooccurrence_count. by rewrite sorted_pair_idem. Qed.

(** The insertions performed by the edge loop of [_build_tag_graph] whose
    endpoints are [a] and [b]: at most one, decided by the pair's counter. *)
Lemma cooccurrence_req_elem ds a b r :
  r ∈ omap (cooccurrence_req ds) (tag_cooccurrence ds)
  ∧ req_key r = sorted_pair a b
  ↔ cooccurrence_req ds (sorted_pair a b, cooccurrence_count ds a b) = Some r.
Proof.
  split.
  - intros [Hr Hkey]. apply list_elem_of_omap in Hr as ([k c] & Hin & Hreq).
    apply tag_cooccurrence_item in Hin as (Hc & Hs & _). cbn in Hc, Hs.
    assert (req_key r = k) as Hk.
    { unfold cooccurrence_req in Hreq. cbn in Hreq.
      destruct (2 <=? c); [|done].
      destruct (DataStore.get_tag ds k.1), (DataStore.get_tag ds k.2);
        try done. injection Hreq as <-. done. }
    rewrite <-Hkey, Hk, <-(cooccurrence_count_sorted ds a b).
    rewrite <-Hkey, Hk, <-Hc. done.
  - intros Hreq. set (k := sorted_pair a b) in *.
    set (c := cooccurrence_count ds a b) in *.
    assert (2 ≤ c) as Hc.
    { unfold cooccurrence_req in Hreq. cbn in Hreq.
      destruct (Z.leb_spec 2 c); [done | discriminate]. }
    assert (dict_get k (tag_cooccurrence ds) = Some c) as Hget.
    { subst c. unfold cooccurrence_count in *. fold k in Hc |- *.
      destruct (dict_get k (tag_cooccurrence ds)); cbn in *; [done | lia]. }
    split.
    + apply list_elem_of_omap. exists (k, c). split; [|done].
      by apply dict_get_Some_elem.
    + unfold cooccurrence_req in Hreq. cbn in Hreq.
      destruct (2 <=? c); [|done].
      destruct (DataStore.get_tag ds k.1), (DataStore.get_tag ds k.2);
        try done. injection Hreq as <-. unfold req_key. cbn.
      apply sorted_pair_idem.
Qed.

Lemma cooccurrence_reqs_NoDup ds :
  NoDup (req_key <$> omap (cooccurrence_req ds) (tag_cooccurrence ds)).
Proof.
  apply (NoDup_omap_key fst); [|apply tag_cooccurrence_NoDup].
  intros [k c] r Hin Hreq.
  apply tag_cooccurrence_item in Hin as (_ & Hs & _). cbn in Hs. cbn.
  unfold cooccurrence_req in Hreq. cbn in Hreq.
  destruct (2 <=? c); [|done].
  destruct (DataStore.get_tag ds k.1), (DataStore.get_tag ds k.2);
    try done. injection Hreq as <-. done.
Qed.

(** The edge between [a] and [b] after [_build_tag_graph] on a cleared graph. *)
Lemma tag_graph_edge ds a b :
  nx.get_edge_data (graph (_build_tag_graph (mk ds nx.empty))) a b
  = match DataStore.get_tag ds a, DataStore.get_tag ds b with
    | Some ta, Some tb =>
        if 2 <=? cooccurrence_count ds a b
        then Some (cooccurrence_attrs (cooccurrence_count ds a b) ta tb)
        else None
    | _, _ => None
    end.
Proof.
  rewrite _build_tag_graph_reqs.
  assert (edge_free (tag_nodes_graph ds)) as Hfree.
  { apply add_nodes_edge_free. intros x y. apply get_edge_data_empty. }
  destruct (cooccurrence_req ds (sorted_pair a b, cooccurrence_count ds a b))
    as [r|] eqn:Hreq.
  - pose proof Hreq as [Hr Hkey]%cooccurrence_req_elem.
    rewrite (apply_reqs_unique _ _ a b r Hfree (cooccurrence_reqs_NoDup ds) Hr Hkey).
    unfold cooccurrence_req in Hreq. cbn in Hreq.
    destruct (2 <=? cooccurrence_count ds a b); [|done].
    destruct (sorted_pair_cases a b) as [E | E]; rewrite E in Hreq; cbn in Hreq.
    + destruct (DataStore.get_tag ds a), (DataStore.get_tag ds b); try done.
      by injection Hreq as <-.
    + destruct (DataStore.get_tag ds b), (DataStore.get_tag ds a); try done.
      injection Hreq as <-. cbn. by rewrite cooccurrence_attrs_comm.
  - rewrite apply_reqs_other, Hfree.
    2:{ intros r Hr Hkey.
        by rewrite (proj1 (cooccurrence_req_elem ds a b r)) in Hreq. }
    unfold cooccurrence_req in Hreq. cbn in Hreq.
    destruct (2 <=? cooccurrence_count ds a b).
    2:{ by destruct (DataStore.get_tag ds a), (DataStore.get_tag ds b). }
    destruct (sorted_pair_cases a b) as [E | E]; rewrite E in Hreq; cbn in Hreq.
    + by destruct (DataStore.get_tag ds a), (DataStore.get_tag ds b).
    + by destruct (DataStore.get_tag ds b), (DataStore.get_tag ds a).
Qed.

Lemma generate_tags kg :
  generate "tags" kg = Return (_build_tag_graph (mk (datastore kg) nx.empty)).
Proof. done. Qed.
End TagGraph.

(** ** The counter on stores without repeated tags *)

Section CounterNoDup.
Import KnowledgeGraph Store.
Implicit Types (ds : DataStore.t) (f : File.t) (a b : string).

Lemma file_pairs_elem f a b :
  NoDup (File.tags f) →
  sorted_pair a b ∈ file_pairs f
  ↔ a ≠ b ∧ a ∈ File.tags f ∧ b ∈ File.tags f.
Proof.
  intros Hnd. unfold file_pairs. split.
  - intros ([x y] & Heq & Hin)%list_elem_of_fmap. cbn in Heq.
    pose proof (pairs_lt_NoDup_ne _ _ _ Hnd Hin) as Hne.
    apply pairs_lt_elem in Hin as [Hx Hy].
    apply sorted_pair_eq in Heq as [[-> ->] | [-> ->]]; auto.
  - intros (Hne & Ha & Hb).
    destruct (pairs_lt_total _ _ _ Ha Hb Hne) as [Hin | Hin].
    + by apply (list_elem_of_fmap_2' _ _ (a, b)).
    + apply (list_elem_of_fmap_2' _ _ (b, a)); [done|]. apply sorted_pair_comm.
Qed.

Lemma file_pairs_occ f a b :
  NoDup (File.tags f) →
  occ (sorted_pair a b) (file_pairs f)
  = if decide (a ≠ b ∧ a ∈ File.tags f ∧ b ∈ File.tags f) then 1 else 0.
Proof.
  intros Hnd. rewrite occ_NoDup by by apply pairs_lt_sorted_NoDup.
  apply decide_ext. by apply file_pairs_elem.
Qed.

Lemma occ_all_pairs (files : list File.t) a b :
  (∀ f, f ∈ files → NoDup (File.tags f)) →
  occ (sorted_pair a b) (files ≫= file_pairs)
  = if decide (a = b) then 0
    else Z.of_nat (length (filter (λ f, a ∈ File.tags f ∧ b ∈ File.tags f) files)).
Proof.
  induction files as [|f files IH]; intros Hnd.
  - by destruct (decide (a = b)).
  - rewrite bind_cons, occ_app, IH by (intros f' Hf'; apply Hnd; by right).
    rewrite file_pairs_occ by (apply Hnd; left). rewrite filter_cons.
    destruct (decide (a = b)) as [->|Hne].
    + rewrite decide_False; [done | by intros [? _]].
    + destruct (decide (a ∈ File.tags f ∧ b ∈ File.tags f)) as [Hab|Hab].
      * rewrite decide_True by done. cbn [length]. lia.
      * rewrite decide_False; [done | by intros [_ ?]].
Qed.

(** Without repeated tags, the counter of two different tags is the
    number of files that carry both. *)
Lemma cooccurrence_count_files ds a b :
  tags_nodup ds → a ≠ b →
  cooccurrence_count ds a b = Z.of_nat (length (files_with_both ds a b)).
Proof.
  intros Hnd Hne. rewrite cooccurrence_count_occ. unfold all_pairs.
  rewrite occ_all_pairs by by apply Forall_forall. by rewrite decide_False.
Qed.

Lemma cooccurrence_count_self ds a :
  tags_nodup ds → cooccurrence_count ds a a = 0.
Proof.
  intros Hnd. rewrite cooccurrence_count_occ. unfold all_pairs.
  rewrite occ_all_pairs by by apply Forall_forall. by rewrite decide_True.
Qed.

Lemma files_with_both_le ds a b :
  (length (files_with_both ds a b) ≤ length (files_with ds a))%nat.
Proof.
  unfold files_with_both, files_with.
  induction (dict_values (DataStore.files ds)) as [|f l IH]; [done|].
  rewrite !filter_cons.
  destruct (decide (a ∈ File.tags f ∧ b ∈ File.tags f)) as [[Ha _]|Hab].
  - rewrite decide_True by done. cbn [length]. lia.
  - destruct (decide (a ∈ File.tags f)); cbn [length]; lia.
Qed.

Lemma cooccurrence_count_le_usage ds a b ta :
  tags_nodup ds → usage_consistent ds →
  DataStore.get_tag ds a = Some ta →
  cooccurrence_count ds a b ≤ Tag.usage_count ta.
Proof.
  intros Hnd Hus Hta. apply dict_get_Some_elem in Hta.
  apply (proj1 (Forall_forall _ _) Hus) in Hta. cbn in Hta.
  destruct (decide (a = b)) as [<-|Hne].
  - rewrite cooccurrence_count_self by done. lia.
  - rewrite cooccurrence_count_files by done.
    pose proof (files_with_both_le ds a b). lia.
Qed.
End CounterNoDup.

(** ** Rational comparisons and the Jaccard similarity *)

Lemma Qltb_lt (a b : Q) : Qltb a b = true ↔ (a < b)%Q.
Proof.
  unfold Qltb. rewrite negb_true_iff, <-not_true_iff_false, Qle_bool_iff.
  split; [apply Qnot_le_lt | apply Qlt_not_le].
Qed.

Lemma Qltb_ge (a b : Q) : Qltb a b = false ↔ (b <= a)%Q.
Proof. unfold Qltb. by rewrite negb_false_iff, Qle_bool_iff. Qed.

Lemma Qred_ratio_bounds (n d : nat) :
  (n ≤ d)%nat →
  (0 <= Qred (Z.of_nat n # Pos.of_nat d))%Q
  ∧ (Qred (Z.of_nat n # Pos.of_nat d) <= 1)%Q.
Proof.
  intros Hle. rewrite !Qred_correct. unfold Qle. cbn. split; [lia|].
  destruct d as [|d]; [assert (n = 0%nat) as -> by lia; cbn; lia|].
  rewrite Z.mul_1_r, Z.mul_1_l.
  assert (Z.pos (Pos.of_nat (S d)) = Z.of_nat (S d)) as -> by lia. lia.
Qed.

Section Similarity.
Import KnowledgeGraph.
Implicit Types (f : File.t).

Lemma _calculate_tag_similarity_comm f1 f2 :
  _calculate_tag_similarity f1 f2 = _calculate_tag_similarity f2 f1.
Proof.
  unfold _calculate_tag_similarity. rewrite orb_comm.
  destruct (_ || _); [done|].
  assert (∀ X Y : gset string, X ∩ Y = Y ∩ X) as Hcomm
    by (intros X Y; apply leibniz_equiv, (comm (∩))).
  rewrite (Hcomm (list_to_set (File.tags f1))).
  rewrite (comm_L (∪) (list_to_set (File.tags f1) : gset string)). done.
Qed.

(** The similarity is a number between 0 and 1. *)
Lemma _calculate_tag_similarity_bounds f1 f2 :
  (0 <= _calculate_tag_similarity f1 f2)%Q
  ∧ (_calculate_tag_similarity f1 f2 <= 1)%Q.
Proof.
  unfold _calculate_tag_similarity.
  destruct (_ || _); [done|]. cbn zeta.
  destruct (0 <? _)%nat; [|done].
  apply Qred_ratio_bounds, subseteq_size.
  etrans; [apply intersection_subseteq_l | apply union_subseteq_l].
Qed.
End Similarity.

(** ** The file graph *)

Section FileGraph.
Import KnowledgeGraph Store.
Implicit Types (ds : DataStore.t) (g : nx.Graph) (f : File.t).

Lemma add_similarity_edge_req f1 f2 g :
  add_similarity_edge f1 f2 g
  = match similarity_req (f1, f2) with
    | Some r => nx.add_edge r.1.1 r.1.2 r.2 g
    | None => g
    end.
Proof.
  unfold add_similarity_edge, similarity_req. cbn. by destruct (Qltb _ _).
Qed.

Lemma _build_file_graph_reqs ds :
  graph (_build_file_graph (mk ds nx.empty))
  = apply_reqs
      (omap similarity_req (pairs_lt (dict_values (DataStore.files ds))))
      (file_nodes_graph ds).
Proof.
  unfold _build_file_graph, apply_reqs. cbn.
  rewrite (for_each_enumerate_drop (λ p, add_similarity_edge p.1 p.2)).
  rewrite <-for_each_omap. apply for_each_ext. intros [f1 f2] g _.
  apply add_similarity_edge_req.
Qed.

Lemma similarity_req_key p r :
  similarity_req p = Some r →
  req_key r = sorted_pair (File.file_id p.1) (File.file_id p.2).
Proof.
  unfold similarity_req. cbn. destruct (Qltb _ _); [|done].
  by intros [= <-].
Qed.

Lemma similarity_reqs_NoDup ds :
  file_ids_distinct ds →
  NoDup (req_key <$>
           omap similarity_req (pairs_lt (dict_values (DataStore.files ds)))).
Proof.
  intros Hids.
  apply (NoDup_omap_key
           (λ p, sorted_pair (File.file_id p.1) (File.file_id p.2))).
  - intros p r _. apply similarity_req_key.
  - apply pairs_lt_sorted_NoDup in Hids.
    rewrite pairs_lt_fmap, <-list_fmap_compose in Hids.
    eapply (eq_rect _ NoDup Hids). apply list_fmap_ext. by intros i [x y] _.
Qed.

(** The edge between two files of different identifiers after
    [_build_file_graph] on a cleared graph. *)
Lemma file_graph_edge ds f1 f2 :
  file_ids_distinct ds →
  f1 ∈ dict_values (DataStore.files ds) →
  f2 ∈ dict_values (DataStore.files ds) →
  File.file_id f1 ≠ File.file_id f2 →
  nx.get_edge_data (graph (_build_file_graph (mk ds nx.empty)))
    (File.file_id f1) (File.file_id f2)
  = if Qltb (3 # 10) (_calculate_tag_similarity f1 f2)
    then Some (similarity_attrs (_calculate_tag_similarity f1 f2))
    else None.
Proof.
  intros Hids H1 H2 Hne. rewrite _build_file_graph_reqs.
  assert (edge_free (file_nodes_graph ds)) as Hfree.
  { apply add_nodes_edge_free. intros x y. apply get_edge_data_empty. }
  destruct (Qltb _ _) eqn:Hsim.
  - assert (f1 ≠ f2) as Hne' by congruence.
    destruct (pairs_lt_total _ _ _ H1 H2 Hne') as [Hin | Hin].
    + rewrite (apply_reqs_unique _ _ _ _
                 (File.file_id f1, File.file_id f2,
                  similarity_attrs (_calculate_tag_similarity f1 f2)));
        [done | done | by apply similarity_reqs_NoDup | | done].
      apply list_elem_of_omap. exists (f1, f2). split; [done|].
      unfold similarity_req. cbn. by rewrite Hsim.
    + rewrite (apply_reqs_unique _ _ _ _
                 (File.file_id f2, File.file_id f1,
                  similarity_attrs (_calculate_tag_similarity f2 f1)));
        [by rewrite _calculate_tag_similarity_comm | done
        | by apply similarity_reqs_NoDup | | apply sorted_pair_comm].
      apply list_elem_of_omap. exists (f2, f1). split; [done|].
      unfold similarity_req. cbn.
      by rewrite (_calculate_tag_similarity_comm f2 f1), Hsim.
  - rewrite apply_reqs_other; [apply Hfree|].
    intros r ([p q] & Hin & Hreq)%list_elem_of_omap Hkey.
    rewrite (similarity_req_key _ _ Hreq) in Hkey. cbn in Hkey.
    apply pairs_lt_elem in Hin as [Hp Hq].
    unfold similarity_req in Hreq. cbn in Hreq.
    destruct (Qltb (3 # 10) (_calculate_tag_similarity p q)) eqn:Hpq; [|done].
    apply sorted_pair_eq in Hkey as [[Ep Eq] | [Ep Eq]].
    + apply (NoDup_fmap_elem_inj _ _ _ _ Hids) in Ep, Eq; try done.
      subst. congruence.
    + apply (NoDup_fmap_elem_inj _ _ _ _ Hids) in Ep, Eq; try done.
      subst. rewrite _calculate_tag_similarity_comm in Hpq. congruence.
Qed.

Lemma generate_files kg :
  generate "files" kg = Return (_build_file_graph (mk (datastore kg) nx.empty)).
Proof. done. Qed.
End FileGraph.

(** ** Payload ranges are kept by every edge insertion *)

Section Payloads.
Import KnowledgeGraph Store.
Implicit Types (ds : DataStore.t) (g : nx.Graph) (P : Q → Prop) (d : attrs).

Lemma edges_ok_empty P : edges_ok P nx.empty.
Proof. intros a b d. by rewrite get_edge_data_empty. Qed.

Lemma edges_ok_add_node P n kw g :
  edges_ok P g → edges_ok P (nx.add_node n kw g).
Proof. intros Hg a b d. rewrite get_edge_data_add_node. apply Hg. Qed.

Lemma edges_ok_add_edge P u v kw g :
  (∀ d0, edge_payload_ok P (dict_update d0 kw)) →
  edges_ok P g → edges_ok P (nx.add_edge u v kw g).
Proof.
  intros Hkw Hg a b d. rewrite get_edge_data_add_edge.
  destruct (decide _); [intros [= <-]; apply Hkw | apply Hg].
Qed.

Lemma edges_ok_for_each {A} P (l : list A) (body : A → nx.Graph → nx.Graph) g :
  (∀ x g', x ∈ l → edges_ok P g' → edges_ok P (body x g')) →
  edges_ok P g → edges_ok P (for_each l body g).
Proof.
  revert g. induction l as [|x l IH]; intros g Hbody Hg; [done|].
  cbn. apply IH.
  - intros y g' Hy. apply Hbody. by right.
  - apply Hbody; [left | done].
Qed.

Lemma cooccurrence_payload_ok P c t1 t2 d0 :
  payload_in P "strength" [("strength", strength_of c t1 t2)] →
  edge_payload_ok P (dict_update d0 (cooccurrence_attrs c t1 t2)).
Proof.
  intros (v & q & Hv & Hq & HP). cbn in Hv. injection Hv as <-.
  unfold cooccurrence_attrs, dict_update. cbn [fold_left fst snd].
  split; intros Hty.
  - exists (strength_of c t1 t2), q.
    rewrite dict_get_set_ne, dict_get_set_eq by done. done.
  - by rewrite dict_get_set_eq in Hty.
Qed.

Lemma similarity_payload_ok P s d0 :
  unit_interval s →
  edge_payload_ok P (dict_update d0 [("weight", VFloat s); ("type", VStr "similarity")]).
Proof.
  intros Hs. unfold dict_update. cbn [fold_left fst snd].
  split; intros Hty.
  - by rewrite dict_get_set_eq in Hty.
  - exists (VFloat s), s.
    rewrite dict_get_set_ne, dict_get_set_eq by done. done.
Qed.

Lemma tagged_payload_ok P d0 :
  edge_payload_ok P (dict_update d0 [("type", VStr "tagged")]).
Proof.
  unfold dict_update. cbn [fold_left fst snd].
  split; intros Hty; by rewrite dict_get_set_eq in Hty.
Qed.

Lemma strength_of_nonneg c t1 t2 :
  0 ≤ c → payload_in nonneg "strength" [("strength", strength_of c t1 t2)].
Proof.
  intros Hc. unfold strength_of. destruct (0 <? _).
  - eexists _, _. split_and!; [done..|].
    unfold nonneg. rewrite Qred_correct. unfold Qle. cbn. lia.
  - by eexists _, _.
Qed.

Lemma strength_of_unit c t1 t2 :
  0 ≤ c → c ≤ Z.max (Tag.usage_count t1) (Tag.usage_count t2) →
  payload_in unit_interval "strength" [("strength", strength_of c t1 t2)].
Proof.
  intros Hc Hle. unfold strength_of.
  destruct (Z.ltb_spec 0 (Z.max (Tag.usage_count t1) (Tag.usage_count t2))).
  - eexists _, _. split_and!; [done..|].
    unfold unit_interval. rewrite !Qred_correct. unfold Qle. cbn.
    rewrite Z2Pos.id by done. lia.
  - by eexists _, _.
Qed.

Lemma edges_ok_build_tag_graph P kg :
  (∀ k c t1 t2,
     (k, c) ∈ dict_items (tag_cooccurrence (datastore kg)) → 2 ≤ c →
     DataStore.get_tag (datastore kg) k.1 = Some t1 →
     DataStore.get_tag (datastore kg) k.2 = Some t2 →
     payload_in P "strength" [("strength", strength_of c t1 t2)]) →
  edges_ok P (graph kg) → edges_ok P (graph (_build_tag_graph kg)).
Proof.
  intros HP Hg. unfold _build_tag_graph. cbn.
  apply edges_ok_for_each.
  - intros [[x y] c] g' Hin Hg'. unfold add_cooccurrence_edge.
    destruct (Z.leb_spec 2 c); [|done].
    destruct (DataStore.get_tag _ x) as [t1|] eqn:E1; [|done].
    destruct (DataStore.get_tag _ y) as [t2|] eqn:E2; [|done].
    apply edges_ok_add_edge; [|done].
    intros d0. apply cooccurrence_payload_ok. by apply (HP (x, y)).
  - apply edges_ok_for_each; [|done].
    intros tag g' _. apply edges_ok_add_node.
Qed.

Lemma edges_ok_build_file_graph P kg :
  edges_ok P (graph kg) → edges_ok P (graph (_build_file_graph kg)).
Proof.
  intros Hg. unfold _build_file_graph. cbn.
  apply edges_ok_for_each.
  - intros [i file1] g' _ Hg'. apply edges_ok_for_each; [|done].
    intros file2 g'' _ Hg''. unfold add_similarity_edge.
    destruct (Qltb _ _); [|done].
    apply edges_ok_add_edge; [|done].
    intros d0. apply similarity_payload_ok, _calculate_tag_similarity_bounds.
  - apply edges_ok_for_each; [|done].
    intros file g' _. apply edges_ok_add_node.
Qed.

Lemma edges_ok_link_tags_and_files P kg :
  edges_ok P (graph kg) → edges_ok P (graph (_link_tags_and_files kg)).
Proof.
  intros Hg. unfold _link_tags_and_files. cbn.
  apply edges_ok_for_each; [|done].
  intros file g' _ Hg'. apply edges_ok_for_each; [|done].
  intros tag_id g'' _ Hg''. destruct (_ && _); [|done].
  apply edges_ok_add_edge; [|done]. intros d0. apply tagged_payload_ok.
Qed.

Lemma edges_ok_generate P mode kg kg' :
  (∀ k c t1 t2,
     (k, c) ∈ dict_items (tag_cooccurrence (datastore kg)) → 2 ≤ c →
     DataStore.get_tag (datastore kg) k.1 = Some t1 →
     DataStore.get_tag (datastore kg) k.2 = Some t2 →
     payload_in P "strength" [("strength", strength_of c t1 t2)]) →
  generate mode kg = Return kg' → edges_ok P (graph kg').
Proof.
  intros HP [= <-].
  assert (edges_ok P (graph (mk (datastore kg) (nx.clear (graph kg))))) as H0
    by apply edges_ok_empty.
  set (kg0 := mk (datastore kg) (nx.clear (graph kg))) in *.
  assert (edges_ok P (graph (if bool_decide (mode ∈ ["tags"; "full"])
                             then _build_tag_graph kg0 else kg0))) as H1.
  { destruct (bool_decide _); [|done]. by apply edges_ok_build_tag_graph. }
  set (kg1 := if bool_decide (mode ∈ ["tags"; "full"]) then _ else _) in *.
  clearbody kg1.
  assert (edges_ok P (graph (if bool_decide (mode ∈ ["files"; "full"])
                             then _build_file_graph kg1 else kg1))) as H2.
  { destruct (bool_decide _); [|done]. by apply edges_ok_build_file_graph. }
  set (kg2 := if bool_decide (mode ∈ ["files"; "full"]) then _ else _) in *.
  clearbody kg2.
  destruct (bool_decide (mode = "full")); [|done].
  by apply edges_ok_link_tags_and_files.
Qed.
End Payloads.

(** ** Loops that may raise *)

Lemma bind_Return {A B} (a : A) (f : A → outcome B) : (Return a ≫= f) = f a.
Proof. done. Qed.

Lemma for_eachM_inv {A St} (I : St → Prop) (l : list A)
    (body : A → St → outcome St) (s s' : St) :
  (∀ x s1 s2, x ∈ l → I s1 → body x s1 = Return s2 → I s2) →
  I s → for_eachM l body s = Return s' → I s'.
Proof.
  revert s. induction l as [|x l IH]; intros s Hbody Hs; cbn.
  - by intros [= <-].
  - destruct (body x s) as [s1|e] eqn:E; cbn; [|done].
    apply IH.
    + intros y s2 s3 Hy. apply Hbody. by right.
    + apply (Hbody x s); [left | done..].
Qed.

(** ** Sorting *)

Section SortedFacts.
Context {A : Type} (key : A → Q).
Implicit Types (x y : A) (l : list A).

Lemma insert_desc_elem x y l : x ∈ insert_desc key y l ↔ x = y ∨ x ∈ l.
Proof.
  induction l as [|z l IH]; cbn.
  - rewrite list_elem_of_singleton, elem_of_nil. tauto.
  - destruct (Qltb _ _); rewrite !elem_of_cons, ?IH; tauto.
Qed.

Lemma sorted_desc_elem x l : x ∈ sorted_desc key l ↔ x ∈ l.
Proof.
  induction l as [|z l IH]; [done|].
  cbn. fold (sorted_desc key l). rewrite insert_desc_elem, IH, elem_of_cons.
  done.
Qed.

Lemma insert_desc_length y l :
  length (insert_desc key y l) = S (length l).
Proof.
  induction l as [|z l IH]; [done|].
  cbn. destruct (Qltb _ _); cbn; [by rewrite IH | done].
Qed.

Lemma sorted_desc_length l : length (sorted_desc key l) = length l.
Proof.
  induction l as [|z l IH]; [done|].
  cbn. fold (sorted_desc key l). by rewrite insert_desc_length, IH.
Qed.
End SortedFacts.

(** ** [find_orphans] *)

Section Orphans.
Import KnowledgeGraph.
Implicit Types (kg : t) (n : string).

Lemma find_orphans_step_node kg node_type n acc :
  n ∈ nx.nodes (graph kg) →
  find_orphans_step kg node_type n acc
  = Return (if is_orphan (graph kg) node_type n then acc ++ [n] else acc)%list.
Proof.
  intros [e E]%dict_get_is_Some.
  unfold find_orphans_step, is_orphan, nx.degree, nx.nodes_getitem.
  rewrite E. cbn. destruct (nx.degree_entry n e <=? 1); cbn; [|done].
  destruct node_type as [ty|]; cbn; [|done]. by destruct (bool_decide _).
Qed.

Lemma find_orphans_loop kg node_type (l acc : list string) :
  (∀ n, n ∈ l → n ∈ nx.nodes (graph kg)) →
  for_eachM l (find_orphans_step kg node_type) acc
  = Return (acc ++ filter (λ n, is_orphan (graph kg) node_type n = true) l)%list.
Proof.
  revert acc. induction l as [|n l IH]; intros acc Hl.
  - cbn. by rewrite app_nil_r.
  - cbn [for_eachM]. rewrite find_orphans_step_node by (apply Hl; left).
    rewrite bind_Return, IH by (intros m Hm; apply Hl; by right).
    rewrite filter_cons. destruct (is_orphan _ _ n).
    + rewrite decide_True by done. by rewrite <-app_assoc.
    + by rewrite decide_False by done.
Qed.

Lemma find_orphans_filter kg node_type :
  find_orphans node_type kg
  = Return (filter (λ n, is_orphan (graph kg) node_type n = true)
              (nx.nodes (graph kg))).
Proof. unfold find_orphans. by rewrite find_orphans_loop. Qed.

Lemma is_orphan_spec kg node_type n :
  is_orphan (graph kg) node_type n = true
  ↔ (∃ d, nx.degree (graph kg) n = Return d ∧ d ≤ 1)
    ∧ (∀ ty, node_type = Some ty →
         ∃ node_data, nx.nodes_getitem (graph kg) n = Return node_data
                      ∧ dict_get "type" node_data = Some (VStr ty)).
Proof.
  unfold is_orphan, nx.degree, nx.nodes_getitem.
  destruct (dict_get n (nx.table (graph kg))) as [e|].
  - rewrite andb_true_iff, Z.leb_le. split.
    + intros [Hd Hty]. split; [by eauto|].
      intros ty ->. apply bool_decide_eq_true in Hty. eauto.
    + intros [(d & [= <-] & Hd) Hty]. split; [done|].
      destruct node_type as [ty|]; [|done].
      destruct (Hty ty eq_refl) as (nd & [= <-] & Hnd).
      by apply bool_decide_eq_true.
  - split; [done|]. by intros [(d & ? & _) _].
Qed.
End Orphans.

(** ** [recommend_tags] *)

Section Recommend.
Import KnowledgeGraph.
Implicit Types (kg : t) (c : pydict string pynum).

Lemma counter_add_keys k w c c' x :
  counter_add k w c = Return c' → x ∈ c'.*1 → x = k ∨ x ∈ c.*1.
Proof.
  unfold counter_add. destruct (num_add _ w) as [s|]; cbn; [|done].
  intros [= <-]. rewrite dict_set_keys. destruct (decide _); [by right|].
  intros [Hx | ->%list_elem_of_singleton]%elem_of_app; auto.
Qed.

Lemma most_common_elem n c x : x ∈ most_common n c → x ∈ c.
Proof.
  unfold most_common. destruct (n <=? 0); [by intros ?%elem_of_nil|].
  intros (i & Hi & _)%elem_of_take.
  apply list_elem_of_lookup_2 in Hi. by apply sorted_desc_elem in Hi.
Qed.

Lemma most_common_nil n : most_common n [] = [].
Proof. unfold most_common. destruct (n <=? 0); [done|]. apply take_nil. Qed.

(** Every key of the scores gathered for a file is absent from its tags. *)
Lemma score_neighbor_fresh kg (file : File.t) tag_id nb c c' :
  score_neighbor kg file tag_id nb c = Return c' →
  (∀ k, k ∈ c.*1 → k ∉ File.tags file) →
  ∀ k, k ∈ c'.*1 → k ∉ File.tags file.
Proof.
  unfold score_neighbor.
  destruct (nx.nodes_getitem _ _) as [nd|]; cbn; [|done].
  destruct (bool_decide (dict_get "type" nd = _)); cbn; [|by intros [= <-]].
  destruct (bool_decide (nb ∉ _)) eqn:Hnb; cbn; [|by intros [= <-]].
  apply bool_decide_eq_true in Hnb.
  intros Hadd Hc k Hk.
  destruct (counter_add_keys _ _ _ _ _ Hadd Hk) as [-> | ?]; auto.
Qed.

Lemma score_tag_fresh kg (file : File.t) tag_id c c' :
  score_tag kg file tag_id c = Return c' →
  (∀ k, k ∈ c.*1 → k ∉ File.tags file) →
  ∀ k, k ∈ c'.*1 → k ∉ File.tags file.
Proof.
  unfold score_tag. destruct (nx.contains _ _); [|by intros [= <-]].
  destruct (nx.neighbors _ _) as [nbrs|]; cbn; [|done].
  intros Hloop Hc. revert Hloop.
  apply (for_eachM_inv (λ c, ∀ k, k ∈ c.*1 → k ∉ File.tags file)); [|done].
  intros nb c1 c2 _ H1 Hstep. by apply (score_neighbor_fresh _ _ _ _ _ _ Hstep).
Qed.

Lemma recommend_scores_fresh kg (file : File.t) (tags : list string) c :
  for_eachM tags (score_tag kg file) [] = Return c →
  ∀ k, k ∈ c.*1 → k ∉ File.tags file.
Proof.
  apply (for_eachM_inv (λ c, ∀ k, k ∈ c.*1 → k ∉ File.tags file)).
  - intros tag_id c1 c2 _ H1 Hstep. by apply (score_tag_fresh _ _ _ _ _ Hstep).
  - by intros k ?%elem_of_nil.
Qed.
End Recommend.

(** ** Node types *)

Section NodeTypes.
Import KnowledgeGraph.
Implicit Types (ds : DataStore.t) (g : nx.Graph) (n x u v : string).

Lemma node_type_add_node n kw g x :
  node_type (nx.add_node n kw g) x
  = if decide (x = n)
    then dict_get "type"
           (dict_update
              (match dict_get n (nx.table g) with
               | Some e => nx.attr e
               | None => []
               end) kw)
    else node_type g x.
Proof.
  unfold node_type, nx.add_node.
  destruct (dict_get n (nx.table g)) as [e|] eqn:E; cbn;
    rewrite dict_get_set; by destruct (decide (x = n)).
Qed.

Lemma node_type_ensure_node n g x :
  node_type (nx.ensure_node n g) x = node_type g x.
Proof.
  unfold nx.ensure_node. destruct (nx.contains n g) eqn:E; [done|].
  apply contains_false in E. unfold node_type. cbn. rewrite dict_get_set.
  destruct (decide (x = n)) as [->|]; [by rewrite E | done].
Qed.

Lemma node_type_set_nbr u v dd g x :
  node_type (nx.set_nbr u v dd g) x = node_type g x.
Proof.
  unfold nx.set_nbr. destruct (dict_get u (nx.table g)) as [e|] eqn:E; [|done].
  unfold node_type. cbn. rewrite dict_get_set.
  destruct (decide (x = u)) as [->|]; [by rewrite E | done].
Qed.

Lemma node_type_add_edge u v kw g x :
  node_type (nx.add_edge u v kw g) x = node_type g x.
Proof.
  unfold nx.add_edge.
  by rewrite !node_type_set_nbr, !node_type_ensure_node.
Qed.

Lemma tag_node_attrs_type tag d :
  dict_get "type" (dict_update d (tag_node_attrs tag)) = Some (VStr "tag").
Proof.
  unfold tag_node_attrs, dict_update. cbn [fold_left fst snd].
  by rewrite !dict_get_set_ne, dict_get_set_eq by done.
Qed.

Lemma node_type_add_tag_nodes (l : list Tag.t) g x :
  (∃ tag, tag ∈ l ∧ Tag.tag_id tag = x) ∨ node_type g x = Some (VStr "tag") →
  node_type
    (for_each l (λ tag, nx.add_node (Tag.tag_id tag) (tag_node_attrs tag)) g) x
  = Some (VStr "tag").
Proof.
  revert g. induction l as [|t l IH]; intros g Hx.
  - destruct Hx as [(tag & Hin & _) | Hx]; [by apply elem_of_nil in Hin | done].
  - cbn. apply IH.
    destruct (decide (x = Tag.tag_id t)) as [->|Hne].
    + right. rewrite node_type_add_node, decide_True by done.
      apply tag_node_attrs_type.
    + destruct Hx as [(tag & Hin & Htag) | Hx].
      * apply elem_of_cons in Hin as [-> | Hin]; [done | eauto].
      * right. by rewrite node_type_add_node, decide_False.
Qed.

Lemma node_type_tag_graph ds (tag : Tag.t) :
  tag ∈ dict_values (DataStore.tags ds) →
  node_type (graph (_build_tag_graph (mk ds nx.empty))) (Tag.tag_id tag)
  = Some (VStr "tag").
Proof.
  intros Hin. unfold _build_tag_graph. cbn.
  set (g1 := for_each (dict_values (DataStore.tags ds)) _ nx.empty).
  assert (node_type g1 (Tag.tag_id tag) = Some (VStr "tag")) as H1
    by (apply node_type_add_tag_nodes; eauto).
  clearbody g1. revert g1 H1.
  induction (dict_items (tag_cooccurrence ds)) as [|item l IH]; intros g H1;
    [done|].
  cbn. apply IH. rewrite add_cooccurrence_edge_req.
  destruct (cooccurrence_req ds item); [|done].
  by rewrite node_type_add_edge.
Qed.
End NodeTypes.

(** ** Graphs on which the recommendation cannot raise *)

Section Closed.
Import KnowledgeGraph.
Implicit Types (ds : DataStore.t) (g : nx.Graph) (n x u v : string).

Lemma contains_add_edge u v kw g x :
  nx.contains x (nx.add_edge u v kw g)
  = nx.contains x g || bool_decide (x = u) || bool_decide (x = v).
Proof.
  unfold nx.add_edge.
  by rewrite !contains_set_nbr, !contains_ensure_node.
Qed.

Lemma graph_closed_empty : graph_closed nx.empty.
Proof. intros u v d. by rewrite get_edge_data_empty. Qed.

Lemma graph_closed_add_node n kw g :
  graph_closed g → graph_closed (nx.add_node n kw g).
Proof.
  intros Hg u v d. rewrite get_edge_data_add_node, contains_add_node.
  intros [Hv Hw]%Hg. by rewrite Hv.
Qed.

Lemma graph_closed_add_edge u v kw g :
  (∀ d0, weight_ok d0 → weight_ok (dict_update d0 kw)) →
  graph_closed g → graph_closed (nx.add_edge u v kw g).
Proof.
  intros Hkw Hg a b d. rewrite get_edge_data_add_edge, contains_add_edge.
  destruct (decide _) as [Hab|Hab].
  - intros [= <-]. split.
    + destruct Hab as [[-> ->] | [-> ->]].
      * rewrite (bool_decide_eq_true_2 (v = v)) by done. by rewrite orb_true_r.
      * rewrite (bool_decide_eq_true_2 (u = u)) by done. by rewrite orb_true_r.
    + apply Hkw. destruct (nx.get_edge_data g u v) as [d0|] eqn:E; [|done].
      by destruct (Hg _ _ _ E).
  - intros [Hb Hw]%Hg. by rewrite Hb.
Qed.

Lemma graph_closed_for_each {A} (l : list A)
    (body : A → nx.Graph → nx.Graph) g :
  (∀ (y : A) g', graph_closed g' → graph_closed (body y g')) →
  graph_closed g → graph_closed (for_each l body g).
Proof.
  revert g. induction l as [|y l IH]; intros g Hbody Hg; [done|].
  cbn. apply IH; [done|]. by apply Hbody.
Qed.

Lemma weight_ok_cooccurrence c t1 t2 d0 :
  weight_ok (dict_update d0 (cooccurrence_attrs c t1 t2)).
Proof.
  unfold weight_ok, cooccurrence_attrs, dict_update. cbn [fold_left fst snd].
  by rewrite !dict_get_set_ne, dict_get_set_eq by done.
Qed.

Lemma weight_ok_similarity s d0 :
  weight_ok (dict_update d0 [("weight", VFloat s); ("type", VStr "similarity")]).
Proof.
  unfold weight_ok, dict_update. cbn [fold_left fst snd].
  by rewrite dict_get_set_ne, dict_get_set_eq by done.
Qed.

Lemma weight_ok_tagged d0 :
  weight_ok d0 → weight_ok (dict_update d0 [("type", VStr "tagged")]).
Proof.
  unfold weight_ok, dict_update. cbn [fold_left fst snd].
  by rewrite dict_get_set_ne by done.
Qed.

(** Every graph that [generate] returns is closed. *)
Lemma graph_closed_generate mode kg kg' :
  generate mode kg = Return kg' → graph_closed (graph kg').
Proof.
  intros [= <-].
  set (kg0 := mk (datastore kg) (nx.clear (graph kg))).
  assert (graph_closed (graph kg0)) as H0 by apply graph_closed_empty.
  clearbody kg0.
  assert (∀ k, graph_closed (graph k) → graph_closed (graph (_build_tag_graph k)))
    as Htag.
  { intros k Hk. unfold _build_tag_graph. cbn.
    apply graph_closed_for_each.
    - intros [[x y] c] g' Hg'. unfold add_cooccurrence_edge.
      destruct (2 <=? c); [|done].
      destruct (DataStore.get_tag _ x); [|done].
      destruct (DataStore.get_tag _ y); [|done].
      apply graph_closed_add_edge; [|done].
      intros d0 _. apply weight_ok_cooccurrence.
    - apply graph_closed_for_each; [|done].
      intros tag g'. apply graph_closed_add_node. }
  assert (∀ k, graph_closed (graph k) → graph_closed (graph (_build_file_graph k)))
    as Hfile.
  { intros k Hk. unfold _build_file_graph. cbn.
    apply graph_closed_for_each.
    - intros [i file1] g' Hg'. apply graph_closed_for_each; [|done].
      intros file2 g'' Hg''. unfold add_similarity_edge.
      destruct (Qltb _ _); [|done].
      apply graph_closed_add_edge; [|done].
      intros d0 _. apply weight_ok_similarity.
    - apply graph_closed_for_each; [|done].
      intros file g'. apply graph_closed_add_node. }
  assert (∀ k, graph_closed (graph k)
               → graph_closed (graph (_link_tags_and_files k))) as Hlink.
  { intros k Hk. unfold _link_tags_and_files. cbn.
    apply graph_closed_for_each; [|done].
    intros file g' Hg'. apply graph_closed_for_each; [|done].
    intros tag_id g'' Hg''. destruct (_ && _); [|done].
    apply graph_closed_add_edge; [|done]. apply weight_ok_tagged. }
  destruct (bool_decide (mode ∈ ["tags"; "full"])),
    (bool_decide (mode ∈ ["files"; "full"])),
    (bool_decide (mode = "full")); auto.
Qed.

Lemma for_eachM_total {A St} (I : St → Prop) (l : list A)
    (body : A → St → outcome St) (s : St) :
  (∀ (y : A) s1, y ∈ l → I s1 → ∃ s2, body y s1 = Return s2 ∧ I s2) →
  I s → ∃ s', for_eachM l body s = Return s' ∧ I s'.
Proof.
  revert s. induction l as [|y l IH]; intros s Hbody Hs; cbn; [by eauto|].
  destruct (Hbody y s) as (s1 & -> & Hs1); [left | done |].
  rewrite bind_Return. apply IH; [|done].
  intros z s2 Hz. apply Hbody. by right.
Qed.

Lemma edge_weight_Some d :
  edge_weight (Some d) = default (VInt 1) (dict_get "weight" d).
Proof. by destruct d. Qed.

Lemma counter_add_total k w c :
  numeric w → ∃ c', counter_add k w c = Return c'.
Proof.
  intros Hw. unfold counter_add.
  destruct (default (NInt 0) (dict_get k c)), w; cbn; by eauto.
Qed.

(** On a closed graph [recommend_tags] returns. *)
Lemma recommend_tags_total kg file_id top_n :
  graph_closed (graph kg) → ∃ recs, recommend_tags file_id top_n kg = Return recs.
Proof.
  intros Hg. unfold recommend_tags.
  destruct (DataStore.get_file _ _) as [file|]; [|by eauto].
  destruct (for_eachM_total (λ _, True) (File.tags file) (score_tag kg file) [])
    as (c & -> & _); [|done|by eauto].
  intros tag_id c1 _ _. unfold score_tag.
  destruct (nx.contains tag_id (graph kg)) eqn:Hc; [|by eauto].
  apply contains_spec in Hc as [e E]. unfold nx.neighbors. rewrite E.
  rewrite bind_Return.
  destruct (for_eachM_total (λ _, True) (dict_keys (nx.nbrs e))
              (score_neighbor kg file tag_id) c1) as (c2 & -> & _);
    [|done|by eauto].
  intros nb c3 Hnb _. unfold score_neighbor.
  apply dict_get_is_Some in Hnb as [d Hd].
  assert (nx.get_edge_data (graph kg) tag_id nb = Some d) as Hedge
    by (unfold nx.get_edge_data; by rewrite E).
  destruct (Hg _ _ _ Hedge) as [[e' E']%contains_spec Hw].
  unfold nx.nodes_getitem. rewrite E', bind_Return.
  destruct (_ && _); [|by eauto].
  rewrite Hedge, edge_weight_Some.
  destruct (counter_add_total nb _ c3 Hw) as [c4 ->]. by eauto.
Qed.
End Closed.

(** * The claims *)

Section Claims.
Import KnowledgeGraph Store Scenario.

(** C1 (amended).  In tags mode, for two tag ids [a] and [b] of the store,
    [generate] returns a graph with an edge between them if and only if
    the pair's counter is at least 2.  The counter counts the pairs of
    positions [i < j] of a file's tag list whose ids sort to the pair.  The
    edge's weight is the raw count, its type is cooccurrence, and its
    strength is the count divided by the larger of the two usage counts
    when that is positive and 0 otherwise.  When no file repeats a tag, the
    counter of two different tags is the number of files carrying both, so
    two tags that appear together on exactly one file get no edge.  A tag
    stored under its own id is a node of type tag. *)
Theorem C1_cooccurrence_edge_iff_counter (kg : t) (a b : string)
    (ta tb : Tag.t) :
  DataStore.get_tag (datastore kg) a = Some ta →
  DataStore.get_tag (datastore kg) b = Some tb →
  ∃ kg',
    generate "tags" kg = Return kg'
    ∧ cooccurrence_count (datastore kg) a b
      = occ (sorted_pair a b) (all_pairs (datastore kg))
    ∧ (2 ≤ cooccurrence_count (datastore kg) a b →
       nx.get_edge_data (graph kg') a b
       = Some
           [("weight", VInt (cooccurrence_count (datastore kg) a b));
            ("strength",
              if 0 <? Z.max (Tag.usage_count ta) (Tag.usage_count tb)
              then VFloat
                     (Qred (cooccurrence_count (datastore kg) a b
                            # Z.to_pos (Z.max (Tag.usage_count ta)
                                              (Tag.usage_count tb))))
              else VInt 0);
            ("type", VStr "cooccurrence")])
    ∧ (cooccurrence_count (datastore kg) a b < 2 →
       nx.get_edge_data (graph kg') a b = None)
    ∧ (tags_nodup (datastore kg) → a ≠ b →
       cooccurrence_count (datastore kg) a b
       = Z.of_nat (length (files_with_both (datastore kg) a b)))
    ∧ (tags_nodup (datastore kg) → a ≠ b →
       length (files_with_both (datastore kg) a b) = 1%nat →
       nx.get_edge_data (graph kg') a b = None)
    ∧ (Tag.tag_id ta = a → node_type (graph kg') a = Some (VStr "tag"))
    ∧ (Tag.tag_id tb = b → node_type (graph kg') b = Some (VStr "tag")).
Proof.
  intros Ha Hb. eexists. split; [apply generate_tags|].
  pose proof (tag_graph_edge (datastore kg) a b) as Hedge.
  rewrite Ha, Hb in Hedge.
  split; [apply cooccurrence_count_occ|].
  assert (cooccurrence_count (datastore kg) a b < 2 →
          nx.get_edge_data
            (graph (_build_tag_graph (mk (datastore kg) nx.empty))) a b
          = None) as Hnone.
  { intros Hlt. rewrite Hedge.
    destruct (Z.leb_spec 2 (cooccurrence_count (datastore kg) a b));
      [lia | done]. }
  split_and!.
  - intros Hge. rewrite Hedge.
    destruct (Z.leb_spec 2 (cooccurrence_count (datastore kg) a b));
      [done | lia].
  - done.
  - apply cooccurrence_count_files.
  - intros Hnd Hne Hone. apply Hnone.
    rewrite cooccurrence_count_files, Hone by done. lia.
  - intros <-. apply node_type_tag_graph.
    apply dict_get_Some_elem in Ha. by apply (list_elem_of_fmap_2 snd) in Ha.
  - intros <-. apply node_type_tag_graph.
    apply dict_get_Some_elem in Hb. by apply (list_elem_of_fmap_2 snd) in Hb.
Qed.

Lemma C1_cooccurrence_edge_iff_counter_witness :
  ∃ kg',
    generate "tags" kg0 = Return kg'
    ∧ nx.get_edge_data (graph kg') "A" "B"
      = Some [("weight", VInt 2); ("strength", VFloat (2 # 5));
              ("type", VStr "cooccurrence")]
    ∧ nx.get_edge_data (graph kg') "A" "C" = None.
Proof.
  destruct (C1_cooccurrence_edge_iff_counter kg0 "A" "B" A B eq_refl eq_refl)
    as (kg' & Hgen & _ & Hedge & _).
  exists kg'. split; [exact Hgen|]. split.
  - rewrite Hedge; [reflexivity | vm_compute; discriminate].
  - injection Hgen as <-. vm_compute. reflexivity.
Defined.

(** C1, as stated, fails: in [dup_store] the tags [A] and [B] appear
    together on exactly one file, [G1], and yet they get an edge. *)
Lemma C1_counterexample :
  files_with_both dup_store "A" "B" = [G1]
  ∧ ∃ kg',
      generate "tags" (__init__ dup_store) = Return kg'
      ∧ nx.get_edge_data (graph kg') "A" "B"
        = Some [("weight", VInt 4); ("strength", VFloat (4 # 5));
                ("type", VStr "cooccurrence")].
Proof. split; [by vm_compute|]. eexists. split; by vm_compute. Qed.

(** C10.  There is a store with a file that holds one tag id at two
    positions, for which the counter counts the id paired with itself, the
    counter of that self pair reaches 2 and a cooccurrence self-loop is
    added; and two different tags, both repeated in that one file and
    together on no other file, reach the threshold from that file alone and
    get an edge. *)
Theorem C10_pairs_counted_by_position :
  ∃ (ds : DataStore.t) (file : File.t) (t u : string) (kg' : KnowledgeGraph.t),
    file ∈ dict_values (DataStore.files ds)
    ∧ (∃ i j : nat, i ≠ j ∧ File.tags file !! i = Some t
                    ∧ File.tags file !! j = Some t)
    ∧ generate "tags" (__init__ ds) = Return kg'
    ∧ 1 ≤ occ (sorted_pair t t) (file_pairs file)
    ∧ 2 ≤ cooccurrence_count ds t t
    ∧ nx.get_edge_data (graph kg') t t
      = Some [("weight", VInt (cooccurrence_count ds t t));
              ("strength", VFloat (Qred (cooccurrence_count ds t t # 5)));
              ("type", VStr "cooccurrence")]
    ∧ t ≠ u
    ∧ files_with_both ds t u = [file]
    ∧ occ (sorted_pair t u) (file_pairs file) = cooccurrence_count ds t u
    ∧ 2 ≤ cooccurrence_count ds t u
    ∧ nx.get_edge_data (graph kg') t u
      = Some [("weight", VInt (cooccurrence_count ds t u));
              ("strength", VFloat (Qred (cooccurrence_count ds t u # 5)));
              ("type", VStr "cooccurrence")].
Proof.
  exists dup_store, G1, "A", "B". eexists. split_and!.
  - left.
  - by exists 0%nat, 2%nat.
  - apply generate_tags.
  - by vm_compute.
  - by vm_compute.
  - by vm_compute.
  - done.
  - by vm_compute.
  - by vm_compute.
  - by vm_compute.
  - by vm_compute.
Qed.

(** C4 (amended).  In every graph returned by [generate], whatever the
    mode, every similarity edge carries a weight between 0 and 1 and every
    cooccurrence edge carries a strength that is at least 0; the strength
    is also at most 1 when no file of the store repeats a tag and every
    tag's usage count is at least the number of files carrying the tag. *)
Theorem C4_payload_ranges (mode : string) (kg kg' : t) :
  generate mode kg = Return kg' →
  (∀ a b d, nx.get_edge_data (graph kg') a b = Some d →
     (dict_get "type" d = Some (VStr "similarity") →
      ∃ v q, dict_get "weight" d = Some v ∧ val_Q v = Some q
             ∧ (0 <= q)%Q ∧ (q <= 1)%Q)
     ∧ (dict_get "type" d = Some (VStr "cooccurrence") →
        ∃ v q, dict_get "strength" d = Some v ∧ val_Q v = Some q
               ∧ (0 <= q)%Q
               ∧ (tags_nodup (datastore kg) →
                  usage_consistent (datastore kg) → (q <= 1)%Q))).
Proof.
  intros Hgen a b d Hd.
  assert (edges_ok nonneg (graph kg')) as Hnn.
  { apply (edges_ok_generate nonneg mode kg kg'); [|done].
    intros k c t1 t2 _ Hc _ _. apply strength_of_nonneg. lia. }
  destruct (Hnn a b d Hd) as [Hco Hsim]. split.
  - intros Hty. destruct (Hsim Hty) as (v & q & Hv & Hq & H0 & H1). eauto 10.
  - intros Hty. destruct (Hco Hty) as (v & q & Hv & Hq & H0).
    exists v, q. split_and!; [done..|]. intros Hnd Hus.
    assert (edges_ok unit_interval (graph kg')) as Hunit.
    { apply (edges_ok_generate unit_interval mode kg kg'); [|done].
      intros k c t1 t2 Hin Hc Ht1 _. apply strength_of_unit; [lia|].
      apply tag_cooccurrence_item in Hin as (-> & _ & _).
      pose proof (cooccurrence_count_le_usage _ k.1 k.2 t1 Hnd Hus Ht1). lia. }
    destruct (Hunit a b d Hd) as [Hco' _].
    destruct (Hco' Hty) as (v' & q' & Hv' & Hq' & _ & H1).
    congruence.
Qed.

Lemma C4_payload_ranges_witness :
  ∃ kg' d v q,
    generate "tags" kg0 = Return kg'
    ∧ nx.get_edge_data (graph kg') "A" "B" = Some d
    ∧ dict_get "type" d = Some (VStr "cooccurrence")
    ∧ dict_get "strength" d = Some v ∧ val_Q v = Some q
    ∧ (0 <= q)%Q ∧ (q <= 1)%Q.
Proof.
  pose (kg' := _build_tag_graph (mk store nx.empty)).
  pose (d := [("weight", VInt 2); ("strength", VFloat (2 # 5));
              ("type", VStr "cooccurrence")]).
  assert (nx.get_edge_data (graph kg') "A" "B" = Some d) as Hd
    by (vm_compute; reflexivity).
  destruct (C4_payload_ranges "tags" kg0 kg' eq_refl "A" "B" d Hd) as [_ Hco].
  destruct (Hco eq_refl) as (v & q & Hv & Hq & H0 & H1).
  exists kg', d, v, q.
  split_and!; [reflexivity | exact Hd | reflexivity | exact Hv | exact Hq
              | exact H0 |].
  apply H1.
  - unfold tags_nodup. apply (bool_decide_unpack _). vm_compute. exact I.
  - unfold usage_consistent. apply (bool_decide_unpack _). vm_compute. exact I.
Defined.

(** C4, as stated, fails: in [low_usage_store] the two tags are on two
    files together while their usage counts are 1, and the strength of
    their edge is 2. *)
Lemma C4_counterexample :
  ∃ kg' d,
    generate "tags" (__init__ low_usage_store) = Return kg'
    ∧ nx.get_edge_data (graph kg') "A" "B" = Some d
    ∧ dict_get "type" d = Some (VStr "cooccurrence")
    ∧ dict_get "strength" d = Some (VFloat 2)
    ∧ ¬ (2 <= 1)%Q.
Proof. eexists _, _. split_and!; by vm_compute. Qed.
(** C5.  In files mode, for two files of the store with different
    identifiers (files are stored under distinct identifiers), [generate]
    returns a graph with a similarity edge between them if and only if the
    Jaccard similarity of their tag sets is greater than 3/10; the edge's
    weight is that similarity.  The similarity is 0 when either tag list
    is empty and otherwise the size of the intersection divided by the
    size of the union. *)
Theorem C5_similarity_edge_iff_jaccard (kg : t) (f1 f2 : File.t) :
  file_ids_distinct (datastore kg) →
  f1 ∈ dict_values (DataStore.files (datastore kg)) →
  f2 ∈ dict_values (DataStore.files (datastore kg)) →
  File.file_id f1 ≠ File.file_id f2 →
  ∃ kg',
    generate "files" kg = Return kg'
    ∧ ((3 # 10 < _calculate_tag_similarity f1 f2)%Q →
       nx.get_edge_data (graph kg') (File.file_id f1) (File.file_id f2)
       = Some [("weight", VFloat (_calculate_tag_similarity f1 f2));
               ("type", VStr "similarity")])
    ∧ (¬ (3 # 10 < _calculate_tag_similarity f1 f2)%Q →
       nx.get_edge_data (graph kg') (File.file_id f1) (File.file_id f2) = None)
    ∧ (File.tags f1 = [] ∨ File.tags f2 = [] →
       _calculate_tag_similarity f1 f2 = 0%Q)
    ∧ (File.tags f1 ≠ [] → File.tags f2 ≠ [] →
       (0 < size (list_to_set (File.tags f1) ∪ list_to_set (File.tags f2)
                  : gset string))%nat
       ∧ _calculate_tag_similarity f1 f2
         = Qred
             (Z.of_nat
                (size (list_to_set (File.tags f1) ∩ list_to_set (File.tags f2)
                       : gset string))
              # Pos.of_nat
                  (size (list_to_set (File.tags f1) ∪ list_to_set (File.tags f2)
                         : gset string)))).
Proof.
  intros Hids H1 H2 Hne. eexists. split; [apply generate_files|].
  pose proof (file_graph_edge (datastore kg) f1 f2 Hids H1 H2 Hne) as Hedge.
  split_and!.
  - intros Hlt%Qltb_lt. by rewrite Hedge, Hlt.
  - intros Hge. rewrite Hedge.
    destruct (Qltb _ _) eqn:E; [|done]. by apply Qltb_lt in E.
  - unfold _calculate_tag_similarity. intros [-> | ->]; [done|].
    by rewrite orb_true_r.
  - intros Hn1 Hn2.
    assert (0 < size (list_to_set (File.tags f1) ∪ list_to_set (File.tags f2)
                      : gset string))%nat as Hpos.
    { destruct (File.tags f1) as [|x l] eqn:E; [done|].
      apply Nat.neq_0_lt_0, size_non_empty_iff.
      intros Hemp. apply (not_elem_of_empty (C := gset string) x).
      rewrite <-Hemp. apply elem_of_union_l, elem_of_list_to_set. left. }
    split; [done|]. unfold _calculate_tag_similarity.
    rewrite !bool_decide_eq_false_2 by done. cbn [orb].
    apply Nat.ltb_lt in Hpos. by rewrite Hpos.
Qed.

Lemma C5_similarity_edge_iff_jaccard_witness :
  ∃ kg',
    generate "files" kg0 = Return kg'
    ∧ nx.get_edge_data (graph kg') "F1" "F2"
      = Some [("weight", VFloat 1); ("type", VStr "similarity")].
Proof.
  assert (file_ids_distinct (datastore kg0)) as Hids.
  { unfold file_ids_distinct. apply (bool_decide_unpack _). vm_compute. exact I. }
  assert (F1 ∈ dict_values (DataStore.files (datastore kg0))) as H1 by left.
  assert (F2 ∈ dict_values (DataStore.files (datastore kg0))) as H2
    by (right; left).
  assert (File.file_id F1 ≠ File.file_id F2) as Hne by discriminate.
  destruct (C5_similarity_edge_iff_jaccard kg0 F1 F2 Hids H1 H2 Hne)
    as (kg' & Hgen & Hyes & _).
  assert (_calculate_tag_similarity F1 F2 = 1%Q) as Hs
    by (vm_compute; reflexivity).
  rewrite Hs in Hyes. exists kg'. split; [exact Hgen|].
  apply Hyes. reflexivity.
Defined.

(** C6.  For every graph and every optional node type, [find_orphans]
    returns, in node order, exactly the nodes whose degree is at most 1
    and, when a node type is given, whose type attribute is that type. *)
Theorem C6_find_orphans_exact (kg : t) (node_type : option string) :
  ∃ orphans,
    find_orphans node_type kg = Return orphans
    ∧ orphans `sublist_of` nx.nodes (graph kg)
    ∧ ∀ n,
        n ∈ orphans
        ↔ n ∈ nx.nodes (graph kg)
          ∧ (∃ d, nx.degree (graph kg) n = Return d ∧ d ≤ 1)
          ∧ (∀ ty, node_type = Some ty →
               ∃ node_data,
                 nx.nodes_getitem (graph kg) n = Return node_data
                 ∧ dict_get "type" node_data = Some (VStr ty)).
Proof.
  eexists. split; [apply find_orphans_filter|]. split.
  - apply sublist_filter.
  - intros n. rewrite list_elem_of_filter, is_orphan_spec. tauto.
Qed.

(** C7.  For every graph, file id and [top_n], no tag id returned by
    [recommend_tags] is in the tag list of the file; and on every graph
    returned by [generate] the call does return. *)
Theorem C7_recommend_excludes_file_tags (kg : t) (file_id : string)
    (top_n : Z) (file : File.t) :
  DataStore.get_file (datastore kg) file_id = Some file →
  (∀ recs, recommend_tags file_id top_n kg = Return recs →
     ∀ tag_id score, (tag_id, score) ∈ recs → tag_id ∉ File.tags file)
  ∧ (∀ mode kg0, generate mode kg0 = Return kg →
       ∃ recs, recommend_tags file_id top_n kg = Return recs).
Proof.
  intros Hfile. split.
  - unfold recommend_tags. rewrite Hfile. intros recs.
    destruct (for_eachM _ _ _) as [c|] eqn:Hloop; cbn; [|done].
    intros [= <-] tag_id score Hin%most_common_elem.
    apply (recommend_scores_fresh _ _ _ _ Hloop).
    by apply (list_elem_of_fmap_2 fst) in Hin.
  - intros mode kg0 Hgen. eapply recommend_tags_total, graph_closed_generate.
    exact Hgen.
Qed.

Lemma C7_recommend_excludes_file_tags_witness :
  recommend_tags "F4" 5 (_build_tag_graph kg0) = Return [("B", NInt 2)]
  ∧ "B" ∉ File.tags F4.
Proof.
  assert (recommend_tags "F4" 5 (_build_tag_graph kg0)
          = Return [("B", NInt 2)]) as Hrec by (vm_compute; reflexivity).
  split; [exact Hrec|].
  destruct (C7_recommend_excludes_file_tags (_build_tag_graph kg0) "F4" 5 F4
              eq_refl) as [Hfresh _].
  apply (Hfresh [("B", NInt 2)] Hrec "B" (NInt 2)). left.
Defined.

(** C8.  [recommend_tags] returns the empty list, and does not raise,
    when the file id is not in the store or the file has no tags. *)
Theorem C8_recommend_empty (kg : t) (file_id : string) (top_n : Z) :
  DataStore.get_file (datastore kg) file_id = None
  ∨ (∃ file, DataStore.get_file (datastore kg) file_id = Some file
             ∧ File.tags file = []) →
  recommend_tags file_id top_n kg = Return [].
Proof.
  unfold recommend_tags. intros [-> | (file & -> & ->)]; [done|].
  cbn. by rewrite most_common_nil.
Qed.

Lemma C8_recommend_empty_witness :
  recommend_tags "missing" 5 (_build_tag_graph kg0) = Return []
  ∧ recommend_tags "F5" 5 (_build_tag_graph kg0) = Return [].
Proof.
  split.
  - apply C8_recommend_empty. left. reflexivity.
  - apply C8_recommend_empty. right. exists F5. split; reflexivity.
Defined.

(** C9.  Generating in tags mode twice in a row gives the graph of the
    first generation; the result does not depend on the graph held
    before. *)
Theorem C9_generate_tags_idempotent (kg : t) :
  (generate "tags" kg ≫= generate "tags") = generate "tags" kg
  ∧ ∀ g, generate "tags" (mk (datastore kg) g) = generate "tags" kg.
Proof. split; [|intros g]; by rewrite !generate_tags. Qed.
Lemma dict_update_length_le {K V} `{EqDecision K} (d kv : pydict K V) :
  (length (dict_update d kv) ≤ length d + length kv)%nat.
Proof.
  revert d. induction kv as [|[k v] kv IH]; intros d; cbn; [lia|].
  fold (dict_update (dict_set k v d) kv).
  specialize (IH (dict_set k v d)). rewrite dict_set_length in IH.
  destruct (decide _); lia.
Qed.

Lemma generate_invalid_mode (mode : string) (kg : t) :
  mode ∉ ["tags"; "files"; "full"] →
  generate mode kg = Return (mk (datastore kg) nx.empty).
Proof.
  intros Hmode. unfold generate.
  rewrite !elem_of_cons, elem_of_nil in Hmode.
  rewrite (bool_decide_eq_false_2 (mode ∈ ["tags"; "full"]))
    by (rewrite !elem_of_cons, elem_of_nil; tauto).
  rewrite (bool_decide_eq_false_2 (mode ∈ ["files"; "full"]))
    by (rewrite !elem_of_cons, elem_of_nil; tauto).
  rewrite (bool_decide_eq_false_2 (mode = "full")) by tauto.
  done.
Qed.

(** C2 (amended).  Neither argument is validated.  With a mode outside
    tags, files and full, [generate] returns, leaving an empty graph.
    With a negative [top_n], [find_hubs] returns the ranking of all nodes
    without its last [-top_n] entries. *)
Theorem C2_arguments_not_validated (kg : t) (mode : string) (top_n : Z) :
  mode ∉ ["tags"; "files"; "full"] → top_n < 0 →
  generate mode kg = Return (mk (datastore kg) nx.empty)
  ∧ ∃ ranking,
      find_hubs (Z.of_nat (length (nx.nodes (graph kg)))) kg = Return ranking
      ∧ find_hubs top_n kg
        = Return (take (length ranking - Z.to_nat (- top_n)) ranking).
Proof.
  intros Hmode Hneg. split; [by apply generate_invalid_mode|].
  eexists. unfold find_hubs, slice_to. split.
  - rewrite (proj2 (Z.leb_le 0 _)) by lia. rewrite Nat2Z.id.
    rewrite take_ge; [done|].
    rewrite sorted_desc_length. unfold dict_items, dict_of_pairs.
    etrans; [apply dict_update_length_le|].
    unfold nx.degree_view, nx.nodes, dict_keys.
    rewrite length_map, length_fmap. cbn. lia.
  - by rewrite (proj2 (Z.leb_gt 0 top_n)) by lia.
Qed.

Lemma C2_arguments_not_validated_witness :
  generate "bogus" kg0 = Return (mk (datastore kg0) nx.empty)
  ∧ ∃ ranking,
      find_hubs (Z.of_nat (length (nx.nodes (graph kg0)))) kg0 = Return ranking
      ∧ find_hubs (-1) kg0
        = Return (take (length ranking - Z.to_nat (- -1)) ranking).
Proof.
  apply (C2_arguments_not_validated kg0 "bogus" (-1)).
  - rewrite !elem_of_cons, elem_of_nil.
    intros [H | [H | [H | []]]]; discriminate H.
  - reflexivity.
Defined.

(** C2, as stated, fails: a mode outside the three and a negative
    [top_n] raise nothing; the first leaves an empty graph and the second
    returns the ranking cut at its end. *)
Lemma C2_counterexample :
  generate "bogus" kg0 = Return (mk store nx.empty)
  ∧ find_hubs 2 (_build_tag_graph kg0) = Return [("A", 1); ("B", 1)]
  ∧ find_hubs (-1) (_build_tag_graph kg0) = Return [("A", 1); ("B", 1)]
  ∧ find_hubs (-2) (_build_tag_graph kg0) = Return [("A", 1)].
Proof. split_and!; vm_compute; reflexivity. Qed.

(** C3.  On an empty graph [get_stats] returns six fields, all zero, and
    no count of connected components, also after a generation from an
    empty store; on a graph with nodes it returns the seven fields. *)
Theorem C3_get_stats_empty_graph :
  get_stats (__init__ empty_store)
  = Return [("total_nodes", VInt 0); ("total_edges", VInt 0);
            ("tag_nodes", VInt 0); ("file_nodes", VInt 0);
            ("avg_degree", VInt 0); ("density", VInt 0)]
  ∧ (generate "full" (__init__ empty_store) ≫= get_stats)
    = get_stats (__init__ empty_store)
  ∧ (stats ← get_stats (__init__ empty_store);
     Return (dict_get "connected_components" stats)) = Return None
  ∧ (generate "tags" kg0 ≫= get_stats)
    = Return [("total_nodes", VInt 3); ("total_edges", VInt 1);
              ("tag_nodes", VInt 3); ("file_nodes", VInt 0);
              ("avg_degree", VFloat (2 # 3)); ("density", VFloat (1 # 3));
              ("connected_components", VInt 2)].
Proof.
  split_and!.
  - reflexivity.
  - reflexivity.
  - reflexivity.
  - vm_compute. reflexivity.
Qed.
End Claims.

(** * Further properties *)

(** ** [File.add_tag], [File.remove_tag], [File.has_tag] *)

Lemma filter_all {A} (P : A → Prop) `{∀ x, Decision (P x)} (l : list A) :
  (∀ x, x ∈ l → P x) → filter P l = l.
Proof.
  induction l as [|y l IH]; intros Hall; [done|].
  rewrite filter_cons, decide_True by (apply Hall; left).
  f_equal. apply IH. intros x Hx. apply Hall. by right.
Qed.

Section FileFacts.
Import FileMethods.
Implicit Types (file : File.t) (l : list string).

Lemma with_tags_same file : with_tags file (File.tags file) = file.
Proof. by destruct file. Qed.

Lemma list_remove_elem x l :
  x ∈ l →
  ∃ l', list_remove x l = Return l'
        ∧ length l = S (length l')
        ∧ (∀ y, y ≠ x → y ∈ l' ↔ y ∈ l)
        ∧ (NoDup l → l' = filter (λ y, y ≠ x) l).
Proof.
  induction l as [|y l IH]; [by intros ?%elem_of_nil|].
  intros Hin. cbn [list_remove]. destruct (decide (y = x)) as [->|Hne].
  - exists l. split_and!; [done..| |].
    + intros y Hy. rewrite elem_of_cons. tauto.
    + intros [Hx Hnd]%NoDup_cons. rewrite filter_cons, decide_False by tauto.
      symmetry. apply filter_all. intros y Hy ->. done.
  - apply elem_of_cons in Hin as [-> | Hin]; [done|].
    destruct (IH Hin) as (l' & -> & Hlen & Hmem & Hfil).
    exists (y :: l'). rewrite bind_Return. split_and!; [done | cbn; lia | |].
    + intros z Hz. rewrite !elem_of_cons, Hmem by done. done.
    + intros [Hy Hnd]%NoDup_cons. rewrite filter_cons, decide_True by done.
      by rewrite <-Hfil.
Qed.

Lemma add_tag_facts (tag_id : string) (file : File.t) :
  has_tag tag_id (add_tag tag_id file) = true
  ∧ (NoDup (File.tags file) → NoDup (File.tags (add_tag tag_id file)))
  ∧ File.tags file `prefix_of` File.tags (add_tag tag_id file)
  ∧ (∀ u, u ≠ tag_id → has_tag u (add_tag tag_id file) = has_tag u file)
  ∧ add_tag tag_id (add_tag tag_id file) = add_tag tag_id file
  ∧ File.file_id (add_tag tag_id file) = File.file_id file.
Proof.
  unfold add_tag, has_tag.
  destruct (decide (tag_id ∉ File.tags file)) as [Hnot|Hin]; cbn.
  - split_and!.
    + apply bool_decide_eq_true_2, elem_of_app. right. left.
    + intros Hnd. apply NoDup_app. split_and!; [done | | apply NoDup_singleton].
      by intros x Hx ->%list_elem_of_singleton.
    + by apply prefix_app_r.
    + intros u Hu. apply bool_decide_ext. rewrite elem_of_app.
      rewrite list_elem_of_singleton. tauto.
    + rewrite decide_False; [done|]. intros Hn. apply Hn, elem_of_app.
      right. left.
    + done.
  - apply dec_stable in Hin. split_and!; try done.
    + by apply bool_decide_eq_true_2.
    + rewrite decide_False; [done | tauto].
Qed.

(** X1.  [File.add_tag]: the tag is on the file afterwards, once; a list
    without repetitions stays so, the tags already there keep their
    places, and adding a tag a second time changes nothing. *)
Theorem File_add_tag_spec (tag_id : string) (file : File.t) :
  has_tag tag_id (add_tag tag_id file) = true
  ∧ (NoDup (File.tags file) → NoDup (File.tags (add_tag tag_id file)))
  ∧ File.tags file `prefix_of` File.tags (add_tag tag_id file)
  ∧ (∀ u, u ≠ tag_id → has_tag u (add_tag tag_id file) = has_tag u file)
  ∧ add_tag tag_id (add_tag tag_id file) = add_tag tag_id file
  ∧ File.file_id (add_tag tag_id file) = File.file_id file.
Proof. apply add_tag_facts. Qed.

Lemma remove_tag_facts (tag_id : string) (file : File.t) :
  ∃ file',
    remove_tag tag_id file = Return file'
    ∧ File.file_id file' = File.file_id file
    ∧ (tag_id ∉ File.tags file → file' = file)
    ∧ (tag_id ∈ File.tags file →
       length (File.tags file) = S (length (File.tags file')))
    ∧ (∀ u, u ≠ tag_id → has_tag u file' = has_tag u file)
    ∧ (NoDup (File.tags file) →
       File.tags file' = filter (λ u, u ≠ tag_id) (File.tags file)
       ∧ has_tag tag_id file' = false)
    ∧ (tag_id ∉ File.tags file →
       remove_tag tag_id (add_tag tag_id file) = Return file).
Proof.
  unfold remove_tag at 1.
  destruct (decide (tag_id ∈ File.tags file)) as [Hin|Hnot].
  - destruct (list_remove_elem _ _ Hin) as (l' & -> & Hlen & Hmem & Hfil).
    rewrite bind_Return. eexists. split; [done|]. cbn.
    split_and!; try done.
    + unfold has_tag. cbn. intros u Hu. apply bool_decide_ext. by apply Hmem.
    + intros Hnd. split; [by apply Hfil|].
      unfold has_tag. cbn. apply bool_decide_eq_false_2.
      rewrite (Hfil Hnd), list_elem_of_filter. tauto.
  - exists file. split_and!; try done.
    + intros Hnd. split.
      * symmetry. apply filter_all. by intros u Hu ->.
      * by apply bool_decide_eq_false_2.
    + intros _. unfold remove_tag, add_tag.
      rewrite (decide_True (P := tag_id ∉ File.tags file)) by done. cbn.
      rewrite decide_True by (apply elem_of_app; right; left).
      assert (list_remove tag_id (File.tags file ++ [tag_id])
              = Return (File.tags file)) as ->.
      { induction (File.tags file) as [|y l IH]; cbn.
        - by rewrite decide_True.
        - apply not_elem_of_cons in Hnot as [Hne Hl].
          rewrite decide_False by done. by rewrite IH. }
      rewrite bind_Return. f_equal. by destruct file.
Qed.

End FileFacts.

(** ** Deleting from and mapping over a dictionary *)

Section DictDel.
Context {V : Type}.
Implicit Types (k : string) (d : pydict string V).

Lemma dict_del_present k d :
  k ∈ d.*1 →
  ∃ d', dict_del k d = Return d'
        ∧ (∀ k', k' ≠ k → dict_get k' d' = dict_get k' d)
        ∧ (NoDup d.*1 → dict_get k d' = None)
        ∧ d' `sublist_of` d.
Proof.
  induction d as [|[k0 v0] d IH]; [by intros ?%elem_of_nil|].
  intros Hin. cbn [dict_del]. destruct (decide (k = k0)) as [->|Hne].
  - exists d. split_and!; [done | | |].
    + intros k' Hk'. cbn. by rewrite decide_False.
    + rewrite fmap_cons. intros [Hk0 _]%NoDup_cons. by apply dict_get_None.
    + by apply sublist_cons.
  - rewrite fmap_cons in Hin. apply elem_of_cons in Hin as [-> | Hin]; [done|].
    destruct (IH Hin) as (d' & -> & Hget & Hnone & Hsub).
    exists ((k0, v0) :: d'). rewrite bind_Return. split_and!; [done | | |].
    + intros k' Hk'. cbn. destruct (decide (k' = k0)); [done | by apply Hget].
    + rewrite fmap_cons. intros [_ Hnd]%NoDup_cons. cbn.
      rewrite decide_False by done. by apply Hnone.
    + by apply sublist_skip.
Qed.

Lemma dict_mapM_total (f : V → outcome V) (g : V → V) d :
  (∀ v, f v = Return (g v)) →
  dict_mapM f d = Return (prod_map id g <$> d).
Proof.
  intros Hf. induction d as [|[k v] d IH]; [done|].
  cbn [dict_mapM]. by rewrite Hf, bind_Return, IH.
Qed.

Lemma dict_keys_fmap (g : V → V) d :
  dict_keys (prod_map id g <$> d) = dict_keys d.
Proof.
  unfold dict_keys. rewrite <-list_fmap_compose. by apply list_fmap_ext.
Qed.

Lemma dict_get_fmap (g : V → V) k d :
  dict_get k (prod_map id g <$> d) = g <$> dict_get k d.
Proof.
  induction d as [|[k0 v0] d IH]; [done|].
  rewrite fmap_cons. cbn. by destruct (decide (k = k0)).
Qed.
End DictDel.

(** ** The store operations *)

Section DataStoreFacts.
Import DataStoreMethods Store.
Implicit Types (st : state) (file : File.t) (tag : Tag.t).

Lemma remove_tag_visit tag_id file :
  (if decide (tag_id ∈ File.tags file)
   then FileMethods.remove_tag tag_id file
   else Return file)
  = Return (tags_without tag_id file).
Proof.
  unfold tags_without.
  destruct (remove_tag_facts tag_id file) as (file' & Hrm & _ & Hsame & _).
  rewrite Hrm. destruct (decide _) as [|Hnot]; [done|].
  by rewrite (Hsame Hnot).
Qed.
Lemma tags_without_facts tag_id file :
  FileMethods.remove_tag tag_id file = Return (tags_without tag_id file)
  ∧ File.file_id (tags_without tag_id file) = File.file_id file
  ∧ (NoDup (File.tags file) →
     File.tags (tags_without tag_id file)
     = filter (λ u, u ≠ tag_id) (File.tags file)).
Proof.
  unfold tags_without.
  destruct (remove_tag_facts tag_id file)
    as (file' & -> & Hid & _ & _ & _ & Hnd & _).
  split_and!; [done..|]. intros H. by destruct (Hnd H).
Qed.

Lemma files_keyed_ids ds : files_keyed ds → file_ids_distinct ds.
Proof.
  intros [Hnd Hkey]. unfold file_ids_distinct, dict_values.
  unfold dict_keys, dict_items in *.
  replace (File.file_id <$> (DataStore.files ds).*2)
    with ((DataStore.files ds).*1); [done|].
  induction (DataStore.files ds) as [|[k f] l IH]; [done|].
  apply Forall_cons in Hkey as [Hk Hl]. apply NoDup_cons in Hnd as [_ Hnd].
  cbn in *. rewrite <-Hk. f_equal. by apply IH.
Qed.

Lemma keyed_dict_set {V} (id : V → string) (v : V) (d : pydict string V) :
  NoDup d.*1 ∧ Forall (λ kv, id kv.2 = kv.1) d →
  NoDup (dict_set (id v) v d).*1
  ∧ Forall (λ kv, id kv.2 = kv.1) (dict_set (id v) v d).
Proof.
  intros [Hnd Hkey]. split; [by apply dict_set_NoDup|].
  clear Hnd. induction d as [|[k0 v0] d IH]; cbn.
  - by repeat constructor.
  - apply Forall_cons in Hkey as [Hk Hd].
    destruct (decide (id v = k0)) as [<-|Hne]; constructor; auto.
Qed.

Lemma keyed_sublist {V} (id : V → string) (d d' : pydict string V) :
  d' `sublist_of` d →
  NoDup d.*1 ∧ Forall (λ kv, id kv.2 = kv.1) d →
  NoDup d'.*1 ∧ Forall (λ kv, id kv.2 = kv.1) d'.
Proof.
  intros Hsub [Hnd Hkey]. split.
  - eapply sublist_NoDup; [done|]. by apply fmap_sublist.
  - apply Forall_forall. intros x Hx.
    apply (proj1 (Forall_forall _ _) Hkey). by eapply elem_of_sublist.
Qed.

(** X3.  [DataStore.add_file] and [update_file] (the same code): the file is
    found under its id afterwards, every other id and every tag is as
    before, a file already stored under the id is replaced in place, and
    [files.json] holds the files in memory. *)
Theorem DataStore_add_file_lookup (file : File.t) (st : state) :
  get_file (File.file_id file) (add_file file st) = Some file
  ∧ (∀ file_id, file_id ≠ File.file_id file →
       get_file file_id (add_file file st) = get_file file_id st)
  ∧ dict_keys (DataStore.files (mem (add_file file st)))
    = (if decide (File.file_id file ∈ dict_keys (DataStore.files (mem st)))
       then dict_keys (DataStore.files (mem st))
       else dict_keys (DataStore.files (mem st)) ++ [File.file_id file])%list
  ∧ DataStore.tags (mem (add_file file st)) = DataStore.tags (mem st)
  ∧ files_json (add_file file st)
    = Some (DataStore.files (mem (add_file file st)))
  ∧ update_file file st = add_file file st.
Proof.
  unfold get_file, DataStore.get_file, add_file. cbn. split_and!.
  - apply dict_get_set_eq.
  - intros file_id Hne. by apply dict_get_set_ne.
  - apply dict_set_keys.
  - done.
  - done.
  - done.
Qed.

(** X4.  [DataStore.remove_file] never raises; it answers whether the id was
    stored; a store without the id is left as it is, and otherwise the
    other files are kept, [files.json] is rewritten, and with distinct
    keys the id is not found afterwards. *)
Theorem DataStore_remove_file_spec (file_id : string) (st : state) :
  ∃ st' (found : bool),
    remove_file file_id st = Return (st', found)
    ∧ (found = true ↔ is_Some (get_file file_id st))
    ∧ (found = false → st' = st)
    ∧ (∀ other, other ≠ file_id → get_file other st' = get_file other st)
    ∧ (found = true →
       files_json st' = Some (DataStore.files (mem st'))
       ∧ DataStore.tags (mem st') = DataStore.tags (mem st)
       ∧ (NoDup (dict_keys (DataStore.files (mem st))) →
          get_file file_id st' = None)).
Proof.
  unfold remove_file, get_file, DataStore.get_file, dict_contains.
  destruct (decide (is_Some (dict_get file_id (DataStore.files (mem st)))))
    as [Hsome|Hnone].
  - rewrite bool_decide_eq_true_2 by done.
    destruct (dict_del_present file_id (DataStore.files (mem st)))
      as (d' & -> & Hget & Hnd & _); [by apply dict_get_is_Some|].
    rewrite bind_Return. eexists _, true. split; [done|]. cbn.
    split_and!; try done.
  - rewrite bool_decide_eq_false_2 by done. exists st, false.
    split_and!; try done.
Qed.

(** X5.  [DataStore.remove_tag] never raises; it answers whether the tag was
    stored and leaves a store without it as it is.  Otherwise every file
    is the result of [File.remove_tag] on it, so that no file lists the
    tag any more when no file listed it twice; the other tags are kept,
    both documents are rewritten, and with distinct keys the tag is not
    found afterwards. *)
Theorem DataStore_remove_tag_spec (tag_id : string) (st : state) :
  ∃ st' (found : bool),
    remove_tag tag_id st = Return (st', found)
    ∧ (found = true ↔ is_Some (get_tag tag_id st))
    ∧ (found = false → st' = st)
    ∧ (found = true →
       dict_keys (DataStore.files (mem st'))
       = dict_keys (DataStore.files (mem st))
       ∧ (∀ file_id file, get_file file_id st = Some file →
            ∃ file', get_file file_id st' = Some file'
                     ∧ FileMethods.remove_tag tag_id file = Return file')
       ∧ (∀ other, other ≠ tag_id → get_tag other st' = get_tag other st)
       ∧ (NoDup (dict_keys (DataStore.tags (mem st))) →
          get_tag tag_id st' = None)
       ∧ files_json st' = Some (DataStore.files (mem st'))
       ∧ tags_json st' = Some (DataStore.tags (mem st'))
       ∧ (tags_nodup (mem st) →
          tags_nodup (mem st')
          ∧ ∀ file, file ∈ dict_values (DataStore.files (mem st')) →
                    tag_id ∉ File.tags file)).
Proof.
  unfold remove_tag, get_tag, get_file, DataStore.get_tag, DataStore.get_file,
    dict_contains.
  destruct (decide (is_Some (dict_get tag_id (DataStore.tags (mem st)))))
    as [Hsome|Hnone].
  2:{ rewrite bool_decide_eq_false_2 by done. exists st, false.
      split_and!; try done. }
  rewrite bool_decide_eq_true_2 by done.
  rewrite (dict_mapM_total _ (tags_without tag_id))
    by (intros file; apply remove_tag_visit).
  rewrite bind_Return. cbn.
  destruct (dict_del_present tag_id (DataStore.tags (mem st)))
    as (d' & -> & Hget & Hnd & _); [by apply dict_get_is_Some|].
  rewrite bind_Return. eexists _, true. split; [done|]. cbn.
  split_and!; try done. intros _. split_and!; try done.
  - apply dict_keys_fmap.
  - intros file_id file Hfile. rewrite dict_get_fmap, Hfile. cbn.
    eexists. split; [done|]. apply tags_without_facts.
  - intros Hnodup.
    assert (∀ f, f ∈ dict_values (DataStore.files (mem st)) →
                 NoDup (File.tags f)) as Hall by (by apply Forall_forall).
    assert (∀ file,
              file ∈ dict_values
                       (prod_map id (tags_without tag_id)
                          <$> DataStore.files (mem st)) →
              ∃ f, f ∈ dict_values (DataStore.files (mem st))
                   ∧ file = tags_without tag_id f) as Hnew.
    { intros file ([k f'] & -> & Hin)%list_elem_of_fmap.
      apply list_elem_of_fmap in Hin as ([k0 f] & [= -> ->] & Hin).
      exists f. split; [|done]. by apply (list_elem_of_fmap_2 snd) in Hin. }
    split.
    + apply Forall_forall. intros file (f & Hf & ->)%Hnew.
      destruct (tags_without_facts tag_id f) as (_ & _ & Htags).
      rewrite Htags by (by apply Hall). apply NoDup_filter. by apply Hall.
    + intros file (f & Hf & ->)%Hnew.
      destruct (tags_without_facts tag_id f) as (_ & _ & Htags).
      rewrite Htags by (by apply Hall). rewrite list_elem_of_filter. tauto.
Qed.

(** X6.  Every operation that changes the store keeps the files, and the
    tags, under their own distinct ids; such a store has distinct file
    ids, as the files-mode graph needs. *)
Theorem DataStore_keeps_entries_keyed (st : state) :
  files_keyed (mem st) → tags_keyed (mem st) →
  file_ids_distinct (mem st)
  ∧ (∀ file, files_keyed (mem (add_file file st))
             ∧ tags_keyed (mem (add_file file st))
             ∧ files_keyed (mem (update_file file st)))
  ∧ (∀ tag, files_keyed (mem (add_tag tag st))
            ∧ tags_keyed (mem (add_tag tag st))
            ∧ tags_keyed (mem (update_tag tag st)))
  ∧ (∀ file_id st' found, remove_file file_id st = Return (st', found) →
       files_keyed (mem st') ∧ tags_keyed (mem st'))
  ∧ (∀ tag_id st' found, remove_tag tag_id st = Return (st', found) →
       files_keyed (mem st') ∧ tags_keyed (mem st')).
Proof.
  intros Hf Ht. split_and!.
  - by apply files_keyed_ids.
  - intros file. split_and!; [|done|];
      by apply (keyed_dict_set File.file_id).
  - intros tag. split_and!; [done| |];
      by apply (keyed_dict_set Tag.tag_id).
  - intros file_id st' found. unfold remove_file.
    destruct (dict_contains _ _) eqn:Hc; [|by intros [= <- _]].
    apply bool_decide_eq_true in Hc.
    destruct (dict_del_present file_id (DataStore.files (mem st)))
      as (d' & -> & _ & _ & Hsub); [by apply dict_get_is_Some|].
    rewrite bind_Return. intros [= <- _]. split; [|done].
    by apply (keyed_sublist File.file_id _ _ Hsub).
  - intros tag_id st' found. unfold remove_tag.
    destruct (dict_contains _ _) eqn:Hc; [|by intros [= <- _]].
    apply bool_decide_eq_true in Hc.
    rewrite (dict_mapM_total _ (tags_without tag_id))
      by (intros file; apply remove_tag_visit).
    rewrite bind_Return. cbn.
    destruct (dict_del_present tag_id (DataStore.tags (mem st)))
      as (d' & -> & _ & _ & Hsub); [by apply dict_get_is_Some|].
    rewrite bind_Return. intros [= <- _]. cbn. split.
    + destruct Hf as [Hnd Hkey]. split.
      * change (NoDup (dict_keys (prod_map id (tags_without tag_id)
                                    <$> DataStore.files (mem st)))).
        by rewrite dict_keys_fmap.
      * change (Forall (λ kf, File.file_id kf.2 = kf.1)
                  (prod_map id (tags_without tag_id)
                     <$> DataStore.files (mem st))).
        rewrite Forall_fmap.
        eapply Forall_impl; [exact Hkey|]. intros [k f] Hk. cbn in *.
        by destruct (tags_without_facts tag_id f) as (_ & -> & _).
    + by apply (keyed_sublist Tag.tag_id _ _ Hsub).
Qed.

Lemma DataStore_keeps_entries_keyed_witness :
  file_ids_distinct (mem st0)
  ∧ files_keyed (mem (add_file Scenario.G1 st0))
  ∧ tags_keyed (mem (add_tag Scenario.A1 st0)).
Proof.
  assert (files_keyed (mem st0)) as Hf.
  { split; apply (bool_decide_unpack _); vm_compute; exact I. }
  assert (tags_keyed (mem st0)) as Ht.
  { split; apply (bool_decide_unpack _); vm_compute; exact I. }
  destruct (DataStore_keeps_entries_keyed st0 Hf Ht) as (Hids & Hadd & Htag & _).
  split_and!; [exact Hids | apply Hadd | apply Htag].
Defined.
End DataStoreFacts.

(** ** Generated graphs are well-formed undirected graphs *)

Section GraphWf.
Import KnowledgeGraph.
Implicit Types (g : nx.Graph) (n u v a b : string).

Lemma elem_of_dict_set {K V} `{EqDecision K} (k k' : K) (x x' : V)
    (d : pydict K V) :
  (k, x) ∈ dict_set k' x' d → (k = k' ∧ x = x') ∨ (k, x) ∈ d.
Proof.
  induction d as [|[k0 x0] d IH]; cbn.
  - intros [= -> ->]%list_elem_of_singleton. by left.
  - destruct (decide (k' = k0)) as [->|Hne].
    + intros [[= -> ->] | Hin]%elem_of_cons; [by left | right; by right].
    + intros [[= -> ->] | Hin]%elem_of_cons; [right; left|].
      destruct (IH Hin) as [? | ?]; [by left | right; by right].
Qed.

Lemma no_repeats_set_entry n (e' : nx.entry) g :
  NoDup (dict_keys (nx.nbrs e')) →
  no_repeats g → no_repeats (nx.mk (dict_set n e' (nx.table g))).
Proof.
  intros He' [Hnd Hnb]. split.
  - by apply dict_set_NoDup.
  - intros u e [[-> ->] | Hin]%elem_of_dict_set; [done | by eapply Hnb].
Qed.

Lemma no_repeats_add_node n kw g :
  no_repeats g → no_repeats (nx.add_node n kw g).
Proof.
  intros Hg. unfold nx.add_node.
  destruct (dict_get n (nx.table g)) as [e|] eqn:E.
  - apply no_repeats_set_entry; [|done]. cbn.
    apply dict_get_Some_elem in E. by eapply (proj2 Hg).
  - apply no_repeats_set_entry; [apply NoDup_nil_2 | done].
Qed.

Lemma no_repeats_ensure_node n g :
  no_repeats g → no_repeats (nx.ensure_node n g).
Proof.
  intros Hg. unfold nx.ensure_node. destruct (nx.contains n g); [done|].
  apply no_repeats_set_entry; [apply NoDup_nil_2 | done].
Qed.

Lemma no_repeats_set_nbr u v dd g :
  no_repeats g → no_repeats (nx.set_nbr u v dd g).
Proof.
  intros Hg. unfold nx.set_nbr.
  destruct (dict_get u (nx.table g)) as [e|] eqn:E; [|done].
  apply no_repeats_set_entry; [|done]. cbn. apply dict_set_NoDup.
  apply dict_get_Some_elem in E. by eapply (proj2 Hg).
Qed.

Lemma graph_wf_empty : graph_wf nx.empty.
Proof.
  split_and!; [apply NoDup_nil_2 | by intros u e ?%elem_of_nil | done..].
Qed.

Lemma graph_wf_add_node n kw g : graph_wf g → graph_wf (nx.add_node n kw g).
Proof.
  intros (Hnd & Hnb & Hsym & Hcl).
  destruct (no_repeats_add_node n kw g (conj Hnd Hnb)) as [Hnd' Hnb'].
  split_and!; [done..| |].
  - intros u v. by rewrite !get_edge_data_add_node.
  - intros u v d. rewrite get_edge_data_add_node, contains_add_node.
    intros Hd. by rewrite (Hcl _ _ _ Hd).
Qed.

Lemma graph_wf_add_edge u v kw g : graph_wf g → graph_wf (nx.add_edge u v kw g).
Proof.
  intros (Hnd & Hnb & Hsym & Hcl).
  assert (no_repeats (nx.add_edge u v kw g)) as [Hnd' Hnb'].
  { unfold nx.add_edge.
    by apply no_repeats_set_nbr, no_repeats_set_nbr, no_repeats_ensure_node,
      no_repeats_ensure_node. }
  split_and!; [done..| |].
  - intros a b. rewrite !get_edge_data_add_edge.
    destruct (decide ((a = u ∧ b = v) ∨ (a = v ∧ b = u))) as [Hab|Hab].
    + rewrite decide_True by tauto. done.
    + rewrite decide_False by tauto. apply Hsym.
  - intros a b d. rewrite get_edge_data_add_edge, contains_add_edge.
    destruct (decide _) as [Hab|Hab].
    + intros _. destruct Hab as [[-> ->] | [-> ->]].
      * rewrite (bool_decide_eq_true_2 (v = v)) by done. by rewrite orb_true_r.
      * rewrite (bool_decide_eq_true_2 (u = u)) by done. by rewrite orb_true_r.
    + intros Hd. by rewrite (Hcl _ _ _ Hd).
Qed.

Lemma graph_wf_for_each {A} (l : list A) (body : A → nx.Graph → nx.Graph) g :
  (∀ (y : A) g', graph_wf g' → graph_wf (body y g')) →
  graph_wf g → graph_wf (for_each l body g).
Proof.
  revert g. induction l as [|y l IH]; intros g Hbody Hg; [done|].
  cbn. apply IH; [done|]. by apply Hbody.
Qed.

Lemma graph_wf_generate mode kg kg' :
  generate mode kg = Return kg' → graph_wf (graph kg').
Proof.
  intros [= <-].
  set (kg0 := mk (datastore kg) (nx.clear (graph kg))).
  assert (graph_wf (graph kg0)) as H0 by apply graph_wf_empty.
  clearbody kg0.
  assert (∀ k, graph_wf (graph k) → graph_wf (graph (_build_tag_graph k)))
    as Htag.
  { intros k Hk. unfold _build_tag_graph. cbn.
    apply graph_wf_for_each.
    - intros [[x y] c] g' Hg'. unfold add_cooccurrence_edge.
      destruct (2 <=? c); [|done].
      destruct (DataStore.get_tag _ x); [|done].
      destruct (DataStore.get_tag _ y); [|done].
      by apply graph_wf_add_edge.
    - apply graph_wf_for_each; [|done].
      intros tag g'. apply graph_wf_add_node. }
  assert (∀ k, graph_wf (graph k) → graph_wf (graph (_build_file_graph k)))
    as Hfile.
  { intros k Hk. unfold _build_file_graph. cbn.
    apply graph_wf_for_each.
    - intros [i file1] g' Hg'. apply graph_wf_for_each; [|done].
      intros file2 g'' Hg''. unfold add_similarity_edge.
      destruct (Qltb _ _); [|done]. by apply graph_wf_add_edge.
    - apply graph_wf_for_each; [|done].
      intros file g'. apply graph_wf_add_node. }
  assert (∀ k, graph_wf (graph k) → graph_wf (graph (_link_tags_and_files k)))
    as Hlink.
  { intros k Hk. unfold _link_tags_and_files. cbn.
    apply graph_wf_for_each; [|done].
    intros file g' Hg'. apply graph_wf_for_each; [|done].
    intros tag_id g'' Hg''. destruct (_ && _); [|done].
    by apply graph_wf_add_edge. }
  destruct (bool_decide (mode ∈ ["tags"; "full"])),
    (bool_decide (mode ∈ ["files"; "full"])),
    (bool_decide (mode = "full")); auto.
Qed.
End GraphWf.

(** ** Every edge is met once from each end *)

Section Handshake.
Implicit Types (seen l : list string) (T : pydict string nx.entry)
  (n v : string) (e : nx.entry).

Lemma filter_swap_length (A B : list string) :
  NoDup A → NoDup B →
  length (filter (λ x, x ∈ B) A) = length (filter (λ x, x ∈ A) B).
Proof.
  intros HA HB. apply Permutation_length, NoDup_Permutation.
  - by apply NoDup_filter.
  - by apply NoDup_filter.
  - intros x. rewrite !list_elem_of_filter. tauto.
Qed.

Lemma filter_unseen_snoc seen n l :
  NoDup l → n ∉ seen →
  length (filter (λ v, v ∉ seen) l)
  = (length (filter (λ v, v ∉ (seen ++ [n])%list) l)
     + (if decide (n ∈ l) then 1 else 0))%nat.
Proof.
  intros Hnd Hn. induction l as [|x l IH].
  - rewrite decide_False; [done | apply not_elem_of_nil].
  - apply NoDup_cons in Hnd as [Hx Hnd]. specialize (IH Hnd).
    rewrite !filter_cons.
    assert (n ∈ x :: l ↔ x = n ∨ n ∈ l) as H1
      by (rewrite elem_of_cons; split; intros [->|?]; auto).
    assert (x ∈ (seen ++ [n])%list ↔ x ∈ seen ∨ x = n) as H2
      by (by rewrite elem_of_app, list_elem_of_singleton).
    destruct (decide (x = n)) as [->|Hne]; decide_cases.
Qed.

Lemma unseen_degree_sum_snoc seen n T :
  n ∉ seen →
  (∀ u e, (u, e) ∈ T → NoDup (dict_keys (nx.nbrs e))) →
  unseen_degree_sum seen T
  = (unseen_degree_sum (seen ++ [n])%list T + nbr_count n T)%nat.
Proof.
  intros Hn. induction T as [|[m e] T IH]; intros Hnb; [done|].
  cbn [unseen_degree_sum nbr_count].
  rewrite (filter_unseen_snoc seen n) by (done || (eapply Hnb; left)).
  rewrite IH by (intros u e' Hin; eapply Hnb; by right). lia.
Qed.

Lemma nbr_count_filter n e T :
  (∀ m e', (m, e') ∈ T →
     m ∈ dict_keys (nx.nbrs e) ↔ n ∈ dict_keys (nx.nbrs e')) →
  length (filter (λ x, x ∈ dict_keys (nx.nbrs e)) T.*1) = nbr_count n T.
Proof.
  induction T as [|[m e'] T IH]; intros Hsym; [done|].
  rewrite fmap_cons, filter_cons. cbn [nbr_count fst].
  rewrite <-IH by (intros m' e'' Hin; apply Hsym; by right).
  pose proof (Hsym m e' ltac:(left)) as Hm. decide_cases.
Qed.

(** The neighbours of the first node that are not seen yet are the node
    itself, if it has a loop, and the nodes after it that list it. *)
Lemma unseen_head seen n (N : list string) (rest : list string) :
  NoDup N → NoDup rest → n ∉ seen → n ∉ rest →
  (∀ x, x ∈ seen → x ∉ rest) →
  (∀ v, v ∈ N → v ∈ seen ∨ v = n ∨ v ∈ rest) →
  length (filter (λ v, v ∉ seen) N)
  = ((if decide (n ∈ N) then 1 else 0)
     + length (filter (λ x, x ∈ N) rest))%nat.
Proof.
  intros HN Hrest Hn Hnr Hdisj Hcl.
  rewrite <-(filter_swap_length N rest) by done. clear Hrest.
  induction N as [|x l IH].
  - rewrite decide_False; [done | apply not_elem_of_nil].
  - apply NoDup_cons in HN as [Hx HN].
    assert (length (filter (λ v, v ∉ seen) l)
            = ((if decide (n ∈ l) then 1 else 0)
               + length (filter (λ x0, x0 ∈ rest) l))%nat) as IH'.
    { apply IH; [done|]. intros v Hv. apply Hcl. by right. }
    rewrite !filter_cons.
    assert (n ∈ x :: l ↔ x = n ∨ n ∈ l) as H1
      by (rewrite elem_of_cons; split; intros [->|?]; auto).
    pose proof (Hcl x ltac:(left)) as Hx'.
    pose proof (Hdisj x) as Hdx.
    destruct (decide (x = n)) as [->|Hne]; decide_cases.
Qed.

Lemma handshake_from seen T :
  NoDup (seen ++ T.*1)%list →
  (∀ u e, (u, e) ∈ T → NoDup (dict_keys (nx.nbrs e))) →
  (∀ u e v, (u, e) ∈ T → v ∈ dict_keys (nx.nbrs e) → v ∈ seen ∨ v ∈ T.*1) →
  (∀ u e m e', (u, e) ∈ T → (m, e') ∈ T →
     m ∈ dict_keys (nx.nbrs e) ↔ u ∈ dict_keys (nx.nbrs e')) →
  unseen_degree_sum seen T = (2 * edge_count seen T)%nat.
Proof.
  revert seen. induction T as [|[n e] T IH]; intros seen Hnd Hnb Hcl Hsym;
    [done|].
  cbn [unseen_degree_sum edge_count].
  rewrite fmap_cons in Hnd. cbn [fst] in Hnd.
  assert ((n ∉ seen) ∧ (n ∉ T.*1) ∧ (NoDup (T.*1))
          ∧ (∀ x, x ∈ seen → x ∉ T.*1)) as (Hn & HnT & HT & Hdisj).
  { apply NoDup_app in Hnd as (Hs & Hdisj & [HnT HT]%NoDup_cons).
    split_and!; try done.
    - intros Hin. apply (Hdisj n Hin). left.
    - intros x Hx Hx'. apply (Hdisj x Hx). by right. }
  assert (NoDup (dict_keys (nx.nbrs e))) as HN by (eapply Hnb; left).
  rewrite (unseen_degree_sum_snoc seen n)
    by (done || (intros u e' Hin; eapply Hnb; by right)).
  rewrite (IH (seen ++ [n])%list).
  2:{ by rewrite <-app_assoc. }
  2:{ intros u e' Hin. eapply Hnb. by right. }
  2:{ intros u e' v Hin Hv. rewrite elem_of_app, list_elem_of_singleton.
      destruct (Hcl u e' v) as [? | [-> | ?]%elem_of_cons]; auto. by right. }
  2:{ intros u e1 m e2 H1 H2. apply Hsym; by right. }
  rewrite (unseen_head seen n (dict_keys (nx.nbrs e)) T.*1); try done.
  2:{ intros v Hv.
      destruct (Hcl n e v) as [? | [-> | ?]%elem_of_cons]; auto. left. }
  rewrite (nbr_count_filter n e T)
    by (intros m e' Hin; apply Hsym; [left | by right]).
  unfold self_loop. lia.
Qed.
End Handshake.

(** ** Counting the edges and the degrees of a graph *)

Section EdgeCount.
Import KnowledgeGraph.
Implicit Types (g : nx.Graph) (kg : t).

Lemma dict_set_fresh {K V} `{EqDecision K} (k : K) (v : V) (d : pydict K V) :
  k ∉ d.*1 → dict_set k v d = (d ++ [(k, v)])%list.
Proof.
  induction d as [|[k0 v0] d IH]; [done|].
  rewrite fmap_cons, not_elem_of_cons. intros [Hne Hd]. cbn.
  rewrite decide_False by done. by rewrite IH.
Qed.

Lemma dict_update_NoDup {K V} `{EqDecision K} (d kv : pydict K V) :
  NoDup ((d ++ kv)%list.*1) → dict_update d kv = (d ++ kv)%list.
Proof.
  revert d. induction kv as [|[k v] kv IH]; intros d Hnd.
  - by rewrite app_nil_r.
  - cbn. fold (dict_update (dict_set k v d) kv).
    rewrite dict_set_fresh.
    + rewrite IH; rewrite <-app_assoc; done.
    + rewrite fmap_app, fmap_cons in Hnd.
      apply NoDup_app in Hnd as (_ & Hdisj & _).
      intros Hk. apply (Hdisj k Hk). left.
Qed.

Lemma dict_of_pairs_NoDup {K V} `{EqDecision K} (kv : pydict K V) :
  NoDup kv.*1 → dict_of_pairs kv = kv.
Proof. intros Hnd. unfold dict_of_pairs. by rewrite dict_update_NoDup. Qed.

Lemma degree_entry_unseen n (e : nx.entry) :
  nx.degree_entry n e
  = Z.of_nat (length (filter (λ v, v ∉ []) (dict_keys (nx.nbrs e)))
              + self_loop n e).
Proof.
  unfold nx.degree_entry, self_loop, dict_contains.
  rewrite filter_all by (intros x _; apply not_elem_of_nil).
  unfold dict_keys. rewrite length_fmap.
  destruct (decide (n ∈ (nx.nbrs e).*1)) as [Hin|Hin].
  - rewrite bool_decide_eq_true_2 by (by apply dict_get_is_Some). lia.
  - rewrite bool_decide_eq_false_2 by (by rewrite dict_get_is_Some). lia.
Qed.

Lemma degree_sum_unseen g :
  nx.sum_Z (nx.degree_view g).*2
  = Z.of_nat (unseen_degree_sum [] (nx.table g)).
Proof.
  unfold nx.degree_view.
  induction (nx.table g) as [|[n e] T IH]; [done|].
  cbn [map fmap list_fmap nx.sum_Z foldr unseen_degree_sum snd fst].
  change (foldr Z.add 0 (map (λ ne, (ne.1, nx.degree_entry ne.1 ne.2)) T).*2)
    with (nx.sum_Z (map (λ ne, (ne.1, nx.degree_entry ne.1 ne.2)) T).*2).
  rewrite IH, degree_entry_unseen. lia.
Qed.

Lemma edges_data_loop (T : pydict string nx.entry) (seen : list string)
    (out : list (string * string * attrs)) :
  length
    (for_each T
       (λ ne (st : list string * list (string * string * attrs)),
          ((st.1 ++ [ne.1])%list,
           (st.2
            ++ omap (λ vd : string * attrs,
                       if decide (vd.1 ∈ st.1) then None
                       else Some (ne.1, vd.1, vd.2))
                 (nx.nbrs ne.2))%list))
       (seen, out)).2
  = (length out + edge_count seen T)%nat.
Proof.
  unfold for_each. revert seen out.
  induction T as [|[n e] T IH]; intros seen out.
  - cbn. lia.
  - cbn [fold_left]. rewrite IH. cbn [fst snd edge_count].
    rewrite length_app.
    assert (length
              (omap (λ vd : string * attrs,
                       if decide (vd.1 ∈ seen) then None
                       else Some (n, vd.1, vd.2)) (nx.nbrs e))
            = length (filter (λ v, v ∉ seen) (dict_keys (nx.nbrs e)))) as ->.
    { unfold dict_keys. induction (nx.nbrs e) as [|[v d] l IHl]; [done|].
      rewrite fmap_cons, filter_cons. cbn [omap list_omap fst snd].
      destruct (decide (v ∈ seen)).
      - rewrite decide_False by tauto. apply IHl.
      - rewrite decide_True by done. cbn. by rewrite <-IHl. }
    lia.
Qed.

Lemma length_edges_data g :
  length (edges_data g) = edge_count [] (nx.table g).
Proof. unfold edges_data. by rewrite edges_data_loop. Qed.

(** On a well-formed graph the degrees add up to twice the number of
    edges that [G.edges()] yields, which is [len(G.edges())]. *)
Lemma handshake g :
  graph_wf g →
  nx.sum_Z (nx.degree_view g).*2 = 2 * Z.of_nat (length (edges_data g))
  ∧ nx.number_of_edges g = Z.of_nat (length (edges_data g)).
Proof.
  intros (Hnd & Hnb & Hsym & Hcl).
  assert (∀ u e v, (u, e) ∈ nx.table g →
            v ∈ dict_keys (nx.nbrs e) ↔ is_Some (nx.get_edge_data g u v))
    as Hedge.
  { intros u e v Hin. unfold nx.get_edge_data.
    rewrite (dict_get_elem_NoDup _ _ _ Hnd Hin). by rewrite dict_get_is_Some. }
  assert (nx.sum_Z (nx.degree_view g).*2
          = 2 * Z.of_nat (length (edges_data g))) as Hsum.
  { rewrite degree_sum_unseen, length_edges_data, handshake_from; [lia|..].
    - done.
    - done.
    - intros u e v Hin [d Hd]%(Hedge u e v Hin). right.
      apply Hcl in Hd. by apply contains_spec, dict_get_is_Some in Hd.
    - intros u e m e' Hu Hm.
      by rewrite (Hedge u e m Hu), (Hedge m e' u Hm), Hsym. }
  split; [done|]. unfold nx.number_of_edges. rewrite Hsum.
  rewrite Z.mul_comm. apply Z.div_mul. lia.
Qed.
End EdgeCount.

(** ** [get_stats] and [export_json] *)

Section ExportJson.
Import KnowledgeGraph.
Implicit Types (g : nx.Graph) (kg : t) (n : string).

Lemma count_nodes_of_type_loop ty g (l : list string) (acc : Z) :
  (∀ n, n ∈ l → n ∈ nx.nodes g) →
  for_eachM l
    (λ n acc,
       node_data ← nx.nodes_getitem g n;
       if bool_decide (dict_get "type" node_data = Some (VStr ty))
       then Return (acc + 1) else Return acc)
    acc
  = Return
      (acc + Z.of_nat
               (length (filter (λ n, node_type g n = Some (VStr ty)) l))).
Proof.
  revert acc. induction l as [|n l IH]; intros acc Hl.
  - cbn. f_equal. lia.
  - cbn [for_eachM].
    destruct (proj2 (dict_get_is_Some n (nx.table g))) as [e He].
    { apply Hl. left. }
    assert (nx.nodes_getitem g n = Return (nx.attr e)) as ->
      by (unfold nx.nodes_getitem; by rewrite He).
    rewrite bind_Return, filter_cons.
    assert (node_type g n = dict_get "type" (nx.attr e)) as Hty
      by (unfold node_type; by rewrite He).
    destruct (decide (node_type g n = Some (VStr ty))) as [Hd|Hd];
      rewrite Hty in Hd.
    + rewrite bool_decide_eq_true_2 by done.
      rewrite bind_Return, IH by (intros; apply Hl; by right).
      f_equal. cbn [length]. lia.
    + rewrite bool_decide_eq_false_2 by done.
      rewrite bind_Return, IH by (intros; apply Hl; by right). done.
Qed.

Lemma count_nodes_of_type_filter ty g :
  count_nodes_of_type ty g
  = Return
      (Z.of_nat
         (length (filter (λ n, node_type g n = Some (VStr ty)) (nx.nodes g)))).
Proof.
  unfold count_nodes_of_type. by rewrite count_nodes_of_type_loop.
Qed.

Lemma filter_disjoint_length {A} (P1 P2 : A → Prop)
    `{∀ x, Decision (P1 x)} `{∀ x, Decision (P2 x)} (l : list A) :
  (∀ x, P1 x → P2 x → False) →
  (length (filter P1 l) + length (filter P2 l) ≤ length l)%nat.
Proof.
  intros Hdis. induction l as [|x l IH]; [done|].
  rewrite !filter_cons.
  destruct (decide (P1 x)), (decide (P2 x)); cbn [length]; try lia.
  exfalso. eauto.
Qed.

(** The dictionary that [get_stats] returns for a graph with a node. *)
Lemma get_stats_nonempty kg :
  nx.nodes (graph kg) ≠ [] →
  get_stats kg
  = Return
      [("total_nodes", VInt (Z.of_nat (length (nx.nodes (graph kg)))));
       ("total_edges", VInt (nx.number_of_edges (graph kg)));
       ("tag_nodes",
         VInt (Z.of_nat
                 (length (filter (λ n, node_type (graph kg) n
                                        = Some (VStr "tag"))
                            (nx.nodes (graph kg))))));
       ("file_nodes",
         VInt (Z.of_nat
                 (length (filter (λ n, node_type (graph kg) n
                                        = Some (VStr "file"))
                            (nx.nodes (graph kg))))));
       ("avg_degree",
         VFloat (Qred (nx.sum_Z (dict_values
                                   (dict_of_pairs
                                      (nx.degree_view (graph kg))))
                       # Z.to_pos
                           (Z.of_nat (length (nx.nodes (graph kg)))))));
       ("density", nx.density (graph kg));
       ("connected_components",
         VInt (nx.number_connected_components (graph kg)))].
Proof.
  intros Hne. unfold get_stats.
  rewrite bool_decide_eq_false_2.
  - by rewrite !count_nodes_of_type_filter, !bind_Return.
  - unfold nx.number_of_nodes, nx.nodes, dict_keys in *.
    destruct (nx.table (graph kg)); [done | cbn; lia].
Qed.

Lemma get_stats_empty kg :
  nx.nodes (graph kg) = [] →
  get_stats kg
  = Return [("total_nodes", VInt 0); ("total_edges", VInt 0);
            ("tag_nodes", VInt 0); ("file_nodes", VInt 0);
            ("avg_degree", VInt 0); ("density", VInt 0)].
Proof.
  intros Hnil. unfold get_stats. rewrite bool_decide_eq_true_2; [done|].
  unfold nx.number_of_nodes, nx.nodes, dict_keys in *.
  by destruct (nx.table (graph kg)).
Qed.

Lemma degree_view_keys g : (nx.degree_view g).*1 = nx.nodes g.
Proof.
  unfold nx.degree_view, nx.nodes, dict_keys.
  induction (nx.table g) as [|[n e] T IH]; [done|].
  cbn. by rewrite <-IH.
Qed.

Lemma export_nodes_loop g (l : list string) (acc : list attrs) :
  (∀ n, n ∈ l → n ∈ nx.nodes g) →
  ∃ out,
    for_eachM l
      (λ node_id nodes,
         node_data ← nx.nodes_getitem g node_id;
         Return (nodes ++ [dict_set "id" (VStr node_id) node_data])%list)
      acc
    = Return (acc ++ out)%list
    ∧ dict_get "id" <$> out = (λ n, Some (VStr n)) <$> l.
Proof.
  revert acc. induction l as [|n l IH]; intros acc Hl.
  - exists []. by rewrite app_nil_r.
  - cbn [for_eachM].
    destruct (proj2 (dict_get_is_Some n (nx.table g))) as [e He].
    { apply Hl. left. }
    assert (nx.nodes_getitem g n = Return (nx.attr e)) as ->
      by (unfold nx.nodes_getitem; by rewrite He).
    rewrite !bind_Return.
    destruct (IH (acc ++ [dict_set "id" (VStr n) (nx.attr e)])%list)
      as (out & -> & Hout); [intros; apply Hl; by right|].
    exists (dict_set "id" (VStr n) (nx.attr e) :: out). split.
    + by rewrite <-app_assoc.
    + rewrite !fmap_cons, Hout. by rewrite dict_get_set_eq.
Qed.

Lemma export_edges_loop (l : list (string * string * attrs))
    (acc : list attrs) :
  for_each l
    (λ uvd edges,
       (edges
        ++ [dict_set "target" (VStr uvd.1.2)
              (dict_set "source" (VStr uvd.1.1) uvd.2)])%list)
    acc
  = (acc
     ++ ((λ uvd, dict_set "target" (VStr uvd.1.2)
                   (dict_set "source" (VStr uvd.1.1) uvd.2)) <$> l))%list.
Proof.
  unfold for_each. revert acc. induction l as [|x l IH]; intros acc.
  - by rewrite app_nil_r.
  - cbn [fold_left]. rewrite IH, fmap_cons, <-app_assoc. done.
Qed.
End ExportJson.

(** ** The edges that [G.edges(data=True)] yields *)

Section EdgesData.
Import KnowledgeGraph.
Implicit Types (g : nx.Graph) (u v n : string) (d : attrs)
  (seen : list string) (T : pydict string nx.entry).

Lemma edges_data_from_loop T seen (out : list (string * string * attrs)) :
  (for_each T
     (λ ne (st : list string * list (string * string * attrs)),
        ((st.1 ++ [ne.1])%list,
         (st.2
          ++ omap (λ vd : string * attrs,
                     if decide (vd.1 ∈ st.1) then None
                     else Some (ne.1, vd.1, vd.2))
               (nx.nbrs ne.2))%list))
     (seen, out)).2
  = (out ++ edges_from seen T)%list.
Proof.
  unfold for_each. revert seen out.
  induction T as [|[n e] T IH]; intros seen out.
  - cbn. by rewrite app_nil_r.
  - cbn [fold_left]. rewrite IH. cbn [fst snd edges_from].
    by rewrite <-app_assoc.
Qed.

Lemma edges_data_from g : edges_data g = edges_from [] (nx.table g).
Proof. unfold edges_data. by rewrite edges_data_from_loop. Qed.

Lemma elem_of_yielded seen n (N : pydict string attrs) u v d :
  (u, v, d) ∈ omap (λ vd : string * attrs,
                      if decide (vd.1 ∈ seen) then None
                      else Some (n, vd.1, vd.2)) N
  ↔ u = n ∧ (v, d) ∈ N ∧ v ∉ seen.
Proof.
  rewrite list_elem_of_omap. split.
  - intros ([v' d'] & Hin & Heq). cbn [fst snd] in Heq.
    destruct (decide (v' ∈ seen)); [done|].
    injection Heq as <- <- <-. done.
  - intros (-> & Hin & Hv). exists (v, d). split; [done|].
    cbn [fst snd]. by rewrite decide_False.
Qed.

Lemma elem_of_edges_from seen T u v d :
  (u, v, d) ∈ edges_from seen T
  ↔ ∃ T1 e T2, T = (T1 ++ (u, e) :: T2)%list ∧ (v, d) ∈ nx.nbrs e
               ∧ (v ∉ seen) ∧ (v ∉ T1.*1).
Proof.
  revert seen. induction T as [|[n e] T IH]; intros seen.
  - cbn [edges_from]. split; [by intros ?%elem_of_nil|].
    intros (T1 & e & T2 & Heq & _). by destruct T1.
  - cbn [edges_from]. rewrite elem_of_app, elem_of_yielded, IH. split.
    + intros [(-> & Hin & Hv) | (T1 & e' & T2 & -> & Hin & Hv & HT1)].
      * exists [], e, T. split_and!; try done. apply not_elem_of_nil.
      * exists ((n, e) :: T1), e', T2.
        rewrite not_elem_of_app, not_elem_of_cons in Hv.
        split_and!; try tauto. rewrite fmap_cons, not_elem_of_cons. tauto.
    + intros (T1 & e' & T2 & Heq & Hin & Hv & HT1).
      destruct T1 as [|[n1 e1] T1].
      * injection Heq as -> -> ->. by left.
      * injection Heq as -> -> ->. right. exists T1, e', T2.
        rewrite fmap_cons, not_elem_of_cons in HT1.
        rewrite not_elem_of_app, not_elem_of_cons. cbn [fst] in HT1.
        split_and!; try tauto. apply not_elem_of_nil.
Qed.

Lemma split_order {V} (T1 T2 T1' T2' : pydict string V) u v (e e' : V) :
  (T1 ++ (u, e) :: T2 = T1' ++ (v, e') :: T2')%list →
  u ≠ v → u ∈ T1'.*1 ∨ v ∈ T1.*1.
Proof.
  revert T1'. induction T1 as [|x T1 IH]; intros [|x' T1'] Heq Hne.
  - by injection Heq as -> _.
  - injection Heq as <- _. left. rewrite fmap_cons. left.
  - injection Heq as -> _. right. rewrite fmap_cons. left.
  - injection Heq as -> Heq. rewrite !fmap_cons, !elem_of_cons.
    destruct (IH _ Heq Hne); tauto.
Qed.

Lemma edge_in_table g u v d :
  NoDup (nx.nodes g) →
  (∀ n e, (n, e) ∈ nx.table g → NoDup (dict_keys (nx.nbrs e))) →
  nx.get_edge_data g u v = Some d
  ↔ ∃ e, (u, e) ∈ nx.table g ∧ (v, d) ∈ nx.nbrs e.
Proof.
  intros Hnd Hnb. unfold nx.get_edge_data. split.
  - destruct (dict_get u (nx.table g)) as [e|] eqn:He; [|done].
    intros Hd. exists e. split; by apply dict_get_Some_elem.
  - intros (e & Hu & Hv).
    rewrite (dict_get_elem_NoDup _ _ _ Hnd Hu).
    apply dict_get_elem_NoDup; [by eapply Hnb | done].
Qed.

Lemma NoDup_edges_from seen T :
  NoDup (T.*1) →
  (∀ n e, (n, e) ∈ T → NoDup (dict_keys (nx.nbrs e))) →
  NoDup ((edges_from seen T).*1).
Proof.
  revert seen. induction T as [|[n e] T IH]; intros seen Hnd Hnb.
  - cbn. constructor.
  - rewrite fmap_cons in Hnd. apply NoDup_cons in Hnd as [Hn HT].
    cbn [edges_from]. rewrite fmap_app. apply NoDup_app. split_and!.
    + assert (NoDup (dict_keys (nx.nbrs e))) as HN
        by (apply (Hnb n); left).
      unfold dict_keys in HN. clear -HN.
      induction (nx.nbrs e) as [|[v d] N IHN]; [constructor|].
      rewrite fmap_cons in HN. apply NoDup_cons in HN as [Hv HN].
      cbn [omap list_omap fst snd].
      destruct (decide (v ∈ seen)); [by apply IHN|].
      rewrite fmap_cons. apply NoDup_cons. split; [|by apply IHN].
      intros ([[u' v'] d'] & Heq & Hin)%list_elem_of_fmap.
      cbn in Heq. injection Heq as <- <-.
      apply elem_of_yielded in Hin as (_ & Hin & _).
      apply Hv, list_elem_of_fmap. by exists (v, d').
    + intros [u v] ([[u1 v1] d1] & Heq & Hin1)%list_elem_of_fmap
                   ([[u2 v2] d2] & Heq2 & Hin2)%list_elem_of_fmap.
      cbn in Heq, Heq2. injection Heq as -> ->. injection Heq2 as -> ->.
      apply elem_of_yielded in Hin1 as (-> & _).
      apply elem_of_edges_from in Hin2 as (T1 & e' & T2 & -> & _).
      apply Hn. rewrite fmap_app, fmap_cons, elem_of_app, elem_of_cons.
      tauto.
    + apply IH; [done|]. intros m e' Hin. apply (Hnb m). by right.
Qed.

(** On a well-formed graph [G.edges(data=True)] yields every edge once,
    from one of its ends. *)
Lemma edges_data_once g :
  graph_wf g →
  (∀ u v d, (u, v, d) ∈ edges_data g → nx.get_edge_data g u v = Some d)
  ∧ (∀ u v d, nx.get_edge_data g u v = Some d →
       (u, v, d) ∈ edges_data g ∨ (v, u, d) ∈ edges_data g)
  ∧ (∀ u v d d', (u, v, d) ∈ edges_data g → (v, u, d') ∈ edges_data g →
       u = v)
  ∧ NoDup ((edges_data g).*1).
Proof.
  intros (Hnd & Hnb & Hsym & Hcl). rewrite edges_data_from.
  assert (∀ u v d, nx.get_edge_data g u v = Some d
            ↔ ∃ e, (u, e) ∈ nx.table g ∧ (v, d) ∈ nx.nbrs e) as Hedge
    by (intros; by apply edge_in_table).
  split_and!.
  - intros u v d (T1 & e & T2 & Heq & Hin & _)%elem_of_edges_from.
    apply Hedge. exists e. split; [|done].
    rewrite Heq, elem_of_app, elem_of_cons. tauto.
  - intros u v d Hd.
    assert (nx.get_edge_data g v u = Some d) as Hd' by (by rewrite Hsym).
    apply Hedge in Hd as (e & Hu & Hv).
    apply Hedge in Hd' as (e' & Hv' & Hu').
    destruct (list_elem_of_split _ _ Hu) as (T1 & T2 & Heq).
    destruct (decide (v ∈ T1.*1)) as [Hb|Hb].
    + right. apply list_elem_of_fmap in Hb as ([v0 e0] & Hv0 & Hin0).
      cbn in Hv0. subst v0.
      destruct (list_elem_of_split _ _ Hin0) as (A & B & ->).
      assert (e0 = e') as ->.
      { assert (dict_get v (nx.table g) = Some e0) as H0.
        { apply dict_get_elem_NoDup; [done|].
          rewrite Heq, !elem_of_app, elem_of_cons. tauto. }
        rewrite (dict_get_elem_NoDup _ _ _ Hnd Hv') in H0. congruence. }
      apply elem_of_edges_from. exists A, e', (B ++ (u, e) :: T2)%list.
      split_and!.
      * by rewrite Heq, <-app_assoc.
      * done.
      * apply not_elem_of_nil.
      * unfold nx.nodes, dict_keys in Hnd.
        rewrite Heq, <-app_assoc, fmap_app in Hnd.
        apply NoDup_app in Hnd as (_ & Hdis & _). intros HA.
        apply (Hdis u HA).
        rewrite fmap_app, fmap_cons, elem_of_app, elem_of_cons.
        right. by left.
    + left. apply elem_of_edges_from. exists T1, e, T2.
      split_and!; try done. apply not_elem_of_nil.
  - intros u v d d' (T1 & e & T2 & Heq & _ & _ & Hv)%elem_of_edges_from
                    (T1' & e' & T2' & Heq' & _ & _ & Hu)%elem_of_edges_from.
    destruct (decide (u = v)) as [|Hne]; [done|]. exfalso.
    rewrite Heq in Heq'. destruct (split_order _ _ _ _ _ _ _ _ Heq' Hne); tauto.
  - apply NoDup_edges_from; [done|]. intros n e. apply Hnb.
Qed.
End EdgesData.

(** ** The nodes of a generated graph *)

Section Nodes.
Import KnowledgeGraph.
Implicit Types (g : nx.Graph) (n u v : string) (kw : attrs)
  (N : list string).

Lemma for_each_inv {A St} (I : St → Prop) (l : list A)
    (body : A → St → St) (s : St) :
  (∀ x s', x ∈ l → I s' → I (body x s')) → I s → I (for_each l body s).
Proof.
  revert s. induction l as [|x l IH]; intros s Hbody Hs; [done|].
  cbn. apply IH.
  - intros y s' Hy. apply Hbody. by right.
  - apply Hbody; [left | done].
Qed.

Lemma elem_of_nodes n g : n ∈ nx.nodes g ↔ nx.contains n g = true.
Proof. rewrite contains_spec, dict_get_is_Some. done. Qed.

Lemma nodes_add_node n kw g :
  nx.nodes (nx.add_node n kw g)
  = if decide (n ∈ nx.nodes g) then nx.nodes g
    else (nx.nodes g ++ [n])%list.
Proof.
  unfold nx.add_node, nx.nodes, dict_keys.
  destruct (dict_get n (nx.table g)); cbn; apply dict_set_keys.
Qed.

Lemma nodes_ensure_node n g :
  n ∈ nx.nodes g → nx.ensure_node n g = g.
Proof.
  intros Hin%elem_of_nodes. unfold nx.ensure_node. by rewrite Hin.
Qed.

Lemma nodes_set_nbr u v (dd : attrs) g :
  nx.nodes (nx.set_nbr u v dd g) = nx.nodes g.
Proof.
  unfold nx.set_nbr, nx.nodes, dict_keys.
  destruct (dict_get u (nx.table g)) as [e|] eqn:He; [|done].
  cbn. rewrite dict_set_keys, decide_True; [done|].
  apply dict_get_is_Some. by rewrite He.
Qed.

(** An edge between two nodes of the graph adds no node. *)
Lemma nodes_add_edge u v kw g :
  u ∈ nx.nodes g → v ∈ nx.nodes g →
  nx.nodes (nx.add_edge u v kw g) = nx.nodes g.
Proof.
  intros Hu Hv. unfold nx.add_edge.
  rewrite (nodes_ensure_node u) by done.
  rewrite (nodes_ensure_node v) by done.
  by rewrite !nodes_set_nbr.
Qed.

Lemma filter_ext_in {A} (P1 P2 : A → Prop)
    `{∀ x, Decision (P1 x)} `{∀ x, Decision (P2 x)} (l : list A) :
  (∀ x, x ∈ l → P1 x ↔ P2 x) → filter P1 l = filter P2 l.
Proof.
  induction l as [|x l IH]; intros Hiff; [done|].
  rewrite !filter_cons.
  assert (P1 x ↔ P2 x) as Hx by (apply Hiff; left).
  rewrite IH by (intros; apply Hiff; by right).
  destruct (decide (P1 x)), (decide (P2 x)); tauto || done.
Qed.

Lemma nodes_add_nodes {A} (id : A → string) (kwf : A → attrs)
    (l : list A) g :
  NoDup (id <$> l) →
  nx.nodes (for_each l (λ x, nx.add_node (id x) (kwf x)) g)
  = (nx.nodes g ++ filter (λ n, n ∉ nx.nodes g) (id <$> l))%list.
Proof.
  revert g. induction l as [|x l IH]; intros g Hnd.
  - cbn. by rewrite app_nil_r.
  - rewrite fmap_cons in Hnd. apply NoDup_cons in Hnd as [Hx Hnd].
    cbn [for_each fold_left].
    change (fold_left _ l ?s)
      with (for_each l (λ x, nx.add_node (id x) (kwf x)) s).
    rewrite IH, nodes_add_node, fmap_cons, filter_cons by done.
    destruct (decide (id x ∈ nx.nodes g)) as [Hin|Hin].
    + rewrite decide_False by tauto. done.
    + rewrite decide_True by done. rewrite <-app_assoc. cbn [app].
      do 2 f_equal. apply filter_ext_in. intros n Hn.
      rewrite not_elem_of_app, not_elem_of_cons.
      split; [tauto|]. intros Hng.
      split_and!; [done | | apply not_elem_of_nil].
      by intros ->.
Qed.

Lemma keyed_ids {V} (id : V → string) (d : pydict string V) :
  Forall (λ kv, id kv.2 = kv.1) d → id <$> dict_values d = dict_keys d.
Proof.
  unfold dict_values, dict_keys. induction 1 as [|[k x] d Hk _ IH]; [done|].
  rewrite !fmap_cons. cbn in *. by rewrite Hk, IH.
Qed.

Lemma nodes_build_tag_graph kg :
  tags_keyed (datastore kg) →
  nx.nodes (graph (_build_tag_graph kg))
  = (nx.nodes (graph kg)
     ++ filter (λ n, n ∉ nx.nodes (graph kg))
          (dict_keys (DataStore.tags (datastore kg))))%list.
Proof.
  intros [Hnd Hkey]. unfold _build_tag_graph. cbn [graph].
  set (g1 := for_each (dict_values _) _ (graph kg)).
  assert (nx.nodes g1
          = (nx.nodes (graph kg)
             ++ filter (λ n, n ∉ nx.nodes (graph kg))
                  (dict_keys (DataStore.tags (datastore kg))))%list) as Hg1.
  { unfold g1.
    rewrite (nodes_add_nodes Tag.tag_id tag_node_attrs);
      by rewrite (keyed_ids Tag.tag_id). }
  rewrite <-Hg1.
  apply (for_each_inv (λ g, nx.nodes g = nx.nodes g1)); [|done].
  intros [[t1 t2] c] g _ Hg. unfold add_cooccurrence_edge.
  destruct (2 <=? c); [|done].
  assert (∀ t tag, DataStore.get_tag (datastore kg) t = Some tag →
                   t ∈ nx.nodes g) as Hin.
  { intros t tag Ht. rewrite Hg, Hg1.
    assert (t ∈ dict_keys (DataStore.tags (datastore kg))) as Htk.
    { apply dict_get_is_Some. unfold DataStore.get_tag in Ht.
      by rewrite Ht. }
    apply elem_of_app.
    destruct (decide (t ∈ nx.nodes (graph kg))); [by left | right].
    by apply list_elem_of_filter. }
  destruct (DataStore.get_tag _ t1) as [tag1|] eqn:E1; [|done].
  destruct (DataStore.get_tag _ t2) as [tag2|] eqn:E2; [|done].
  rewrite nodes_add_edge; eauto.
Qed.

Lemma nodes_build_file_graph kg :
  files_keyed (datastore kg) →
  nx.nodes (graph (_build_file_graph kg))
  = (nx.nodes (graph kg)
     ++ filter (λ n, n ∉ nx.nodes (graph kg))
          (dict_keys (DataStore.files (datastore kg))))%list.
Proof.
  intros [Hnd Hkey]. unfold _build_file_graph. cbn [graph].
  set (g1 := for_each (dict_values _) _ (graph kg)).
  assert (nx.nodes g1
          = (nx.nodes (graph kg)
             ++ filter (λ n, n ∉ nx.nodes (graph kg))
                  (dict_keys (DataStore.files (datastore kg))))%list) as Hg1.
  { unfold g1.
    rewrite (nodes_add_nodes File.file_id file_node_attrs);
      by rewrite (keyed_ids File.file_id). }
  rewrite <-Hg1.
  assert (∀ g file, nx.nodes g = nx.nodes g1 →
            file ∈ dict_values (DataStore.files (datastore kg)) →
            File.file_id file ∈ nx.nodes g) as Hin.
  { intros g file Hg Hfile. rewrite Hg, Hg1.
    assert (File.file_id file
            ∈ dict_keys (DataStore.files (datastore kg))) as Hk.
    { rewrite <-(keyed_ids File.file_id) by done.
      by apply list_elem_of_fmap_2. }
    apply elem_of_app.
    destruct (decide (File.file_id file ∈ nx.nodes (graph kg)));
      [by left | right].
    by apply list_elem_of_filter. }
  apply (for_each_inv (λ g, nx.nodes g = nx.nodes g1)); [|done].
  intros [i file1] g Hi1 Hg.
  apply (for_each_inv (λ g, nx.nodes g = nx.nodes g1)); [|done].
  intros file2 g' Hi2 Hg'. unfold add_similarity_edge.
  destruct (Qltb _ _); [|done].
  rewrite nodes_add_edge; [done | |].
  - apply Hin; [done|]. unfold enumerate in Hi1.
    apply list_elem_of_lookup in Hi1 as [j Hj].
    apply list_lookup_imap_Some in Hj as (x & Hx & [= -> ->]).
    by eapply list_elem_of_lookup_2.
  - apply Hin; [done|]. apply list_elem_of_lookup in Hi2 as [j Hj].
    rewrite lookup_drop in Hj. by eapply list_elem_of_lookup_2.
Qed.

Lemma nodes_link_tags_and_files kg :
  nx.nodes (graph (_link_tags_and_files kg)) = nx.nodes (graph kg).
Proof.
  unfold _link_tags_and_files. cbn [graph].
  apply (for_each_inv (λ g, nx.nodes g = nx.nodes (graph kg))); [|done].
  intros file g _ Hg.
  apply (for_each_inv (λ g, nx.nodes g = nx.nodes (graph kg))); [|done].
  intros tag_id g' _ Hg'.
  destruct (nx.contains tag_id g') eqn:E1; [|done].
  destruct (nx.contains (File.file_id file) g') eqn:E2; [|done].
  cbn [andb]. rewrite nodes_add_edge; [done|..]; by apply elem_of_nodes.
Qed.

Lemma generate_nodes_facts kg :
  tags_keyed (datastore kg) → files_keyed (datastore kg) →
  (∀ kg', generate "tags" kg = Return kg' →
     nx.nodes (graph kg') = dict_keys (DataStore.tags (datastore kg)))
  ∧ (∀ kg', generate "files" kg = Return kg' →
       nx.nodes (graph kg') = dict_keys (DataStore.files (datastore kg)))
  ∧ (∀ kg', generate "full" kg = Return kg' →
       nx.nodes (graph kg')
       = (dict_keys (DataStore.tags (datastore kg))
          ++ filter (λ n, n ∉ dict_keys (DataStore.tags (datastore kg)))
               (dict_keys (DataStore.files (datastore kg))))%list).
Proof.
  intros Ht Hf.
  assert (∀ (l : list string), filter (λ n, n ∉ @nil string) l = l) as Hall.
  { intros l. apply filter_all. intros x _. apply not_elem_of_nil. }
  split_and!.
  - intros kg' [= <-].
    change (nx.nodes (graph (_build_tag_graph (mk (datastore kg) nx.empty)))
            = dict_keys (DataStore.tags (datastore kg))).
    rewrite nodes_build_tag_graph by done. cbn. apply Hall.
  - intros kg' [= <-].
    change (nx.nodes (graph (_build_file_graph (mk (datastore kg) nx.empty)))
            = dict_keys (DataStore.files (datastore kg))).
    rewrite nodes_build_file_graph by done. cbn. apply Hall.
  - intros kg' [= <-].
    change (nx.nodes
              (graph (_link_tags_and_files
                        (_build_file_graph
                           (_build_tag_graph (mk (datastore kg) nx.empty)))))
            = (dict_keys (DataStore.tags (datastore kg))
               ++ filter (λ n, n ∉ dict_keys (DataStore.tags (datastore kg)))
                    (dict_keys (DataStore.files (datastore kg))))%list).
    rewrite nodes_link_tags_and_files.
    rewrite nodes_build_file_graph by done.
    rewrite nodes_build_tag_graph by done. cbn [graph datastore].
    change (nx.nodes nx.empty) with (@nil string). cbn [app].
    by rewrite Hall.
Qed.
End Nodes.

(** ** The types of the edges of a generated graph *)

Section EdgeTypes.
Import KnowledgeGraph.
Implicit Types (g : nx.Graph) (a b u v t : string) (kw d : attrs)
  (ds : DataStore.t) (P : string → string → attrs → Prop).

Lemma edges_all_add_node P n kw g :
  edges_all P g → edges_all P (nx.add_node n kw g).
Proof. intros Hg a b d. rewrite get_edge_data_add_node. apply Hg. Qed.

Lemma edges_all_add_edge P u v kw g :
  (∀ d0, P u v (dict_update d0 kw) ∧ P v u (dict_update d0 kw)) →
  edges_all P g → edges_all P (nx.add_edge u v kw g).
Proof.
  intros Hnew Hg a b d. rewrite get_edge_data_add_edge.
  destruct (decide _) as [[[-> ->] | [-> ->]] | _].
  - intros [= <-]. apply Hnew.
  - intros [= <-]. apply Hnew.
  - apply Hg.
Qed.

Lemma type_cooccurrence c (tag1 tag2 : Tag.t) d0 :
  dict_get "type" (dict_update d0 (cooccurrence_attrs c tag1 tag2))
  = Some (VStr "cooccurrence").
Proof.
  unfold cooccurrence_attrs, dict_update. cbn [fold_left fst snd].
  apply dict_get_set_eq.
Qed.

Lemma type_similarity s d0 :
  dict_get "type"
    (dict_update d0 [("weight", VFloat s); ("type", VStr "similarity")])
  = Some (VStr "similarity").
Proof. unfold dict_update. cbn [fold_left fst snd]. apply dict_get_set_eq. Qed.

Lemma type_tagged d0 :
  dict_get "type" (dict_update d0 [("type", VStr "tagged")])
  = Some (VStr "tagged").
Proof. unfold dict_update. cbn [fold_left fst snd]. apply dict_get_set_eq. Qed.

Lemma edges_all_build_tag_graph P kg :
  (∀ a b d, dict_get "type" d = Some (VStr "cooccurrence") → P a b d) →
  edges_all P (graph kg) → edges_all P (graph (_build_tag_graph kg)).
Proof.
  intros HP Hg. unfold _build_tag_graph. cbn [graph].
  apply (for_each_inv (edges_all P)).
  - intros [[t1 t2] c] g _ Hg'. unfold add_cooccurrence_edge.
    destruct (2 <=? c); [|done].
    destruct (DataStore.get_tag _ t1); [|done].
    destruct (DataStore.get_tag _ t2); [|done].
    apply edges_all_add_edge; [|done].
    intros d0. split; apply HP, type_cooccurrence.
  - apply (for_each_inv (edges_all P)); [|done].
    intros tag g _. apply edges_all_add_node.
Qed.

Lemma edges_all_build_file_graph P kg :
  (∀ a b d, dict_get "type" d = Some (VStr "similarity") → P a b d) →
  edges_all P (graph kg) → edges_all P (graph (_build_file_graph kg)).
Proof.
  intros HP Hg. unfold _build_file_graph. cbn [graph].
  apply (for_each_inv (edges_all P)).
  - intros [i file1] g _ Hg'. apply (for_each_inv (edges_all P)); [|done].
    intros file2 g' _ Hg''. unfold add_similarity_edge.
    destruct (Qltb _ _); [|done].
    apply edges_all_add_edge; [|done].
    intros d0. split; apply HP, type_similarity.
  - apply (for_each_inv (edges_all P)); [|done].
    intros file g _. apply edges_all_add_node.
Qed.

Lemma edges_all_link_tags_and_files P kg :
  (∀ a b d, dict_get "type" d = Some (VStr "tagged") →
     file_and_tag (datastore kg) a b ∨ file_and_tag (datastore kg) b a →
     P a b d) →
  edges_all P (graph kg) → edges_all P (graph (_link_tags_and_files kg)).
Proof.
  intros HP Hg. unfold _link_tags_and_files. cbn [graph].
  apply (for_each_inv (edges_all P)); [|done].
  intros file g Hfile Hg'. apply (for_each_inv (edges_all P)); [|done].
  intros t g' Ht Hg''. destruct (_ && _); [|done].
  apply edges_all_add_edge; [|done].
  intros d0. split; (apply HP; [apply type_tagged|]).
  - left. by exists file.
  - right. by exists file.
Qed.

(** The kinds of edges of a generated graph, by mode. *)
Lemma generate_edge_types mode kg kg' :
  generate mode kg = Return kg' →
  edges_all
    (λ a b d,
       (dict_get "type" d = Some (VStr "cooccurrence")
        ∧ mode ∈ ["tags"; "full"])
       ∨ (dict_get "type" d = Some (VStr "similarity")
          ∧ mode ∈ ["files"; "full"])
       ∨ (dict_get "type" d = Some (VStr "tagged") ∧ mode = "full"
          ∧ (file_and_tag (datastore kg) a b
             ∨ file_and_tag (datastore kg) b a)))
    (graph kg').
Proof.
  intros [= <-].
  set (P := λ a b d, _ ∨ _ ∨ _).
  set (kg0 := mk (datastore kg) (nx.clear (graph kg))).
  assert (edges_all P (graph kg0)) as H0 by (by intros a b d).
  assert (datastore kg0 = datastore kg) as D0 by done.
  clearbody kg0.
  set (kg1 := if bool_decide (mode ∈ ["tags"; "full"])
              then _build_tag_graph kg0 else kg0).
  assert (edges_all P (graph kg1) ∧ datastore kg1 = datastore kg) as [H1 D1].
  { unfold kg1. destruct (decide (mode ∈ ["tags"; "full"])) as [Hm|Hm].
    - rewrite bool_decide_eq_true_2 by done. split; [|done].
      apply edges_all_build_tag_graph; [|done].
      intros a b d Hty. left. done.
    - by rewrite bool_decide_eq_false_2. }
  clearbody kg1.
  set (kg2 := if bool_decide (mode ∈ ["files"; "full"])
              then _build_file_graph kg1 else kg1).
  assert (edges_all P (graph kg2) ∧ datastore kg2 = datastore kg) as [H2 D2].
  { unfold kg2. destruct (decide (mode ∈ ["files"; "full"])) as [Hm|Hm].
    - rewrite bool_decide_eq_true_2 by done. split; [|done].
      apply edges_all_build_file_graph; [|done].
      intros a b d Hty. right. left. done.
    - by rewrite bool_decide_eq_false_2. }
  clearbody kg2.
  destruct (decide (mode = "full")) as [Hm|Hm].
  - rewrite bool_decide_eq_true_2 by done.
    apply edges_all_link_tags_and_files; [|done].
    intros a b d Hty Hft. right. right. rewrite <-D2. done.
  - by rewrite bool_decide_eq_false_2.
Qed.

Lemma for_each_establish {A St} (I : St → Prop) (Q : A → St → Prop)
    (l : list A) (body : A → St → St) (s : St) :
  (∀ x s', x ∈ l → I s' → I (body x s')) →
  (∀ x s', x ∈ l → I s' → Q x (body x s')) →
  (∀ x y s', x ∈ l → y ∈ l → I s' → Q x s' → Q x (body y s')) →
  I s → ∀ x, x ∈ l → Q x (for_each l body s).
Proof.
  revert s. induction l as [|y l IH]; intros s HI Hnew Hkeep Hs x Hx.
  - by apply elem_of_nil in Hx.
  - cbn [for_each fold_left].
    change (fold_left _ l ?s') with (for_each l body s').
    assert (I (body y s)) as Hs' by (apply HI; [left | done]).
    assert (∀ z, Q z (body y s) → z ∈ y :: l → Q z (for_each l body (body y s)))
      as Hpres.
    { intros z Hz Hzl.
      apply (for_each_inv (λ s', I s' ∧ Q z s')); [|done].
      intros w s' Hw [Hi Hq]. split.
      - apply HI; [by right | done].
      - apply Hkeep; [done | by right | done..]. }
    apply elem_of_cons in Hx as [-> | Hx].
    + apply Hpres; [|left]. apply Hnew; [left | done].
    + apply IH; try done.
      * intros z s' Hz. apply HI. by right.
      * intros z s' Hz. apply Hnew. by right.
      * intros z w s' Hz Hw. apply Hkeep; by right.
Qed.

Lemma edge_typed_add_edge ty u v g a b :
  edge_typed ty g a b →
  edge_typed ty (nx.add_edge u v [("type", VStr ty)] g) a b.
Proof.
  intros (d & Hd & Hty). unfold edge_typed.
  rewrite get_edge_data_add_edge. destruct (decide _); [|by eauto].
  eexists. split; [done|]. unfold dict_update. cbn [fold_left fst snd].
  apply dict_get_set_eq.
Qed.

Lemma edge_typed_add_edge_new ty u v g :
  edge_typed ty (nx.add_edge u v [("type", VStr ty)] g) u v.
Proof.
  unfold edge_typed. rewrite get_edge_data_add_edge.
  rewrite decide_True by auto.
  eexists. split; [done|]. unfold dict_update. cbn [fold_left fst snd].
  apply dict_get_set_eq.
Qed.

(** [_link_tags_and_files] joins every file to each of its tags that is
    a node of the graph. *)
Lemma link_tags_and_files_edges kg (file : File.t) t :
  file ∈ dict_values (DataStore.files (datastore kg)) →
  t ∈ File.tags file →
  t ∈ nx.nodes (graph kg) → File.file_id file ∈ nx.nodes (graph kg) →
  edge_typed "tagged" (graph (_link_tags_and_files kg)) (File.file_id file) t.
Proof.
  intros Hfile Ht Htn Hfn. unfold _link_tags_and_files. cbn [graph].
  set (N := nx.nodes (graph kg)) in *.
  set (inner := λ (f : File.t) (tag_id : string) (g : nx.Graph),
         if nx.contains tag_id g && nx.contains (File.file_id f) g
         then nx.add_edge (File.file_id f) tag_id [("type", VStr "tagged")] g
         else g).
  assert (∀ f x g, nx.nodes g = N → nx.nodes (inner f x g) = N) as Hnodes.
  { intros f x g Hg. unfold inner.
    destruct (nx.contains x g) eqn:E1; [|done].
    destruct (nx.contains (File.file_id f) g) eqn:E2; [|done].
    cbn [andb]. rewrite nodes_add_edge; [done|..]; by apply elem_of_nodes. }
  assert (∀ f x g a b, edge_typed "tagged" g a b →
            edge_typed "tagged" (inner f x g) a b) as Hkeep.
  { intros f x g a b Hab. unfold inner. destruct (_ && _); [|done].
    by apply edge_typed_add_edge. }
  assert (∀ f l g, nx.nodes g = N →
            nx.nodes (for_each l (inner f) g) = N) as Hnodes'.
  { intros f l g Hg.
    apply (for_each_inv (λ g, nx.nodes g = N)); [|done].
    intros x s' _. apply Hnodes. }
  assert (∀ f l g a b, edge_typed "tagged" g a b →
            edge_typed "tagged" (for_each l (inner f) g) a b) as Hkeep'.
  { intros f l g a b Hab.
    apply (for_each_inv (λ g, edge_typed "tagged" g a b)); [|done].
    intros x s' _. apply Hkeep. }
  apply (for_each_establish (λ g, nx.nodes g = N)
           (λ f g, ∀ x, x ∈ File.tags f → x ∈ N → File.file_id f ∈ N →
                        edge_typed "tagged" g (File.file_id f) x)
           (dict_values (DataStore.files (datastore kg)))
           (λ f, for_each (File.tags f) (inner f))); try done.
  - intros f g _. apply Hnodes'.
  - intros f g _ Hg.
    apply (for_each_establish (λ g, nx.nodes g = N)
             (λ x g, x ∈ N → File.file_id f ∈ N →
                     edge_typed "tagged" g (File.file_id f) x)
             (File.tags f) (inner f)); try done.
    + intros x s' _. apply Hnodes.
    + intros x s' _ Hs' Hx Hf. unfold inner.
      rewrite <-Hs' in Hx, Hf. apply elem_of_nodes in Hx, Hf.
      rewrite Hx, Hf. cbn [andb]. apply edge_typed_add_edge_new.
    + intros x y s' _ _ _ Hq Hx Hf. apply Hkeep. by apply Hq.
  - intros f f' g _ _ _ Hq x Hx HxN HfN. apply Hkeep'. by apply Hq.
Qed.
End EdgeTypes.

(** ** Sorted results: [find_hubs] and [most_common] *)

Section SortedDesc.
Context {A : Type} (key : A → Q).
Implicit Types (x y : A) (l : list A).

Lemma insert_desc_Permutation x l : insert_desc key x l ≡ₚ x :: l.
Proof.
  induction l as [|y l IH]; [done|].
  cbn. destruct (Qltb _ _); [|done].
  rewrite IH. apply Permutation_swap.
Qed.

Lemma sorted_desc_Permutation l : sorted_desc key l ≡ₚ l.
Proof.
  induction l as [|x l IH]; [done|].
  cbn. fold (sorted_desc key l). by rewrite insert_desc_Permutation, IH.
Qed.

Lemma insert_desc_sorted x l :
  StronglySorted (λ a b, (key b <= key a)%Q) l →
  StronglySorted (λ a b, (key b <= key a)%Q) (insert_desc key x l).
Proof.
  induction 1 as [|y l Hl IH Hy]; cbn.
  - repeat constructor.
  - destruct (Qltb (key x) (key y)) eqn:E.
    + constructor; [done|].
      apply Forall_forall. intros z [-> | Hz]%insert_desc_elem.
      * apply Qltb_lt in E. by apply Qlt_le_weak.
      * by apply (proj1 (Forall_forall _ _) Hy).
    + apply Qltb_ge in E. constructor; [by constructor|].
      constructor; [done|].
      eapply Forall_impl; [exact Hy|]. intros z Hz. cbn in Hz.
      by apply (Qle_trans _ (key y)).
Qed.

Lemma sorted_desc_sorted l :
  StronglySorted (λ a b, (key b <= key a)%Q) (sorted_desc key l).
Proof.
  induction l as [|x l IH]; [constructor|].
  cbn. fold (sorted_desc key l). by apply insert_desc_sorted.
Qed.
End SortedDesc.

Lemma StronglySorted_impl {A} (R1 R2 : A → A → Prop) (l : list A) :
  (∀ x y, R1 x y → R2 x y) → StronglySorted R1 l → StronglySorted R2 l.
Proof.
  intros HR. induction 1 as [|x l Hl IH Hx]; constructor; [done|].
  eapply Forall_impl; [exact Hx|]. intros y. apply HR.
Qed.

Lemma StronglySorted_take {A} (R : A → A → Prop) (k : nat) (l : list A) :
  StronglySorted R l → StronglySorted R (take k l).
Proof.
  intros Hl. rewrite <-(take_drop k l) in Hl.
  by apply StronglySorted_app_1_l in Hl.
Qed.

(** What is left out of the first [k] of a sorted list comes after all
    of them. *)
Lemma StronglySorted_take_top {A} (R : A → A → Prop) (k : nat) (l : list A)
    (x y : A) :
  StronglySorted R l → x ∈ take k l → y ∈ l → y ∉ take k l → R x y.
Proof.
  intros Hl Hx Hy Hny. rewrite <-(take_drop k l) in Hl, Hy.
  apply elem_of_app in Hy as [Hy | Hy]; [done|].
  by eapply StronglySorted_app_1_elem_of.
Qed.

Lemma slice_to_take {A} (n : Z) (l : list A) :
  ∃ k, slice_to n l = take k l ∧ (0 ≤ n → k = Z.to_nat n).
Proof.
  unfold slice_to. destruct (0 <=? n) eqn:E.
  - eauto.
  - eexists. split; [done|]. lia.
Qed.

Section Hubs.
Import KnowledgeGraph.
Implicit Types (g : nx.Graph) (kg : t) (n m : string).

Lemma elem_of_degree_view g n (d : Z) :
  NoDup (nx.nodes g) →
  (n, d) ∈ nx.degree_view g ↔ nx.degree g n = Return d.
Proof.
  intros Hnd. unfold nx.degree_view, nx.degree.
  change (map ?f ?l) with (f <$> l). rewrite list_elem_of_fmap. split.
  - intros ([n' e] & [= -> ->] & Hin). cbn.
    by rewrite (dict_get_elem_NoDup _ _ _ Hnd Hin).
  - destruct (dict_get n (nx.table g)) as [e|] eqn:He; [|done].
    intros [= <-]. exists (n, e). split; [done|].
    by apply dict_get_Some_elem.
Qed.

Lemma find_hubs_facts top_n kg :
  NoDup (nx.nodes (graph kg)) →
  ∃ hubs,
    find_hubs top_n kg = Return hubs
    ∧ StronglySorted (λ x y : string * Z, y.2 ≤ x.2) hubs
    ∧ NoDup hubs.*1
    ∧ (∀ n d, (n, d) ∈ hubs → nx.degree (graph kg) n = Return d)
    ∧ (∀ n d m dm, (n, d) ∈ hubs → nx.degree (graph kg) m = Return dm →
         m ∉ hubs.*1 → dm ≤ d)
    ∧ (0 ≤ top_n →
       length hubs
       = Nat.min (Z.to_nat top_n) (length (nx.nodes (graph kg)))).
Proof.
  intros Hnd. unfold find_hubs. eexists. split; [done|].
  rewrite dict_of_pairs_NoDup by (by rewrite degree_view_keys).
  unfold dict_items.
  set (L := sorted_desc (λ x : string * Z, inject_Z x.2)
              (nx.degree_view (graph kg))).
  assert (L ≡ₚ nx.degree_view (graph kg)) as Hperm
    by apply sorted_desc_Permutation.
  assert (StronglySorted (λ x y : string * Z, y.2 ≤ x.2) L) as Hsorted.
  { eapply StronglySorted_impl; [|apply sorted_desc_sorted].
    intros x y Hxy. cbn in Hxy. by rewrite Zle_Qle. }
  assert (NoDup L.*1) as HndL.
  { rewrite Hperm, degree_view_keys. done. }
  destruct (slice_to_take top_n L) as (k & -> & Hk).
  split_and!.
  - by apply StronglySorted_take.
  - eapply sublist_NoDup; [exact HndL|].
    apply fmap_sublist, sublist_take.
  - intros n d Hin. apply elem_of_degree_view; [done|].
    rewrite <-Hperm. by eapply elem_of_sublist, sublist_take.
  - intros n d m dm Hin Hm Hnot.
    apply (StronglySorted_take_top (λ x y : string * Z, y.2 ≤ x.2)
             k L (n, d) (m, dm)); try done.
    + rewrite Hperm. by apply elem_of_degree_view.
    + intros Hin'. apply Hnot. by apply (list_elem_of_fmap_2 fst) in Hin'.
  - intros Hn. rewrite length_take, Hk by done.
    rewrite Hperm. unfold nx.degree_view, nx.nodes, dict_keys.
    by rewrite length_map, length_fmap.
Qed.
End Hubs.

(** ** The scores of [recommend_tags] *)

Section Scores.
Import KnowledgeGraph.
Implicit Types (kg : t) (file : File.t) (t r k : string)
  (c : pydict string pynum) (f : string → option Z).

Lemma oplus_assoc (a b c : option Z) :
  oplus (oplus a b) c = oplus a (oplus b c).
Proof. destruct a, b, c; cbn; f_equal; lia. Qed.

Lemma oplus_None_r (a : option Z) : oplus a None = a.
Proof. by destruct a. Qed.

Lemma scores_ext c f f' : (∀ k, f k = f' k) → scores c f → scores c f'.
Proof. intros Hext [Hnd Hc]. split; [done|]. intros k. by rewrite <-Hext. Qed.

Lemma score_neighbor_scores kg file t r c f d :
  nx.get_edge_data (graph kg) t r = Some d →
  nx.contains r (graph kg) = true →
  (∃ w, edge_weight (Some d) = VInt w) →
  scores c f →
  ∃ c', score_neighbor kg file t r c = Return c'
        ∧ scores c' (λ k, if decide (k = r)
                          then oplus (f k) (contribution kg file t r)
                          else f k).
Proof.
  intros Hd [e He]%contains_spec [w Hw] [Hnd Hc].
  unfold score_neighbor, contribution, node_type, nx.nodes_getitem.
  rewrite Hd, He, bind_Return.
  destruct (bool_decide (dict_get "type" (nx.attr e) = Some (VStr "tag"))
            && bool_decide (r ∉ File.tags file)).
  - rewrite Hw. unfold counter_add. rewrite (Hc r).
    exists (dict_set r (NInt (default 0 (f r) + w)) c). split.
    + by destruct (f r).
    + split; [by apply dict_set_NoDup|].
      intros k. rewrite dict_get_set.
      destruct (decide (k = r)) as [->|]; [|apply Hc].
      by destruct (f r).
  - exists c. split; [done|]. split; [done|].
    intros k. rewrite Hc. destruct (decide (k = r)); [|done].
    by rewrite oplus_None_r.
Qed.

Lemma score_neighbors_scores kg file t (e : nx.entry) (l : list string) c f :
  dict_get t (nx.table (graph kg)) = Some e →
  graph_closed (graph kg) →
  edges_all (λ _ _ d, ∃ w, edge_weight (Some d) = VInt w) (graph kg) →
  NoDup l → (∀ r, r ∈ l → r ∈ dict_keys (nx.nbrs e)) →
  scores c f →
  ∃ c', for_eachM l (score_neighbor kg file t) c = Return c'
        ∧ scores c' (λ k, if decide (k ∈ l)
                          then oplus (f k) (contribution kg file t k)
                          else f k).
Proof.
  intros He Hcl Hint. revert c f.
  induction l as [|r l IH]; intros c f Hnd Hl Hc.
  - exists c. split; [done|]. eapply scores_ext; [|done].
    intros k. by rewrite decide_False by apply not_elem_of_nil.
  - apply NoDup_cons in Hnd as [Hr Hnd].
    destruct (proj2 (dict_get_is_Some r (nx.nbrs e))) as [d Hd].
    { apply Hl. left. }
    assert (nx.get_edge_data (graph kg) t r = Some d) as Hedge
      by (unfold nx.get_edge_data; by rewrite He).
    destruct (score_neighbor_scores kg file t r c f d) as (c1 & Hc1 & Hs1);
      [done | by eapply Hcl | by eapply Hint | done |].
    edestruct (IH c1) as (c2 & Hc2 & Hs2);
      [exact Hnd | intros; apply Hl; by right | exact Hs1 |].
    exists c2. cbn [for_eachM]. rewrite Hc1, bind_Return. split; [done|].
    eapply scores_ext; [|exact Hs2].
    intros k. cbn beta.
    destruct (decide (k = r)) as [->|Hne].
    + rewrite (decide_False (P := r ∈ l)) by done.
      by rewrite (decide_True (P := r ∈ r :: l)) by left.
    + destruct (decide (k ∈ l)).
      * by rewrite (decide_True (P := k ∈ r :: l)) by (by right).
      * rewrite (decide_False (P := k ∈ r :: l)); [done|].
        rewrite not_elem_of_cons. tauto.
Qed.

Lemma score_tag_scores kg file t c f :
  graph_wf (graph kg) → graph_closed (graph kg) →
  edges_all (λ _ _ d, ∃ w, edge_weight (Some d) = VInt w) (graph kg) →
  scores c f →
  ∃ c', score_tag kg file t c = Return c'
        ∧ scores c' (λ k, oplus (f k) (contribution kg file t k)).
Proof.
  intros (Hnd & Hnb & _) Hcl Hint Hc. unfold score_tag.
  destruct (nx.contains t (graph kg)) eqn:Ht.
  - apply contains_spec in Ht as [e He].
    unfold nx.neighbors. rewrite He, bind_Return.
    destruct (score_neighbors_scores kg file t e (dict_keys (nx.nbrs e)) c f)
      as (c' & Hc' & Hs'); try done.
    { apply (Hnb t). by apply dict_get_Some_elem. }
    exists c'. split; [done|]. eapply scores_ext; [|exact Hs'].
    intros k. cbn beta. destruct (decide _) as [|Hk]; [done|].
    unfold contribution, nx.get_edge_data. rewrite He.
    apply dict_get_None in Hk. by rewrite Hk, oplus_None_r.
  - exists c. split; [done|]. eapply scores_ext; [|exact Hc].
    intros k. cbn beta. unfold contribution, nx.get_edge_data.
    apply contains_false in Ht. by rewrite Ht, oplus_None_r.
Qed.

Lemma score_tags_scores kg file (tags : list string) c f :
  graph_wf (graph kg) → graph_closed (graph kg) →
  edges_all (λ _ _ d, ∃ w, edge_weight (Some d) = VInt w) (graph kg) →
  scores c f →
  ∃ c', for_eachM tags (score_tag kg file) c = Return c'
        ∧ scores c'
            (λ k, oplus (f k)
                    (total ((λ t, contribution kg file t k) <$> tags))).
Proof.
  intros Hwf Hcl Hint. revert c f.
  induction tags as [|t tags IH]; intros c f Hc.
  - exists c. split; [done|]. eapply scores_ext; [|done].
    intros k. cbn. by rewrite oplus_None_r.
  - destruct (score_tag_scores kg file t c f) as (c1 & Hc1 & Hs1); try done.
    edestruct (IH c1) as (c2 & Hc2 & Hs2); [exact Hs1|].
    exists c2. cbn [for_eachM]. rewrite Hc1, bind_Return. split; [done|].
    eapply scores_ext; [|exact Hs2].
    intros k. cbn beta. rewrite fmap_cons. cbn [total foldr].
    apply oplus_assoc.
Qed.

Lemma total_None (l : list (option Z)) :
  total l = None ↔ Forall (λ a, a = None) l.
Proof.
  induction l as [|a l IH]; [by split; [constructor|]|].
  cbn [total foldr]. fold (total l). rewrite Forall_cons, <-IH.
  destruct a, (total l); cbn; split; (done || by intros []).
Qed.

Lemma total_sum (l : list (option Z)) :
  default 0 (total l) = nx.sum_Z (default 0 <$> l).
Proof.
  induction l as [|a l IH]; [done|].
  cbn [total foldr]. fold (total l). rewrite fmap_cons.
  cbn [nx.sum_Z foldr]. fold (nx.sum_Z (default 0 <$> l)).
  rewrite <-IH. destruct a, (total l); cbn; lia.
Qed.
End Scores.

(** ** Recommendations on the tag graph *)

Section TagScores.
Import KnowledgeGraph Store.
Implicit Types (ds : DataStore.t) (file : File.t) (t r : string).

Lemma most_common_take (n : Z) (c : pydict string pynum) :
  most_common n c
  = take (Z.to_nat n) (sorted_desc (λ x, num_Q x.2) (dict_items c)).
Proof.
  unfold most_common. destruct (n <=? 0) eqn:E; [|done].
  replace (Z.to_nat n) with O by lia. done.
Qed.

Lemma take_full {A} (k : nat) (l : list A) (x : A) :
  x ∈ l → x ∉ take k l → length (take k l) = k.
Proof.
  intros Hin Hnot. rewrite length_take.
  destruct (decide (length l ≤ k)%nat) as [Hle|]; [|lia].
  by rewrite take_ge in Hnot.
Qed.

Lemma total_ge (m : Z) (l : list (option Z)) (z : Z) :
  0 ≤ m → Forall (λ a, ∀ x, a = Some x → m ≤ x) l →
  total l = Some z → m ≤ z.
Proof.
  intros Hm Hl. revert z. induction Hl as [|a l Ha Hl IH]; intros z; [done|].
  cbn [total foldr]. fold (total l).
  destruct a as [x|], (total l) as [y|]; cbn; try done.
  - intros [= <-]. specialize (Ha x eq_refl). specialize (IH y eq_refl). lia.
  - intros [= <-]. by apply Ha.
  - intros [= <-]. by apply IH.
Qed.

Lemma tag_graph_int_weights ds :
  edges_all (λ _ _ d, ∃ w, edge_weight (Some d) = VInt w)
    (graph (_build_tag_graph (mk ds nx.empty))).
Proof.
  intros a b d. rewrite tag_graph_edge.
  destruct (DataStore.get_tag ds a) as [ta|]; [|done].
  destruct (DataStore.get_tag ds b) as [tb|]; [|done].
  destruct (2 <=? _); [|done]. intros [= <-]. by eexists.
Qed.

Lemma contribution_tag_graph ds file t r :
  tags_keyed ds →
  contribution (_build_tag_graph (mk ds nx.empty)) file t r
  = if bool_decide (is_Some (DataStore.get_tag ds t))
       && bool_decide (is_Some (DataStore.get_tag ds r))
       && (2 <=? cooccurrence_count ds t r)
       && bool_decide (r ∉ File.tags file)
    then Some (cooccurrence_count ds t r) else None.
Proof.
  intros [Hnd Hkey]. unfold contribution. rewrite tag_graph_edge.
  destruct (DataStore.get_tag ds t) as [ta|] eqn:Et.
  2:{ rewrite bool_decide_eq_false_2 by (by intros [? ?]). reflexivity. }
  rewrite (bool_decide_eq_true_2 (is_Some (Some ta))) by (by eexists).
  destruct (DataStore.get_tag ds r) as [tb|] eqn:Er.
  2:{ rewrite (bool_decide_eq_false_2 (is_Some None))
        by (by intros [? ?]). reflexivity. }
  rewrite (bool_decide_eq_true_2 (is_Some (Some tb))) by (by eexists).
  cbn [andb]. destruct (2 <=? cooccurrence_count ds t r); [|done].
  assert (node_type (graph (_build_tag_graph (mk ds nx.empty))) r
          = Some (VStr "tag")) as ->.
  { unfold DataStore.get_tag in Er. apply dict_get_Some_elem in Er.
    assert (Tag.tag_id tb = r) as <-
      by apply (proj1 (Forall_forall _ _) Hkey _ Er).
    apply node_type_tag_graph. by apply (list_elem_of_fmap_2 snd) in Er. }
  rewrite bool_decide_eq_true_2 by done. cbn [andb].
  by destruct (bool_decide (r ∉ File.tags file)).
Qed.

Lemma tag_score_total ds file r :
  tags_keyed ds →
  is_Some (DataStore.get_tag ds r) → r ∉ File.tags file →
  default 0
    (total ((λ t, contribution (_build_tag_graph (mk ds nx.empty)) file t r)
              <$> File.tags file))
  = cooccurrence_score ds file r.
Proof.
  intros Hk Hr Hnot. rewrite total_sum, <-list_fmap_compose.
  unfold cooccurrence_score. f_equal. apply list_fmap_ext.
  intros _ t _. cbn. rewrite contribution_tag_graph by done.
  rewrite (bool_decide_eq_true_2 _ Hr), (bool_decide_eq_true_2 _ Hnot).
  rewrite !andb_true_r.
  by destruct (bool_decide (is_Some (DataStore.get_tag ds t))),
    (2 <=? cooccurrence_count ds t r).
Qed.

Lemma tag_score_Some ds file r z :
  tags_keyed ds →
  total ((λ t, contribution (_build_tag_graph (mk ds nx.empty)) file t r)
           <$> File.tags file) = Some z →
  is_Some (DataStore.get_tag ds r) ∧ (r ∉ File.tags file)
  ∧ z = cooccurrence_score ds file r ∧ 2 ≤ z.
Proof.
  intros Hk Htot.
  assert (is_Some (DataStore.get_tag ds r) ∧ r ∉ File.tags file) as [Hr Hnot].
  { destruct (decide (is_Some (DataStore.get_tag ds r) ∧ r ∉ File.tags file))
      as [|Hno]; [done|]. exfalso.
    assert (total ((λ t, contribution (_build_tag_graph (mk ds nx.empty))
                           file t r) <$> File.tags file) = None) as Hnone;
      [|congruence].
    apply total_None, Forall_fmap, Forall_forall. intros t _. cbn.
    rewrite contribution_tag_graph by done.
    destruct (decide (is_Some (DataStore.get_tag ds r))) as [Hs|Hs].
    - rewrite (bool_decide_eq_false_2 (r ∉ File.tags file)) by tauto.
      by rewrite andb_false_r.
    - rewrite (bool_decide_eq_false_2 _ Hs).
      by rewrite andb_false_r. }
  split_and!; try done.
  - rewrite <-tag_score_total, Htot by done. done.
  - apply (total_ge 2 _ z) in Htot; [done | lia |].
    apply Forall_fmap, Forall_forall. intros t _ x. cbn.
    rewrite contribution_tag_graph by done.
    destruct (2 <=? cooccurrence_count ds t r) eqn:E.
    + destruct (_ && _ && true && _); [|done]. intros [= <-]. lia.
    + by rewrite andb_false_r.
Qed.

Lemma recommend_tags_tag_graph ds file_id file (top_n : Z) :
  tags_keyed ds →
  DataStore.get_file ds file_id = Some file →
  ∃ recs,
    recommend_tags file_id top_n (_build_tag_graph (mk ds nx.empty))
    = Return recs
    ∧ (∀ r s, (r, s) ∈ recs →
         is_Some (DataStore.get_tag ds r) ∧ (r ∉ File.tags file)
         ∧ s = NInt (cooccurrence_score ds file r)
         ∧ 2 ≤ cooccurrence_score ds file r)
    ∧ StronglySorted (λ x y : string * pynum, (num_Q y.2 <= num_Q x.2)%Q) recs
    ∧ NoDup recs.*1
    ∧ (length recs ≤ Z.to_nat top_n)%nat
    ∧ (∀ r, is_Some (DataStore.get_tag ds r) → r ∉ File.tags file →
         0 < cooccurrence_score ds file r → r ∉ recs.*1 →
         length recs = Z.to_nat top_n
         ∧ ∀ r' s', (r', s') ∈ recs →
             cooccurrence_score ds file r ≤ cooccurrence_score ds file r').
Proof.
  intros Hk Hfile. set (kg := _build_tag_graph (mk ds nx.empty)).
  assert (generate "tags" (mk ds nx.empty) = Return kg) as Hgen by done.
  destruct (score_tags_scores kg file (File.tags file) [] (λ _, None))
    as (c & Hc & Hnd & Hget).
  { by eapply graph_wf_generate. }
  { by eapply graph_closed_generate. }
  { apply tag_graph_int_weights. }
  { split; [constructor | done]. }
  cbn [oplus] in Hget.
  unfold recommend_tags. change (datastore kg) with ds.
  rewrite Hfile, Hc, bind_Return, most_common_take. unfold dict_items.
  set (L := sorted_desc (λ x : string * pynum, num_Q x.2) c).
  assert (L ≡ₚ c) as Hperm by apply sorted_desc_Permutation.
  assert (∀ r s, (r, s) ∈ L →
            is_Some (DataStore.get_tag ds r) ∧ (r ∉ File.tags file)
            ∧ s = NInt (cooccurrence_score ds file r)
            ∧ 2 ≤ cooccurrence_score ds file r) as HL.
  { intros r s Hin. rewrite Hperm in Hin.
    apply (dict_get_elem_NoDup _ _ _ Hnd) in Hin. rewrite Hget in Hin.
    destruct (total _) as [z|] eqn:Htot; [|done].
    injection Hin as <-.
    destruct (tag_score_Some ds file r z Hk Htot) as (? & ? & -> & ?).
    done. }
  eexists. split; [done|]. split_and!.
  - intros r s Hin. apply HL. by eapply elem_of_sublist, sublist_take.
  - apply StronglySorted_take, sorted_desc_sorted.
  - eapply sublist_NoDup; [|apply fmap_sublist, sublist_take].
    by rewrite Hperm.
  - rewrite length_take. lia.
  - intros r Hr Hnot Hpos Hout.
    assert ((r, NInt (cooccurrence_score ds file r)) ∈ L) as HrL.
    { rewrite Hperm. apply dict_get_Some_elem. rewrite Hget.
      pose proof (tag_score_total ds file r Hk Hr Hnot) as Htot.
      fold kg in Htot. destruct (total _) as [z|]; cbn in Htot; [|lia].
      by subst z. }
    assert ((r, NInt (cooccurrence_score ds file r))
            ∉ take (Z.to_nat top_n) L) as HrT.
    { intros Hin. apply Hout. by apply (list_elem_of_fmap_2 fst) in Hin. }
    split; [by eapply take_full|].
    intros r' s' Hin'.
    pose proof (StronglySorted_take_top
                  (λ x y : string * pynum, (num_Q y.2 <= num_Q x.2)%Q)
                  _ L _ _ (sorted_desc_sorted _ c) Hin' HrL HrT) as Hle.
    destruct (HL r' s') as (_ & _ & -> & _);
      [by eapply elem_of_sublist, sublist_take|].
    cbn in Hle. by rewrite Zle_Qle.
Qed.
End TagScores.

(** ** The kinds of the nodes of a generated graph *)

Section NodeKinds.
Import KnowledgeGraph.
Implicit Types (ds : DataStore.t) (g : nx.Graph) (kg : t) (n x : string).

Lemma file_node_attrs_type (file : File.t) (d : attrs) :
  dict_get "type" (dict_update d (file_node_attrs file)) = Some (VStr "file").
Proof.
  unfold file_node_attrs, dict_update. cbn [fold_left fst snd].
  by rewrite !dict_get_set_ne, dict_get_set_eq by done.
Qed.

Lemma node_type_add_nodes {A} (id : A → string) (kwf : A → attrs)
    (ty : string) (l : list A) g x :
  (∀ y d, dict_get "type" (dict_update d (kwf y)) = Some (VStr ty)) →
  node_type (for_each l (λ y, nx.add_node (id y) (kwf y)) g) x
  = if decide (x ∈ id <$> l) then Some (VStr ty) else node_type g x.
Proof.
  intros Hty. revert g. induction l as [|y l IH]; intros g.
  - cbn. by rewrite decide_False by apply not_elem_of_nil.
  - cbn [for_each fold_left].
    change (fold_left _ l ?s)
      with (for_each l (λ y, nx.add_node (id y) (kwf y)) s).
    rewrite IH, node_type_add_node, fmap_cons.
    destruct (decide (x ∈ id <$> l)) as [Hin|Hin].
    + by rewrite (decide_True (P := x ∈ id y :: (id <$> l))) by (by right).
    + destruct (decide (x = id y)) as [->|Hne].
      * rewrite (decide_True (P := id y ∈ id y :: (id <$> l))) by left.
        apply Hty.
      * rewrite (decide_False (P := x ∈ id y :: (id <$> l))); [done|].
        rewrite not_elem_of_cons. tauto.
Qed.

Lemma node_type_build_tag_graph kg x :
  node_type (graph (_build_tag_graph kg)) x
  = if decide (x ∈ Tag.tag_id <$> dict_values (DataStore.tags (datastore kg)))
    then Some (VStr "tag") else node_type (graph kg) x.
Proof.
  unfold _build_tag_graph. cbn [graph].
  rewrite <-(node_type_add_nodes Tag.tag_id tag_node_attrs "tag" _ (graph kg))
    by (intros; apply tag_node_attrs_type).
  set (g1 := for_each (dict_values _) _ (graph kg)).
  apply (for_each_inv (λ g, node_type g x = node_type g1 x)); [|done].
  intros [[t1 t2] c] g _ Hg. unfold add_cooccurrence_edge.
  destruct (2 <=? c); [|done].
  destruct (DataStore.get_tag _ t1); [|done].
  destruct (DataStore.get_tag _ t2); [|done].
  by rewrite node_type_add_edge.
Qed.

Lemma node_type_build_file_graph kg x :
  node_type (graph (_build_file_graph kg)) x
  = if decide (x ∈ File.file_id
                     <$> dict_values (DataStore.files (datastore kg)))
    then Some (VStr "file") else node_type (graph kg) x.
Proof.
  unfold _build_file_graph. cbn [graph].
  rewrite <-(node_type_add_nodes File.file_id file_node_attrs "file" _
               (graph kg))
    by (intros; apply file_node_attrs_type).
  set (g1 := for_each (dict_values _) _ (graph kg)).
  apply (for_each_inv (λ g, node_type g x = node_type g1 x)); [|done].
  intros [i file1] g _ Hg.
  apply (for_each_inv (λ g, node_type g x = node_type g1 x)); [|done].
  intros file2 g' _ Hg'. unfold add_similarity_edge.
  destruct (Qltb _ _); [|done]. by rewrite node_type_add_edge.
Qed.

Lemma node_type_link_tags_and_files kg x :
  node_type (graph (_link_tags_and_files kg)) x = node_type (graph kg) x.
Proof.
  unfold _link_tags_and_files. cbn [graph].
  apply (for_each_inv (λ g, node_type g x = node_type (graph kg) x)); [|done].
  intros file g _ Hg.
  apply (for_each_inv (λ g, node_type g x = node_type (graph kg) x)); [|done].
  intros tag_id g' _ Hg'. destruct (_ && _); [|done].
  by rewrite node_type_add_edge.
Qed.

(** The [type] of a node of a generated graph: a file id is typed file
    when the mode builds the file graph, which comes second; otherwise a
    tag id is typed tag when the mode builds the tag graph. *)
Lemma node_type_generate mode kg kg' x :
  generate mode kg = Return kg' →
  node_type (graph kg') x
  = if decide (mode ∈ ["files"; "full"]
               ∧ x ∈ File.file_id
                       <$> dict_values (DataStore.files (datastore kg)))
    then Some (VStr "file")
    else if decide (mode ∈ ["tags"; "full"]
                    ∧ x ∈ Tag.tag_id
                            <$> dict_values (DataStore.tags (datastore kg)))
         then Some (VStr "tag")
         else None.
Proof.
  intros [= <-].
  set (kg0 := mk (datastore kg) (nx.clear (graph kg))).
  assert (node_type (graph kg0) x = None) as H0 by done.
  assert (datastore kg0 = datastore kg) as D0 by done.
  clearbody kg0.
  set (kg1 := if bool_decide (mode ∈ ["tags"; "full"])
              then _build_tag_graph kg0 else kg0).
  assert (datastore kg1 = datastore kg) as D1
    by (unfold kg1; by destruct (bool_decide _)).
  assert (node_type (graph kg1) x
          = if decide (mode ∈ ["tags"; "full"]
                       ∧ x ∈ Tag.tag_id
                               <$> dict_values
                                     (DataStore.tags (datastore kg)))
            then Some (VStr "tag") else None) as H1.
  { unfold kg1. destruct (decide (mode ∈ ["tags"; "full"])) as [Hm|Hm].
    - rewrite bool_decide_eq_true_2 by done.
      rewrite node_type_build_tag_graph, D0, H0.
      destruct (decide (x ∈ _)).
      + by rewrite decide_True.
      + by rewrite decide_False by tauto.
    - rewrite bool_decide_eq_false_2 by done.
      by rewrite decide_False by tauto. }
  clearbody kg1.
  set (kg2 := if bool_decide (mode ∈ ["files"; "full"])
              then _build_file_graph kg1 else kg1).
  assert (node_type (graph kg2) x
          = if decide (mode ∈ ["files"; "full"]
                       ∧ x ∈ File.file_id
                               <$> dict_values
                                     (DataStore.files (datastore kg)))
            then Some (VStr "file")
            else node_type (graph kg1) x) as H2.
  { unfold kg2. destruct (decide (mode ∈ ["files"; "full"])) as [Hm|Hm].
    - rewrite bool_decide_eq_true_2 by done.
      rewrite node_type_build_file_graph, D1.
      destruct (decide (x ∈ _)).
      + by rewrite decide_True.
      + by rewrite decide_False by tauto.
    - rewrite bool_decide_eq_false_2 by done.
      by rewrite decide_False by tauto. }
  clearbody kg2.
  destruct (bool_decide (mode = "full"));
    rewrite ?node_type_link_tags_and_files, H2, H1; done.
Qed.
End NodeKinds.

(** ** Generated graphs without self-loops, and their density *)

Section Simple.
Import KnowledgeGraph Store.
Implicit Types (ds : DataStore.t) (g : nx.Graph) (kg : t) (n u v : string).

Lemma no_loops_build_tag_graph kg :
  tags_nodup (datastore kg) →
  edges_all (λ a b _, a ≠ b) (graph kg) →
  edges_all (λ a b _, a ≠ b) (graph (_build_tag_graph kg)).
Proof.
  intros Hnd Hg. unfold _build_tag_graph. cbn [graph].
  apply (for_each_inv (edges_all (λ a b _, a ≠ b))).
  - intros [[t1 t2] c] g Hin Hg'. unfold add_cooccurrence_edge.
    destruct (2 <=? c) eqn:Hc; [|done].
    destruct (DataStore.get_tag _ t1); [|done].
    destruct (DataStore.get_tag _ t2); [|done].
    apply tag_cooccurrence_item in Hin as (Hcount & _). cbn in Hcount.
    assert (t1 ≠ t2) as Hne.
    { intros ->. rewrite cooccurrence_count_self in Hcount by done. lia. }
    apply edges_all_add_edge; [|done]. intros _. split; congruence.
  - apply (for_each_inv (edges_all (λ a b _, a ≠ b))); [|done].
    intros tag g _. apply edges_all_add_node.
Qed.

Lemma no_loops_build_file_graph kg :
  file_ids_distinct (datastore kg) →
  edges_all (λ a b _, a ≠ b) (graph kg) →
  edges_all (λ a b _, a ≠ b) (graph (_build_file_graph kg)).
Proof.
  intros Hnd Hg. unfold _build_file_graph. cbn [graph].
  rewrite (for_each_enumerate_drop (λ p, add_similarity_edge p.1 p.2)).
  apply (for_each_inv (edges_all (λ a b _, a ≠ b))).
  - intros [f1 f2] g Hin Hg'. cbn [fst snd]. unfold add_similarity_edge.
    destruct (Qltb _ _); [|done].
    assert (File.file_id f1 ≠ File.file_id f2) as Hne.
    { apply (pairs_lt_NoDup_ne _ _ _ Hnd). rewrite pairs_lt_fmap.
      by apply (list_elem_of_fmap_2 (prod_map File.file_id File.file_id))
        in Hin. }
    apply edges_all_add_edge; [|done]. intros _. split; congruence.
  - apply (for_each_inv (edges_all (λ a b _, a ≠ b))); [|done].
    intros file g _. apply edges_all_add_node.
Qed.

Lemma no_loops_link_tags_and_files kg :
  (∀ file, file ∈ dict_values (DataStore.files (datastore kg)) →
           File.file_id file ∉ File.tags file) →
  edges_all (λ a b _, a ≠ b) (graph kg) →
  edges_all (λ a b _, a ≠ b) (graph (_link_tags_and_files kg)).
Proof.
  intros Hown Hg. unfold _link_tags_and_files. cbn [graph].
  apply (for_each_inv (edges_all (λ a b _, a ≠ b))); [|done].
  intros file g Hfile Hg'.
  apply (for_each_inv (edges_all (λ a b _, a ≠ b))); [|done].
  intros t g' Ht Hg''. destruct (_ && _); [|done].
  assert (File.file_id file ≠ t) as Hne.
  { intros <-. by apply (Hown file). }
  apply edges_all_add_edge; [|done]. intros _. split; congruence.
Qed.

Lemma no_loops_generate mode kg kg' :
  tags_nodup (datastore kg) → file_ids_distinct (datastore kg) →
  (∀ file, file ∈ dict_values (DataStore.files (datastore kg)) →
           File.file_id file ∉ File.tags file) →
  generate mode kg = Return kg' →
  edges_all (λ a b _, a ≠ b) (graph kg').
Proof.
  intros Ht Hf Hown [= <-].
  set (kg0 := mk (datastore kg) (nx.clear (graph kg))).
  assert (edges_all (λ a b _, a ≠ b) (graph kg0)) as H0 by (by intros a b d).
  assert (datastore kg0 = datastore kg) as D0 by done.
  clearbody kg0.
  set (kg1 := if bool_decide (mode ∈ ["tags"; "full"])
              then _build_tag_graph kg0 else kg0).
  assert (edges_all (λ a b _, a ≠ b) (graph kg1)
          ∧ datastore kg1 = datastore kg) as [H1 D1].
  { unfold kg1. destruct (bool_decide _); [|done]. split; [|done].
    apply no_loops_build_tag_graph; [by rewrite D0 | done]. }
  clearbody kg1.
  set (kg2 := if bool_decide (mode ∈ ["files"; "full"])
              then _build_file_graph kg1 else kg1).
  assert (edges_all (λ a b _, a ≠ b) (graph kg2)
          ∧ datastore kg2 = datastore kg) as [H2 D2].
  { unfold kg2. destruct (bool_decide _); [|done]. split; [|done].
    apply no_loops_build_file_graph; [by rewrite D1 | done]. }
  clearbody kg2.
  destruct (bool_decide (mode = "full")); [|done].
  apply no_loops_link_tags_and_files; [by rewrite D2 | done].
Qed.

(** Without self-loops a node has at most all the other nodes as
    neighbours. *)
Lemma degree_entry_bound g n (e : nx.entry) :
  graph_wf g → edges_all (λ a b _, a ≠ b) g →
  (n, e) ∈ nx.table g →
  0 ≤ nx.degree_entry n e ≤ Z.of_nat (length (nx.nodes g)) - 1.
Proof.
  intros (Hnd & Hnb & _ & Hcl) Hloop Hin.
  assert (dict_get n (nx.table g) = Some e) as He
    by (by apply dict_get_elem_NoDup).
  assert (∀ v, v ∈ dict_keys (nx.nbrs e) →
               ∃ d, nx.get_edge_data g n v = Some d) as Hedge.
  { intros v [d Hd]%dict_get_is_Some. exists d.
    unfold nx.get_edge_data. by rewrite He. }
  assert (n ∉ dict_keys (nx.nbrs e)) as Hself.
  { intros [d Hd]%Hedge. by apply (Hloop n n d). }
  unfold nx.degree_entry, dict_contains.
  rewrite bool_decide_eq_false_2 by (by rewrite dict_get_is_Some).
  assert (length (n :: dict_keys (nx.nbrs e)) ≤ length (nx.nodes g))%nat
    as Hlen.
  { apply submseteq_length, NoDup_submseteq.
    - apply NoDup_cons. split; [done|]. by eapply Hnb.
    - intros x [-> | Hx]%elem_of_cons.
      + apply dict_get_is_Some. by rewrite He.
      + apply Hedge in Hx as [d Hd]. apply elem_of_nodes. by eapply Hcl. }
  cbn [length] in Hlen. unfold dict_keys in Hlen.
  rewrite length_fmap in Hlen. lia.
Qed.

Lemma degree_sum_bound g :
  graph_wf g → edges_all (λ a b _, a ≠ b) g →
  nx.sum_Z (nx.degree_view g).*2
  ≤ Z.of_nat (length (nx.nodes g)) * (Z.of_nat (length (nx.nodes g)) - 1).
Proof.
  intros Hwf Hloop.
  assert (∀ T : pydict string nx.entry,
            (∀ n e, (n, e) ∈ T → (n, e) ∈ nx.table g) →
            nx.sum_Z (map (λ ne, (ne.1, nx.degree_entry ne.1 ne.2)) T).*2
            ≤ Z.of_nat (length T) * (Z.of_nat (length (nx.nodes g)) - 1))
    as Hsum.
  { induction T as [|[n e] T IH]; intros HT; [done|].
    cbn [map fmap list_fmap nx.sum_Z foldr length fst snd].
    change (foldr Z.add 0 ?l) with (nx.sum_Z l).
    pose proof (degree_entry_bound g n e Hwf Hloop (HT n e ltac:(left))).
    assert (nx.sum_Z (map (λ ne, (ne.1, nx.degree_entry ne.1 ne.2)) T).*2
            ≤ Z.of_nat (length T) * (Z.of_nat (length (nx.nodes g)) - 1))
      by (apply IH; intros; apply HT; by right).
    change (list_fmap _ _ snd ?l) with (l.*2). lia. }
  unfold nx.degree_view. etrans; [apply Hsum; auto|].
  unfold nx.nodes, dict_keys. by rewrite length_fmap.
Qed.

Lemma density_bounds g :
  graph_wf g → edges_all (λ a b _, a ≠ b) g →
  ∃ q, val_Q (nx.density g) = Some q ∧ (0 <= q)%Q ∧ (q <= 1)%Q.
Proof.
  intros Hwf Hloop. unfold nx.density.
  destruct (bool_decide (nx.number_of_edges g = 0)
            || (nx.number_of_nodes g <=? 1)) eqn:E.
  - exists (inject_Z 0). by split_and!.
  - apply orb_false_iff in E as [Hm Hn]. apply bool_decide_eq_false in Hm.
    eexists. split; [done|].
    destruct (handshake g Hwf) as [Hsum Hedges].
    pose proof (degree_sum_bound g Hwf Hloop) as Hb.
    rewrite Hsum in Hb. rewrite Hedges in *.
    unfold nx.number_of_nodes in *. unfold nx.nodes, dict_keys in Hb.
    rewrite length_fmap in Hb.
    set (N := Z.of_nat (length (nx.table g))) in *.
    set (M := Z.of_nat (length (edges_data g))) in *.
    assert (1 < N) by lia. assert (0 < N * (N - 1)) by nia.
    rewrite !Qred_correct. unfold Qle. cbn.
    rewrite Z2Pos.id by done. split; lia.
Qed.

Lemma components_loop g (l : list string) (st : list string * Z) :
  let st' :=
    for_each l
      (λ v (st : list string * Z),
         if decide (v ∈ st.1) then st
         else ((st.1 ++ nx._plain_bfs (nx.bfs_fuel g) g [v] [v])%list,
               st.2 + 1))
      st in
  st.2 ≤ st'.2 ≤ st.2 + Z.of_nat (length l).
Proof.
  unfold for_each. revert st. induction l as [|v l IH]; intros st.
  - cbn. lia.
  - cbn [fold_left length]. specialize (IH
      (if decide (v ∈ st.1) then st
       else ((st.1 ++ nx._plain_bfs (nx.bfs_fuel g) g [v] [v])%list,
             st.2 + 1))).
    cbn zeta in IH. destruct (decide (v ∈ st.1)); cbn [snd] in IH; lia.
Qed.

(** A graph with a node has at least one component and at most as many
    as nodes. *)
Lemma components_bounds g :
  nx.nodes g ≠ [] →
  1 ≤ nx.number_connected_components g ≤ Z.of_nat (length (nx.nodes g)).
Proof.
  unfold nx.number_connected_components.
  destruct (nx.nodes g) as [|v l]; [done|]. intros _.
  cbn [for_each fold_left]. rewrite decide_False by apply not_elem_of_nil.
  pose proof (components_loop g l
                (([] ++ nx._plain_bfs (nx.bfs_fuel g) g [v] [v])%list, 0 + 1))
    as Hloop.
  cbn zeta in Hloop. unfold for_each in Hloop. cbn [fst snd length] in *. lia.
Qed.
End Simple.

(** ** The node counts of [get_stats] on a generated graph *)

Section StatsCounts.
Import KnowledgeGraph.
Implicit Types (ds : DataStore.t) (g : nx.Graph) (kg : t) (n x : string).

Lemma nodes_generate mode kg kg' :
  tags_keyed (datastore kg) → files_keyed (datastore kg) →
  generate mode kg = Return kg' →
  nx.nodes (graph kg')
  = (mode_tags mode (datastore kg)
     ++ filter (λ n, n ∉ mode_tags mode (datastore kg))
          (mode_files mode (datastore kg)))%list.
Proof.
  intros Ht Hf [= <-]. unfold mode_tags, mode_files.
  set (kg0 := mk (datastore kg) (nx.clear (graph kg))).
  assert (nx.nodes (graph kg0) = []) as H0 by done.
  assert (datastore kg0 = datastore kg) as D0 by done.
  clearbody kg0.
  set (kg1 := if bool_decide (mode ∈ ["tags"; "full"])
              then _build_tag_graph kg0 else kg0).
  assert (nx.nodes (graph kg1)
          = (if bool_decide (mode ∈ ["tags"; "full"])
             then dict_keys (DataStore.tags (datastore kg)) else [])
          ∧ datastore kg1 = datastore kg) as [H1 D1].
  { unfold kg1. destruct (bool_decide (mode ∈ ["tags"; "full"])); [|done].
    split; [|done].
    rewrite nodes_build_tag_graph by (by rewrite D0).
    rewrite H0, D0. cbn [app]. apply filter_all.
    intros x _. apply not_elem_of_nil. }
  clearbody kg1.
  set (kg2 := if bool_decide (mode ∈ ["files"; "full"])
              then _build_file_graph kg1 else kg1).
  assert (nx.nodes (graph kg2)
          = (nx.nodes (graph kg1)
             ++ filter (λ n, n ∉ nx.nodes (graph kg1))
                  (if bool_decide (mode ∈ ["files"; "full"])
                   then dict_keys (DataStore.files (datastore kg))
                   else []))%list) as H2.
  { unfold kg2. destruct (bool_decide (mode ∈ ["files"; "full"])).
    - rewrite nodes_build_file_graph by (by rewrite D1). by rewrite D1.
    - by rewrite filter_nil, app_nil_r. }
  clearbody kg2.
  destruct (bool_decide (mode = "full"));
    rewrite ?nodes_link_tags_and_files, H2, H1; done.
Qed.

Lemma filter_split_length {A} (P : A → Prop) `{∀ y, Decision (P y)}
    (l : list A) :
  (length (filter P l) + length (filter (λ y, ¬ P y) l) = length l)%nat.
Proof.
  induction l as [|y l IH]; [done|].
  rewrite !filter_cons. destruct (decide (P y)).
  - rewrite decide_False by tauto. cbn [length]. lia.
  - rewrite decide_True by done. cbn [length]. lia.
Qed.

Lemma filter_none {A} (P : A → Prop) `{∀ y, Decision (P y)} (l : list A) :
  (∀ y, y ∈ l → ¬ P y) → filter P l = [].
Proof.
  induction l as [|y l IH]; intros Hl; [done|].
  rewrite filter_cons, decide_False by (apply Hl; left).
  apply IH. intros z Hz. apply Hl. by right.
Qed.

(** The node counts of a generated graph, over the ids of the store. *)
Lemma node_counts_generate mode kg kg' :
  tags_keyed (datastore kg) → files_keyed (datastore kg) →
  generate mode kg = Return kg' →
  let T := mode_tags mode (datastore kg) in
  let F := mode_files mode (datastore kg) in
  length (filter (λ n, node_type (graph kg') n = Some (VStr "file"))
            (nx.nodes (graph kg')))
  = length F
  ∧ length (filter (λ n, node_type (graph kg') n = Some (VStr "tag"))
              (nx.nodes (graph kg')))
    = length (filter (λ n, n ∉ F) T)
  ∧ length (nx.nodes (graph kg'))
    = (length (filter (λ n, n ∉ F) T) + length F)%nat.
Proof.
  intros Ht Hf Hgen T F.
  assert (NoDup T) as HT.
  { unfold T, mode_tags. destruct (bool_decide _); [apply Ht | constructor]. }
  assert (NoDup F) as HF.
  { unfold F, mode_files. destruct (bool_decide _); [apply Hf | constructor]. }
  assert (∀ x, node_type (graph kg') x
               = if decide (x ∈ F) then Some (VStr "file")
                 else if decide (x ∈ T) then Some (VStr "tag") else None)
    as Hty.
  { intros x. rewrite (node_type_generate mode kg kg' x Hgen).
    rewrite (keyed_ids File.file_id) by apply Hf.
    rewrite (keyed_ids Tag.tag_id) by apply Ht.
    unfold F, T, mode_files, mode_tags.
    destruct (decide (mode ∈ ["files"; "full"])) as [Hm|Hm].
    - rewrite (bool_decide_eq_true_2 _ Hm).
      destruct (decide (x ∈ dict_keys (DataStore.files (datastore kg)))).
      + by rewrite decide_True.
      + rewrite decide_False by tauto.
        destruct (decide (mode ∈ ["tags"; "full"])) as [Hm'|Hm'].
        * rewrite (bool_decide_eq_true_2 _ Hm').
          destruct (decide (x ∈ dict_keys (DataStore.tags (datastore kg)))).
          -- by rewrite decide_True.
          -- by rewrite decide_False by tauto.
        * rewrite (bool_decide_eq_false_2 _ Hm').
          rewrite decide_False by tauto.
          by rewrite (decide_False (P := x ∈ [])) by apply not_elem_of_nil.
    - rewrite (bool_decide_eq_false_2 _ Hm).
      rewrite decide_False by tauto.
      rewrite (decide_False (P := x ∈ [])) by apply not_elem_of_nil.
      destruct (decide (mode ∈ ["tags"; "full"])) as [Hm'|Hm'].
      + rewrite (bool_decide_eq_true_2 _ Hm').
        destruct (decide (x ∈ dict_keys (DataStore.tags (datastore kg)))).
        * by rewrite decide_True.
        * by rewrite decide_False by tauto.
      + rewrite (bool_decide_eq_false_2 _ Hm').
        rewrite decide_False by tauto.
        by rewrite (decide_False (P := x ∈ [])) by apply not_elem_of_nil. }
  rewrite (nodes_generate mode kg kg') by done. fold T F.
  assert (∀ l : list string,
            filter (λ n, node_type (graph kg') n = Some (VStr "file")) l
            = filter (λ n, n ∈ F) l) as Hfile.
  { intros l. apply filter_ext_in. intros x _. rewrite Hty.
    destruct (decide (x ∈ F)); [done|].
    destruct (decide (x ∈ T)); split; done. }
  assert (∀ l : list string,
            filter (λ n, node_type (graph kg') n = Some (VStr "tag")) l
            = filter (λ n, (n ∉ F) ∧ n ∈ T) l) as Htag.
  { intros l. apply filter_ext_in. intros x _. rewrite Hty.
    destruct (decide (x ∈ F)); [split; [done | tauto]|].
    destruct (decide (x ∈ T)); split; try done; tauto. }
  pose proof (filter_split_length (λ n, n ∈ T) F) as HsF.
  pose proof (filter_split_length (λ n, n ∈ F) T) as HsT.
  pose proof (filter_swap_length T F HT HF) as Hswap.
  split_and!.
  - rewrite Hfile, filter_app, length_app.
    rewrite (filter_all (λ n, n ∈ F) (filter (λ n, n ∉ T) F))
      by (by intros x [_ ?]%list_elem_of_filter).
    lia.
  - rewrite Htag, filter_app, length_app.
    rewrite (filter_none _ (filter (λ n, n ∉ T) F))
      by (intros x [? _]%list_elem_of_filter; tauto).
    rewrite (filter_ext_in (λ n, (n ∉ F) ∧ n ∈ T) (λ n, n ∉ F) T)
      by (intros; tauto).
    cbn [length]. lia.
  - rewrite length_app. lia.
Qed.
End StatsCounts.

(** ** Removing a tag, then generating *)

Section RemoveGenerate.
Import KnowledgeGraph.
Implicit Types (st : DataStoreMethods.state) (tag_id n : string).

Lemma remove_tag_tags tag_id st st' :
  tags_keyed (DataStoreMethods.mem st) →
  DataStoreMethods.remove_tag tag_id st = Return (st', true) →
  tags_keyed (DataStoreMethods.mem st')
  ∧ ∀ n, DataStore.get_tag (DataStoreMethods.mem st') n
         = if decide (n = tag_id) then None
           else DataStore.get_tag (DataStoreMethods.mem st) n.
Proof.
  intros Ht. unfold DataStoreMethods.remove_tag.
  destruct (dict_contains _ _) eqn:Hc; [|by intros [= _ ?]].
  apply bool_decide_eq_true in Hc.
  rewrite (dict_mapM_total _ (tags_without tag_id))
    by (intros file; apply remove_tag_visit).
  rewrite bind_Return. cbn.
  destruct (dict_del_present tag_id
              (DataStore.tags (DataStoreMethods.mem st)))
    as (d' & -> & Hget & Hnone & Hsub); [by apply dict_get_is_Some|].
  rewrite bind_Return. intros [= <-]. cbn. split.
  - by apply (keyed_sublist Tag.tag_id _ _ Hsub).
  - intros n. unfold DataStore.get_tag. cbn.
    destruct (decide (n = tag_id)) as [->|Hne].
    + apply Hnone, Ht.
    + by apply Hget.
Qed.

Lemma remove_tag_then_generate tag_id st st' kg' :
  tags_keyed (DataStoreMethods.mem st) →
  DataStoreMethods.remove_tag tag_id st = Return (st', true) →
  generate "tags" (__init__ (DataStoreMethods.mem st')) = Return kg' →
  (∀ n, n ∈ nx.nodes (graph kg')
        ↔ n ≠ tag_id
          ∧ n ∈ dict_keys (DataStore.tags (DataStoreMethods.mem st)))
  ∧ (∀ n, nx.get_edge_data (graph kg') tag_id n = None
          ∧ nx.get_edge_data (graph kg') n tag_id = None).
Proof.
  intros Ht Hrem [= <-].
  destruct (remove_tag_tags tag_id st st' Ht Hrem) as [Ht' Hget].
  change (_build_tag_graph _)
    with (_build_tag_graph (mk (DataStoreMethods.mem st') nx.empty)).
  split.
  - intros n.
    rewrite (nodes_build_tag_graph (mk (DataStoreMethods.mem st') nx.empty))
      by done.
    cbn [graph datastore]. change (nx.nodes nx.empty) with (@nil string).
    cbn [app].
    rewrite filter_all by (intros x _; apply not_elem_of_nil).
    unfold dict_keys. rewrite <-!dict_get_is_Some.
    fold (DataStore.get_tag (DataStoreMethods.mem st') n).
    fold (DataStore.get_tag (DataStoreMethods.mem st) n).
    rewrite Hget. destruct (decide (n = tag_id)) as [->|Hne].
    + split; [by intros [? ?] | tauto].
    + tauto.
  - intros n. rewrite !tag_graph_edge, !Hget.
    rewrite decide_True by done.
    split; [done|]. by destruct (decide (n = tag_id)); [|destruct (DataStore.get_tag _ n)].
Qed.
End RemoveGenerate.

(** ** The similarity of two tag lists *)

Section SimilarityFacts.
Import KnowledgeGraph.
Implicit Types (f : File.t).

Lemma Qred_ratio_zero (n : nat) (p : positive) :
  Qred (Z.of_nat n # p) = 0%Q ↔ n = O.
Proof.
  split.
  - intros Heq. pose proof (Qred_correct (Z.of_nat n # p)) as Hq.
    rewrite Heq in Hq. unfold Qeq in Hq. cbn in Hq. lia.
  - intros ->. change 0%Q with (Qred 0). by apply Qred_complete.
Qed.

Lemma Qred_ratio_one (n d : nat) :
  (0 < d)%nat → Qred (Z.of_nat n # Pos.of_nat d) = 1%Q ↔ n = d.
Proof.
  intros Hd. split.
  - intros Heq. pose proof (Qred_correct (Z.of_nat n # Pos.of_nat d)) as Hq.
    rewrite Heq in Hq. unfold Qeq in Hq. cbn in Hq. lia.
  - intros ->. change 1%Q with (Qred 1). apply Qred_complete.
    unfold Qeq. cbn. lia.
Qed.

Lemma tag_similarity_facts f1 f2 :
  _calculate_tag_similarity f1 f2 = _calculate_tag_similarity f2 f1
  ∧ (_calculate_tag_similarity f1 f2 = 0%Q
     ↔ ∀ t, t ∈ File.tags f1 → t ∉ File.tags f2)
  ∧ (_calculate_tag_similarity f1 f2 = 1%Q
     ↔ File.tags f1 ≠ []
       ∧ ∀ t, t ∈ File.tags f1 ↔ t ∈ File.tags f2).
Proof.
  split; [apply _calculate_tag_similarity_comm|].
  unfold _calculate_tag_similarity.
  destruct (decide (File.tags f1 = [])) as [E1|E1].
  { rewrite (bool_decide_eq_true_2 _ E1). cbn [orb]. rewrite E1. split.
    - split; [|done]. by intros _ t ?%elem_of_nil.
    - split; [done | by intros [? _]]. }
  rewrite (bool_decide_eq_false_2 _ E1). cbn [orb].
  destruct (decide (File.tags f2 = [])) as [E2|E2].
  { rewrite (bool_decide_eq_true_2 _ E2). rewrite E2. split.
    - split; [|done]. intros _ t _. apply not_elem_of_nil.
    - split; [done|]. intros [_ Hsame].
      destruct (File.tags f1) as [|t l]; [done|].
      exfalso. apply (not_elem_of_nil t), Hsame. left. }
  rewrite (bool_decide_eq_false_2 _ E2). cbn zeta.
  set (X := list_to_set (File.tags f1) : gset string).
  set (Y := list_to_set (File.tags f2) : gset string).
  assert (∀ t, t ∈ X ↔ t ∈ File.tags f1) as HX
    by (intros; apply elem_of_list_to_set).
  assert (∀ t, t ∈ Y ↔ t ∈ File.tags f2) as HY
    by (intros; apply elem_of_list_to_set).
  assert (0 < size (X ∪ Y))%nat as Hpos.
  { destruct (File.tags f1) as [|t l] eqn:E; [done|].
    assert (t ∈ X ∪ Y) as Hin by (apply elem_of_union; left; apply HX; left).
    assert (size (X ∪ Y) ≠ 0)%nat; [|lia].
    intros Hz%size_empty_iff.
    apply (not_elem_of_empty (C := gset string) t). by apply Hz. }
  rewrite (proj2 (Nat.ltb_lt _ _) Hpos). split.
  - rewrite Qred_ratio_zero, size_empty_iff. split.
    + intros Hemp t H1 H2. apply (not_elem_of_empty (C := gset string) t).
      apply Hemp, elem_of_intersection. by rewrite HX, HY.
    + intros Hdis. apply elem_of_equiv_empty.
      intros t [H1 H2]%elem_of_intersection.
      apply HX in H1. apply HY in H2. by apply (Hdis t).
  - rewrite (Qred_ratio_one _ _ Hpos). split.
    + intros Hsize. split; [done|].
      assert (X ∩ Y = X ∪ Y) as Heq.
      { apply set_subseteq_size_eq; [|lia].
        intros t [H1 _]%elem_of_intersection. apply elem_of_union. by left. }
      intros t. rewrite <-HX, <-HY. split; intros Hin.
      * assert (t ∈ X ∩ Y) as [_ ?]%elem_of_intersection; [|done].
        rewrite Heq. apply elem_of_union. by left.
      * assert (t ∈ X ∩ Y) as [? _]%elem_of_intersection; [|done].
        rewrite Heq. apply elem_of_union. by right.
    + intros [_ Hsame]. f_equal. apply leibniz_equiv.
      intros t. rewrite elem_of_intersection, elem_of_union, HX, HY, Hsame.
      tauto.
Qed.
End SimilarityFacts.

(** * Further theorems on the graph code *)

Section GraphTheorems.
Import KnowledgeGraph Store Scenario.

(** X7.  Every graph returned by [generate] is a well-formed undirected
    graph: no node is listed twice, the data of an edge is the same from
    both ends, both ends of an edge are nodes, and [neighbors] lists each
    neighbour of a node once. *)
Theorem generate_well_formed (mode : string) (kg kg' : t) :
  generate mode kg = Return kg' →
  NoDup (nx.nodes (graph kg'))
  ∧ (∀ u v, nx.get_edge_data (graph kg') u v
            = nx.get_edge_data (graph kg') v u)
  ∧ (∀ u v d, nx.get_edge_data (graph kg') u v = Some d →
       nx.contains u (graph kg') = true ∧ nx.contains v (graph kg') = true)
  ∧ (∀ n, nx.contains n (graph kg') = true →
       ∃ l, nx.neighbors (graph kg') n = Return l ∧ NoDup l
            ∧ ∀ v, v ∈ l ↔ is_Some (nx.get_edge_data (graph kg') n v)).
Proof.
  intros Hgen.
  destruct (graph_wf_generate mode kg kg' Hgen) as (Hnd & Hnb & Hsym & Hcl).
  split_and!; try done.
  - intros u v d Hd. split; [|by eapply Hcl].
    rewrite Hsym in Hd. by eapply Hcl.
  - intros n [e He]%contains_spec. unfold nx.neighbors, nx.get_edge_data.
    rewrite He. eexists. split; [done|]. split.
    + apply (Hnb n). by apply dict_get_Some_elem.
    + intros v. by rewrite dict_get_is_Some.
Qed.

Lemma generate_well_formed_witness :
  NoDup (nx.nodes (graph (_build_tag_graph (mk store nx.empty))))
  ∧ nx.get_edge_data (graph (_build_tag_graph (mk store nx.empty))) "A" "B"
    = nx.get_edge_data (graph (_build_tag_graph (mk store nx.empty))) "B" "A".
Proof.
  destruct (generate_well_formed "tags" kg0
              (_build_tag_graph (mk store nx.empty)) eq_refl)
    as (Hnd & Hsym & _).
  split; [exact Hnd | apply Hsym].
Defined.

(** X8.  On a generated graph that has a node, the [total_edges] of
    [get_stats] is the number of edges that [G.edges()] yields, the
    degrees add up to twice that number, [avg_degree] is twice the number
    of edges over the number of nodes, and [connected_components] lies
    between 1 and the number of nodes. *)
Theorem get_stats_edges_and_degrees (mode : string) (kg kg' : t) :
  generate mode kg = Return kg' →
  nx.nodes (graph kg') ≠ [] →
  ∃ stats c,
    get_stats kg' = Return stats
    ∧ dict_get "total_edges" stats
      = Some (VInt (Z.of_nat (length (edges_data (graph kg')))))
    ∧ nx.sum_Z (nx.degree_view (graph kg')).*2
      = 2 * Z.of_nat (length (edges_data (graph kg')))
    ∧ dict_get "avg_degree" stats
      = Some (VFloat
                (Qred (2 * Z.of_nat (length (edges_data (graph kg')))
                       # Z.to_pos (Z.of_nat (length (nx.nodes (graph kg')))))))
    ∧ dict_get "connected_components" stats = Some (VInt c)
    ∧ 1 ≤ c ≤ Z.of_nat (length (nx.nodes (graph kg'))).
Proof.
  intros Hgen Hne.
  pose proof (graph_wf_generate mode kg kg' Hgen) as Hwf.
  destruct (handshake (graph kg') Hwf) as [Hsum Hedges].
  eexists _, _. split; [by apply get_stats_nonempty|].
  split_and!.
  - cbn. by rewrite Hedges.
  - done.
  - cbn. rewrite dict_of_pairs_NoDup
      by (rewrite degree_view_keys; apply Hwf).
    unfold dict_values. by rewrite Hsum.
  - reflexivity.
  - by apply components_bounds.
  - by apply components_bounds.
Qed.

Lemma get_stats_edges_and_degrees_witness :
  ∃ stats,
    get_stats (_build_tag_graph (mk store nx.empty)) = Return stats
    ∧ dict_get "total_edges" stats = Some (VInt 1)
    ∧ dict_get "avg_degree" stats = Some (VFloat (2 # 3)).
Proof.
  assert (nx.nodes (graph (_build_tag_graph (mk store nx.empty))) ≠ []) as Hne
    by (vm_compute; discriminate).
  destruct (get_stats_edges_and_degrees "tags" kg0
              (_build_tag_graph (mk store nx.empty)) eq_refl Hne)
    as (stats & c & Hstats & Hedges & _ & Havg & _).
  exists stats. split; [exact Hstats|]. split.
  - rewrite Hedges. vm_compute. reflexivity.
  - rewrite Havg. vm_compute. reflexivity.
Defined.

(** X9.  [export_json] of a generated graph does not raise.  It lists
    the nodes in node order, each under its [id], and the edges that
    [G.edges(data=True)] yields, each under its [source] and [target];
    its [stats] are those of [get_stats], whose [total_nodes] and
    [total_edges] are the numbers of exported nodes and edges. *)
Theorem export_json_spec (mode : string) (kg kg' : t) :
  generate mode kg = Return kg' →
  ∃ ex,
    export_json kg' = Return ex
    ∧ get_stats kg' = Return (exp_stats ex)
    ∧ dict_get "id" <$> exp_nodes ex
      = (λ n, Some (VStr n)) <$> nx.nodes (graph kg')
    ∧ (λ d, (dict_get "source" d, dict_get "target" d)) <$> exp_edges ex
      = (λ uvd : string * string * attrs,
           (Some (VStr uvd.1.1), Some (VStr uvd.1.2)))
          <$> edges_data (graph kg')
    ∧ dict_get "total_nodes" (exp_stats ex)
      = Some (VInt (Z.of_nat (length (exp_nodes ex))))
    ∧ dict_get "total_edges" (exp_stats ex)
      = Some (VInt (Z.of_nat (length (exp_edges ex)))).
Proof.
  intros Hgen.
  pose proof (graph_wf_generate mode kg kg' Hgen) as Hwf.
  destruct (handshake (graph kg') Hwf) as [_ Hedges].
  unfold export_json.
  destruct (export_nodes_loop (graph kg') (nx.nodes (graph kg')) [])
    as (out & -> & Hout); [done|].
  rewrite bind_Return, export_edges_loop. cbn [app].
  assert (length out = length (nx.nodes (graph kg'))) as Hlen.
  { apply (f_equal length) in Hout. by rewrite !length_fmap in Hout. }
  assert ((λ d, (dict_get "source" d, dict_get "target" d))
            <$> ((λ uvd : string * string * attrs,
                    dict_set "target" (VStr uvd.1.2)
                      (dict_set "source" (VStr uvd.1.1) uvd.2))
                   <$> edges_data (graph kg'))
          = (λ uvd : string * string * attrs,
               (Some (VStr uvd.1.1), Some (VStr uvd.1.2)))
              <$> edges_data (graph kg')) as Hst.
  { rewrite <-list_fmap_compose. apply list_fmap_ext.
    intros _ [[u v] d] _. cbn [compose fst snd].
    rewrite dict_get_set_ne, !dict_get_set_eq by done. done. }
  destruct (decide (nx.nodes (graph kg') = [])) as [Hnil|Hne].
  - rewrite get_stats_empty by done. rewrite bind_Return.
    eexists. split; [done|]. cbn [exp_nodes exp_edges exp_stats].
    assert (edges_data (graph kg') = []) as Hno.
    { unfold edges_data, nx.nodes, dict_keys in *.
      by destruct (nx.table (graph kg')). }
    rewrite Hnil in Hlen. destruct out; [|done].
    rewrite Hnil, Hno. by split_and!.
  - rewrite get_stats_nonempty by done. rewrite bind_Return.
    eexists. split; [done|]. cbn [exp_nodes exp_edges exp_stats].
    split_and!; try done.
    + cbn. by rewrite Hlen.
    + cbn. by rewrite length_fmap, Hedges.
Qed.

Lemma export_json_spec_witness :
  ∃ ex,
    export_json (_build_tag_graph (mk store nx.empty)) = Return ex
    ∧ length (exp_nodes ex) = 3%nat ∧ length (exp_edges ex) = 1%nat.
Proof.
  destruct (export_json_spec "tags" kg0
              (_build_tag_graph (mk store nx.empty)) eq_refl)
    as (ex & Hex & _ & Hids & Hst & _).
  exists ex. split; [exact Hex|]. split.
  - apply (f_equal length) in Hids. rewrite !length_fmap in Hids.
    rewrite Hids. vm_compute. reflexivity.
  - apply (f_equal length) in Hst. rewrite !length_fmap in Hst.
    rewrite Hst. vm_compute. reflexivity.
Defined.

(** X10.  [G.edges(data=True)], and with it [export_json], gives every
    edge of a generated graph once: each entry is an edge with its data,
    every edge is given from one of its two ends, never from both, and no
    pair of ends is given twice. *)
Theorem edges_data_each_edge_once (mode : string) (kg kg' : t) :
  generate mode kg = Return kg' →
  (∀ u v d, (u, v, d) ∈ edges_data (graph kg') →
     nx.get_edge_data (graph kg') u v = Some d)
  ∧ (∀ u v d, nx.get_edge_data (graph kg') u v = Some d →
       (u, v, d) ∈ edges_data (graph kg')
       ∨ (v, u, d) ∈ edges_data (graph kg'))
  ∧ (∀ u v d d', (u, v, d) ∈ edges_data (graph kg') →
       (v, u, d') ∈ edges_data (graph kg') → u = v)
  ∧ NoDup ((edges_data (graph kg')).*1).
Proof.
  intros Hgen. by apply edges_data_once, (graph_wf_generate mode kg).
Qed.

Lemma edges_data_each_edge_once_witness :
  nx.get_edge_data (graph (_build_tag_graph (mk store nx.empty))) "A" "B"
  = Some [("weight", VInt 2); ("strength", VFloat (2 # 5));
          ("type", VStr "cooccurrence")]
  ∧ NoDup ((edges_data (graph (_build_tag_graph (mk store nx.empty)))).*1).
Proof.
  destruct (edges_data_each_edge_once "tags" kg0
              (_build_tag_graph (mk store nx.empty)) eq_refl)
    as (Hedge & _ & _ & Hnd).
  split; [|exact Hnd].
  apply Hedge. vm_compute. left.
Defined.
(** X11.  When the tags and the files of the store are held under their
    own distinct ids, the nodes of a generated graph are, in this order,
    the tag ids if the mode builds the tag graph, then the file ids that
    are not among them if the mode builds the file graph; a mode other
    than tags, files and full gives no node. *)
Theorem generate_nodes (mode : string) (kg kg' : t) :
  tags_keyed (datastore kg) → files_keyed (datastore kg) →
  generate mode kg = Return kg' →
  nx.nodes (graph kg')
  = (mode_tags mode (datastore kg)
     ++ filter (λ n, n ∉ mode_tags mode (datastore kg))
          (mode_files mode (datastore kg)))%list
  ∧ (mode ∉ ["tags"; "files"; "full"] → nx.nodes (graph kg') = []).
Proof.
  intros Ht Hf Hgen. rewrite (nodes_generate mode kg kg') by done.
  split; [done|]. intros Hmode. unfold mode_tags, mode_files.
  rewrite !bool_decide_eq_false_2; [done|..];
    intros Hin; apply Hmode;
    repeat (apply elem_of_cons in Hin as [-> | Hin]);
    try (by apply elem_of_nil in Hin);
    apply (bool_decide_unpack _); vm_compute; exact I.
Qed.

Lemma generate_nodes_witness :
  nx.nodes
    (graph (_link_tags_and_files
              (_build_file_graph (_build_tag_graph (mk store nx.empty)))))
  = ["A"; "B"; "C"; "F1"; "F2"; "F3"; "F4"; "F5"].
Proof.
  assert (tags_keyed store) as Ht.
  { split; apply (bool_decide_unpack _); vm_compute; exact I. }
  assert (files_keyed store) as Hf.
  { split; apply (bool_decide_unpack _); vm_compute; exact I. }
  destruct (generate_nodes "full" kg0
              (_link_tags_and_files
                 (_build_file_graph (_build_tag_graph (mk store nx.empty))))
              Ht Hf eq_refl) as [Hnodes _].
  rewrite Hnodes. vm_compute. reflexivity.
Defined.

(** X12.  The [type] of a node of a generated graph: the id of a stored
    file is typed file when the mode builds the file graph, also when it
    is the id of a tag as well; otherwise the id of a stored tag is typed
    tag when the mode builds the tag graph; nothing else has a type. *)
Theorem generate_node_types (mode : string) (kg kg' : t) (x : string) :
  generate mode kg = Return kg' →
  node_type (graph kg') x
  = if decide (mode ∈ ["files"; "full"]
               ∧ x ∈ File.file_id
                       <$> dict_values (DataStore.files (datastore kg)))
    then Some (VStr "file")
    else if decide (mode ∈ ["tags"; "full"]
                    ∧ x ∈ Tag.tag_id
                            <$> dict_values (DataStore.tags (datastore kg)))
         then Some (VStr "tag")
         else None.
Proof. apply node_type_generate. Qed.

Lemma generate_node_types_witness :
  node_type
    (graph (_link_tags_and_files
              (_build_file_graph (_build_tag_graph (mk store nx.empty)))))
    "F1"
  = Some (VStr "file").
Proof.
  rewrite (generate_node_types "full" kg0
             (_link_tags_and_files
                (_build_file_graph (_build_tag_graph (mk store nx.empty))))
             "F1" eq_refl).
  vm_compute. reflexivity.
Defined.

(** X13.  The edges of a generated graph by mode.  An edge is typed
    cooccurrence, and the mode builds the tag graph; or similarity, and
    the mode builds the file graph; or tagged, and then the mode is full
    and the edge joins a file of the store and one of its tags.  In full
    mode every file is joined by a tagged edge to each of its tags that
    is a node. *)
Theorem generate_edge_kinds (mode : string) (kg kg' : t) :
  generate mode kg = Return kg' →
  (∀ a b d, nx.get_edge_data (graph kg') a b = Some d →
     (dict_get "type" d = Some (VStr "cooccurrence")
      ∧ mode ∈ ["tags"; "full"])
     ∨ (dict_get "type" d = Some (VStr "similarity")
        ∧ mode ∈ ["files"; "full"])
     ∨ (dict_get "type" d = Some (VStr "tagged") ∧ mode = "full"
        ∧ (file_and_tag (datastore kg) a b
           ∨ file_and_tag (datastore kg) b a)))
  ∧ (mode = "full" →
     ∀ file tag_id,
       file ∈ dict_values (DataStore.files (datastore kg)) →
       tag_id ∈ File.tags file → tag_id ∈ nx.nodes (graph kg') →
       edge_typed "tagged" (graph kg') (File.file_id file) tag_id).
Proof.
  intros Hgen. split; [by apply generate_edge_types|].
  intros -> file tag_id Hfile Htag Hnode. injection Hgen as <-.
  set (kg2 := _build_file_graph
                (_build_tag_graph (mk (datastore kg) (nx.clear (graph kg))))).
  change (edge_typed "tagged" (graph (_link_tags_and_files kg2))
            (File.file_id file) tag_id).
  change (tag_id ∈ nx.nodes (graph (_link_tags_and_files kg2))) in Hnode.
  rewrite nodes_link_tags_and_files in Hnode.
  apply link_tags_and_files_edges; try done.
  assert (node_type (graph kg2) (File.file_id file) = Some (VStr "file"))
    as Hty.
  { unfold kg2. rewrite node_type_build_file_graph.
    rewrite decide_True; [done|]. by apply list_elem_of_fmap_2. }
  apply dict_get_is_Some. unfold node_type in Hty.
  by destruct (dict_get _ _).
Qed.

Lemma generate_edge_kinds_witness :
  edge_typed "tagged"
    (graph (_link_tags_and_files
              (_build_file_graph (_build_tag_graph (mk store nx.empty)))))
    "F3" "C".
Proof.
  destruct (generate_edge_kinds "full" kg0
              (_link_tags_and_files
                 (_build_file_graph (_build_tag_graph (mk store nx.empty))))
              eq_refl) as [_ Hlink].
  apply (Hlink eq_refl F3 "C").
  - vm_compute. do 2 right. left.
  - vm_compute. right. left.
  - vm_compute. do 2 right. left.
Defined.

(** X14.  [find_hubs] on a generated graph does not raise.  The list is
    in descending order of degree and names no node twice; each entry is
    a node with its degree; a node left out has at most the degree of
    every node listed; and for [top_n] at least 0 the list has [top_n]
    entries, or all the nodes if there are fewer. *)
Theorem find_hubs_top (mode : string) (kg kg' : t) (top_n : Z) :
  generate mode kg = Return kg' →
  ∃ hubs,
    find_hubs top_n kg' = Return hubs
    ∧ StronglySorted (λ x y : string * Z, y.2 ≤ x.2) hubs
    ∧ NoDup hubs.*1
    ∧ (∀ n d, (n, d) ∈ hubs →
         nx.degree (graph kg') n = Return d
         ∧ ∃ node_data, nx.nodes_getitem (graph kg') n = Return node_data)
    ∧ (∀ n d m dm, (n, d) ∈ hubs → nx.degree (graph kg') m = Return dm →
         m ∉ hubs.*1 → dm ≤ d)
    ∧ (0 ≤ top_n →
       length hubs
       = Nat.min (Z.to_nat top_n) (length (nx.nodes (graph kg')))).
Proof.
  intros Hgen.
  destruct (graph_wf_generate mode kg kg' Hgen) as (Hnd & _).
  destruct (find_hubs_facts top_n kg' Hnd)
    as (hubs & Hhubs & Hsorted & Hnodup & Hdeg & Htop & Hlen).
  exists hubs. split_and!; try done.
  intros n d Hin. split; [by apply Hdeg|].
  apply Hdeg in Hin. unfold nx.degree, nx.nodes_getitem in *.
  destruct (dict_get n (nx.table (graph kg'))); [by eauto | done].
Qed.

Lemma find_hubs_top_witness :
  ∃ hubs,
    find_hubs 2 (_build_tag_graph (mk store nx.empty)) = Return hubs
    ∧ length hubs = 2%nat.
Proof.
  destruct (find_hubs_top "tags" kg0 (_build_tag_graph (mk store nx.empty)) 2
              eq_refl) as (hubs & Hhubs & _ & _ & _ & _ & Hlen).
  exists hubs. split; [exact Hhubs|].
  rewrite Hlen by lia. vm_compute. reflexivity.
Defined.

(** X15.  Recommendations on the tag graph, for a store that holds its
    tags under their own distinct ids.  [recommend_tags] does not raise.
    Every recommended id is a stored tag that the file does not carry,
    and its score is the sum, over the tags of the file, of the
    co-occurrence counts with it that are at least 2; the scores
    descend, no id comes twice, and there are at most [top_n] entries.  A
    stored tag with a positive sum that the file does not carry is left
    out only when the list is full, and then it scores no more than any
    entry. *)
Theorem recommend_tags_scores (kg kg' : t) (file_id : string) (file : File.t)
    (top_n : Z) :
  tags_keyed (datastore kg) →
  generate "tags" kg = Return kg' →
  DataStore.get_file (datastore kg) file_id = Some file →
  ∃ recs,
    recommend_tags file_id top_n kg' = Return recs
    ∧ (∀ r s, (r, s) ∈ recs →
         is_Some (DataStore.get_tag (datastore kg) r)
         ∧ (r ∉ File.tags file)
         ∧ s = NInt (cooccurrence_score (datastore kg) file r)
         ∧ 2 ≤ cooccurrence_score (datastore kg) file r)
    ∧ StronglySorted (λ x y : string * pynum, (num_Q y.2 <= num_Q x.2)%Q) recs
    ∧ NoDup recs.*1
    ∧ (length recs ≤ Z.to_nat top_n)%nat
    ∧ (∀ r, is_Some (DataStore.get_tag (datastore kg) r) →
         r ∉ File.tags file →
         0 < cooccurrence_score (datastore kg) file r → r ∉ recs.*1 →
         length recs = Z.to_nat top_n
         ∧ ∀ r' s', (r', s') ∈ recs →
             cooccurrence_score (datastore kg) file r
             ≤ cooccurrence_score (datastore kg) file r').
Proof.
  intros Ht [= <-] Hfile.
  by apply (recommend_tags_tag_graph (datastore kg) file_id file top_n).
Qed.

Lemma recommend_tags_scores_witness :
  ∃ recs,
    recommend_tags "F4" 5 (_build_tag_graph (mk store nx.empty)) = Return recs
    ∧ ∀ r s, (r, s) ∈ recs → s = NInt (cooccurrence_score store F4 r).
Proof.
  assert (tags_keyed store) as Ht.
  { split; apply (bool_decide_unpack _); vm_compute; exact I. }
  destruct (recommend_tags_scores kg0 (_build_tag_graph (mk store nx.empty))
              "F4" F4 5 Ht eq_refl eq_refl) as (recs & Hrecs & Hscore & _).
  exists recs. split; [exact Hrecs|].
  intros r s Hin. by destruct (Hscore r s Hin) as (_ & _ & ? & _).
Defined.

(** X16.  The node counts of [get_stats] on a generated graph, for a
    store that holds its tags and its files under their own distinct ids:
    [file_nodes] is the number of files if the mode builds the file graph
    and 0 otherwise, [tag_nodes] is the number of tag ids that are not
    made file nodes if the mode builds the tag graph and 0 otherwise, and
    [total_nodes] is their sum. *)
Theorem get_stats_node_counts (mode : string) (kg kg' : t) :
  tags_keyed (datastore kg) → files_keyed (datastore kg) →
  generate mode kg = Return kg' →
  ∃ stats,
    get_stats kg' = Return stats
    ∧ dict_get "file_nodes" stats
      = Some (VInt (Z.of_nat (length (mode_files mode (datastore kg)))))
    ∧ dict_get "tag_nodes" stats
      = Some (VInt (Z.of_nat
                      (length (filter
                                 (λ n, n ∉ mode_files mode (datastore kg))
                                 (mode_tags mode (datastore kg))))))
    ∧ dict_get "total_nodes" stats
      = Some (VInt (Z.of_nat
                      (length (filter
                                 (λ n, n ∉ mode_files mode (datastore kg))
                                 (mode_tags mode (datastore kg)))
                       + length (mode_files mode (datastore kg))))).
Proof.
  intros Ht Hf Hgen.
  destruct (node_counts_generate mode kg kg' Ht Hf Hgen)
    as (Hfile & Htag & Htotal).
  destruct (decide (nx.nodes (graph kg') = [])) as [Hnil|Hne].
  - rewrite Hnil in Htotal. cbn [length] in Htotal.
    eexists. split; [by apply get_stats_empty|].
    assert (length (mode_files mode (datastore kg)) = 0%nat) as -> by lia.
    assert (length (filter (λ n, n ∉ mode_files mode (datastore kg))
                      (mode_tags mode (datastore kg))) = 0%nat) as -> by lia.
    by split_and!.
  - eexists. split; [by apply get_stats_nonempty|].
    split_and!; cbn; by rewrite ?Hfile, ?Htag, ?Htotal.
Qed.

Lemma get_stats_node_counts_witness :
  ∃ stats,
    get_stats
      (_link_tags_and_files
         (_build_file_graph (_build_tag_graph (mk store nx.empty))))
    = Return stats
    ∧ dict_get "file_nodes" stats = Some (VInt 5)
    ∧ dict_get "tag_nodes" stats = Some (VInt 3)
    ∧ dict_get "total_nodes" stats = Some (VInt 8).
Proof.
  assert (tags_keyed store) as Ht.
  { split; apply (bool_decide_unpack _); vm_compute; exact I. }
  assert (files_keyed store) as Hf.
  { split; apply (bool_decide_unpack _); vm_compute; exact I. }
  destruct (get_stats_node_counts "full" kg0
              (_link_tags_and_files
                 (_build_file_graph (_build_tag_graph (mk store nx.empty))))
              Ht Hf eq_refl) as (stats & Hstats & Hfile & Htag & Htotal).
  exists stats. split; [exact Hstats|]. split_and!.
  - rewrite Hfile. vm_compute. reflexivity.
  - rewrite Htag. vm_compute. reflexivity.
  - rewrite Htotal. vm_compute. reflexivity.
Defined.

(** X17.  When no file of the store repeats a tag, the files have
    distinct ids and no file carries its own id as a tag, a generated
    graph has no edge from a node to itself, the degree of a node is at
    most the number of the other nodes, and the [density] of [get_stats]
    is a number between 0 and 1. *)
Theorem generate_simple_graph (mode : string) (kg kg' : t) :
  tags_nodup (datastore kg) → file_ids_distinct (datastore kg) →
  (∀ file, file ∈ dict_values (DataStore.files (datastore kg)) →
           File.file_id file ∉ File.tags file) →
  generate mode kg = Return kg' →
  (∀ n, nx.get_edge_data (graph kg') n n = None)
  ∧ (∀ n d, nx.degree (graph kg') n = Return d →
       0 ≤ d ≤ Z.of_nat (length (nx.nodes (graph kg'))) - 1)
  ∧ ∃ stats v q,
      get_stats kg' = Return stats
      ∧ dict_get "density" stats = Some v ∧ val_Q v = Some q
      ∧ (0 <= q)%Q ∧ (q <= 1)%Q.
Proof.
  intros Ht Hf Hown Hgen.
  pose proof (no_loops_generate mode kg kg' Ht Hf Hown Hgen) as Hloop.
  pose proof (graph_wf_generate mode kg kg' Hgen) as Hwf.
  split_and!.
  - intros n. destruct (nx.get_edge_data (graph kg') n n) as [d|] eqn:E;
      [|done]. by destruct (Hloop n n d E).
  - intros n d. unfold nx.degree.
    destruct (dict_get n (nx.table (graph kg'))) as [e|] eqn:He; [|done].
    intros [= <-]. apply degree_entry_bound; try done.
    by apply dict_get_Some_elem.
  - destruct (decide (nx.nodes (graph kg') = [])) as [Hnil|Hne].
    + exists [("total_nodes", VInt 0); ("total_edges", VInt 0);
              ("tag_nodes", VInt 0); ("file_nodes", VInt 0);
              ("avg_degree", VInt 0); ("density", VInt 0)],
        (VInt 0), (inject_Z 0).
      split; [by apply get_stats_empty|]. by split_and!.
    + destruct (density_bounds (graph kg') Hwf Hloop) as (q & Hq & H0 & H1).
      eexists _, _, q. split; [by apply get_stats_nonempty|].
      split_and!; [reflexivity | done..].
Qed.

Lemma generate_simple_graph_witness :
  nx.get_edge_data
    (graph (_link_tags_and_files
              (_build_file_graph (_build_tag_graph (mk store nx.empty)))))
    "A" "A"
  = None.
Proof.
  assert (tags_nodup store) as Ht.
  { unfold tags_nodup. apply (bool_decide_unpack _). vm_compute. exact I. }
  assert (file_ids_distinct store) as Hf.
  { unfold file_ids_distinct. apply (bool_decide_unpack _).
    vm_compute. exact I. }
  assert (∀ file, file ∈ dict_values (DataStore.files store) →
                  File.file_id file ∉ File.tags file) as Hown.
  { apply Forall_forall. apply (bool_decide_unpack _). vm_compute. exact I. }
  destruct (generate_simple_graph "full" kg0
              (_link_tags_and_files
                 (_build_file_graph (_build_tag_graph (mk store nx.empty))))
              Ht Hf Hown eq_refl) as (Hloop & _).
  apply Hloop.
Defined.

(** X18.  [get_stats] never raises.  [total_nodes] is the number of
    nodes, [tag_nodes] and [file_nodes] count the nodes whose [type] is
    tag and file, and together they do not exceed [total_nodes]. *)
Theorem get_stats_total (kg : t) :
  ∃ stats tag_nodes file_nodes,
    get_stats kg = Return stats
    ∧ dict_get "total_nodes" stats
      = Some (VInt (Z.of_nat (length (nx.nodes (graph kg)))))
    ∧ dict_get "tag_nodes" stats = Some (VInt tag_nodes)
    ∧ dict_get "file_nodes" stats = Some (VInt file_nodes)
    ∧ tag_nodes
      = Z.of_nat (length (filter (λ n, node_type (graph kg) n
                                       = Some (VStr "tag"))
                            (nx.nodes (graph kg))))
    ∧ file_nodes
      = Z.of_nat (length (filter (λ n, node_type (graph kg) n
                                       = Some (VStr "file"))
                            (nx.nodes (graph kg))))
    ∧ 0 ≤ tag_nodes ∧ 0 ≤ file_nodes
    ∧ tag_nodes + file_nodes ≤ Z.of_nat (length (nx.nodes (graph kg))).
Proof.
  pose proof (filter_disjoint_length
                (λ n, node_type (graph kg) n = Some (VStr "tag"))
                (λ n, node_type (graph kg) n = Some (VStr "file"))
                (nx.nodes (graph kg))) as Hdis.
  destruct (decide (nx.nodes (graph kg) = [])) as [Hnil|Hne].
  - eexists _, 0, 0. split; [by apply get_stats_empty|].
    rewrite Hnil. by split_and!.
  - eexists _, _, _. split; [by apply get_stats_nonempty|].
    split_and!; try reflexivity; try lia.
    assert (∀ x : string, x = "tag" → x = "file" → False) by congruence.
    enough (length (filter (λ n, node_type (graph kg) n = Some (VStr "tag"))
                      (nx.nodes (graph kg)))
            + length (filter (λ n, node_type (graph kg) n
                                   = Some (VStr "file"))
                        (nx.nodes (graph kg)))
            ≤ length (nx.nodes (graph kg)))%nat by lia.
    apply Hdis. intros x H1 H2. rewrite H1 in H2. by injection H2.
Qed.

(** X19.  Removing a stored tag and generating the tag graph, for a
    store that holds its tags under their own distinct ids: the nodes are
    the other tag ids, and no edge touches the removed id. *)
Theorem remove_tag_then_generate_tags (tag_id : string)
    (st st' : DataStoreMethods.state) (kg' : t) :
  tags_keyed (DataStoreMethods.mem st) →
  DataStoreMethods.remove_tag tag_id st = Return (st', true) →
  generate "tags" (__init__ (DataStoreMethods.mem st')) = Return kg' →
  (∀ n, n ∈ nx.nodes (graph kg')
        ↔ n ≠ tag_id
          ∧ n ∈ dict_keys (DataStore.tags (DataStoreMethods.mem st)))
  ∧ (∀ n, nx.get_edge_data (graph kg') tag_id n = None
          ∧ nx.get_edge_data (graph kg') n tag_id = None).
Proof. apply remove_tag_then_generate. Qed.

Lemma remove_tag_then_generate_tags_witness :
  ∃ st' kg',
    DataStoreMethods.remove_tag "B" st0 = Return (st', true)
    ∧ generate "tags" (__init__ (DataStoreMethods.mem st')) = Return kg'
    ∧ ("B" ∉ nx.nodes (graph kg')) ∧ "A" ∈ nx.nodes (graph kg').
Proof.
  assert (tags_keyed (DataStoreMethods.mem st0)) as Ht.
  { split; apply (bool_decide_unpack _); vm_compute; exact I. }
  assert (∃ st', DataStoreMethods.remove_tag "B" st0 = Return (st', true))
    as [st' Hrem] by (eexists; vm_compute; reflexivity).
  destruct (remove_tag_then_generate_tags "B" st0 st'
              (_build_tag_graph (mk (DataStoreMethods.mem st') nx.empty))
              Ht Hrem eq_refl) as [Hnodes _].
  exists st', (_build_tag_graph (mk (DataStoreMethods.mem st') nx.empty)).
  split_and!; [exact Hrem | reflexivity | |].
  - rewrite Hnodes. by intros [? _].
  - apply Hnodes. split; [discriminate|]. vm_compute. left.
Defined.

(** X20.  [_calculate_tag_similarity] does not depend on the order of
    its two files; it is 0 exactly when the files share no tag, and 1
    exactly when the first file has a tag and both carry the same
    tags, in whatever order and however often. *)
Theorem tag_similarity_props (f1 f2 : File.t) :
  _calculate_tag_similarity f1 f2 = _calculate_tag_similarity f2 f1
  ∧ (_calculate_tag_similarity f1 f2 = 0%Q
     ↔ ∀ t, t ∈ File.tags f1 → t ∉ File.tags f2)
  ∧ (_calculate_tag_similarity f1 f2 = 1%Q
     ↔ File.tags f1 ≠ []
       ∧ ∀ t, t ∈ File.tags f1 ↔ t ∈ File.tags f2).
Proof. apply tag_similarity_facts. Qed.
End GraphTheorems.

(** * The tag commands keep the store consistent *)

Section ReplaceEntry.
Context {V : Type}.
Implicit Types (k : string) (v : V) (d : pydict string V).

Lemma dict_set_same k v d : dict_get k d = Some v → dict_set k v d = d.
Proof.
  induction d as [|[k0 v0] d IH]; [done|]. cbn.
  destruct (decide (k = k0)) as [->|Hne].
  - by intros [= ->].
  - intros Hd. by rewrite IH.
Qed.

Lemma dict_set_twice k v d : dict_set k v (dict_set k v d) = dict_set k v d.
Proof. apply dict_set_same, dict_get_set_eq. Qed.

Lemma dict_set_keys_present k v d :
  k ∈ d.*1 → (dict_set k v d).*1 = d.*1.
Proof. intros Hin. by rewrite dict_set_keys, decide_True. Qed.

Lemma elem_of_dict_set_NoDup k k' v v' d :
  NoDup d.*1 → (k, v) ∈ dict_set k' v' d →
  (k = k' ∧ v = v') ∨ (k ≠ k' ∧ (k, v) ∈ d).
Proof.
  induction d as [|[k0 v0] d IH]; intros Hnd; cbn [dict_set].
  - intros [= -> ->]%list_elem_of_singleton. by left.
  - rewrite fmap_cons in Hnd. apply NoDup_cons in Hnd as [Hk0 Hnd].
    destruct (decide (k' = k0)) as [->|Hne].
    + intros [[= -> ->] | Hin]%elem_of_cons; [by left|].
      right. split; [|by right]. intros ->. apply Hk0.
      by apply (list_elem_of_fmap_2 fst) in Hin.
    + intros [[= -> ->] | Hin]%elem_of_cons.
      * right. split; [done | left].
      * destruct (IH Hnd Hin) as [? | [? ?]]; [by left|].
        right. split; [done | by right].
Qed.

Lemma elem_of_values_dict_set k v' d (x : V) :
  x ∈ (dict_set k v' d).*2 → x = v' ∨ x ∈ d.*2.
Proof.
  intros ([k0 y] & -> & Hin)%list_elem_of_fmap.
  apply elem_of_dict_set in Hin as [[_ ->] | Hin]; [by left|].
  right. by apply (list_elem_of_fmap_2 snd) in Hin.
Qed.

(** Replacing the value under a key changes how many values satisfy [P]
    by what the two values make of [P]. *)
Lemma filter_values_dict_set (P : V → Prop) `{∀ y, Decision (P y)}
    k v v' d :
  NoDup d.*1 → dict_get k d = Some v →
  (length (filter P (dict_set k v' d).*2) + (if decide (P v) then 1 else 0)
   = length (filter P d.*2) + (if decide (P v') then 1 else 0))%nat.
Proof.
  induction d as [|[k0 v0] d IH]; [done|].
  rewrite fmap_cons. intros [Hk0 Hnd]%NoDup_cons. cbn [dict_get dict_set].
  destruct (decide (k = k0)) as [->|Hne].
  - intros [= ->]. rewrite !fmap_cons, !filter_cons. cbn [snd].
    destruct (decide (P v)), (decide (P v')); cbn [length]; lia.
  - intros Hd. specialize (IH Hnd Hd).
    rewrite !fmap_cons, !filter_cons. cbn [snd].
    destruct (decide (P v0)); cbn [length]; lia.
Qed.
End ReplaceEntry.

Section TagCommandFacts.
Import DataStoreMethods TagCommands Store.
Variable matches : Tag.t → string → bool.
Implicit Types (st : state) (ds : DataStore.t) (file : File.t) (tag : Tag.t)
  (k t key : string).

Lemma get_tag_by_name_stored ds name key tag :
  get_tag_by_name matches ds name = Some (key, tag) →
  (key, tag) ∈ DataStore.tags ds.
Proof.
  unfold get_tag_by_name, dict_items.
  intros [Hin _]%find_some. by apply list_elem_of_In.
Qed.

(** Putting [file'] in the place of [file] and [tag'] in the place of
    [tag], where only the tag's id may come to or go from the file and
    the new usage count covers it. *)
Lemma replace_consistent ds fk file file' key tag tag' :
  store_consistent ds →
  dict_get fk (DataStore.files ds) = Some file →
  (key, tag) ∈ DataStore.tags ds →
  File.file_id file' = File.file_id file → NoDup (File.tags file') →
  Tag.tag_id tag' = Tag.tag_id tag →
  (∀ k, k ≠ Tag.tag_id tag →
        k ∈ File.tags file' ↔ k ∈ File.tags file) →
  Z.of_nat (length (files_with ds (Tag.tag_id tag)))
  + (if decide (Tag.tag_id tag ∈ File.tags file') then 1 else 0)
  - (if decide (Tag.tag_id tag ∈ File.tags file) then 1 else 0)
  ≤ Tag.usage_count tag' →
  store_consistent
    (DataStore.mk (dict_set fk file' (DataStore.files ds))
       (dict_set key tag' (DataStore.tags ds))).
Proof.
  intros ([Hfnd Hfkey] & [Htnd Htkey] & Hnodup & Husage)
    Hfile Htag Hfid Hnd' Htid Hother Hcount.
  assert (File.file_id file = fk) as Hfk.
  { apply dict_get_Some_elem in Hfile.
    apply (proj1 (Forall_forall _ _) Hfkey _ Hfile). }
  assert (Tag.tag_id tag = key) as Hkey
    by apply (proj1 (Forall_forall _ _) Htkey _ Htag).
  assert (∀ k, (length (files_with
                          (DataStore.mk
                             (dict_set fk file' (DataStore.files ds))
                             (dict_set key tag' (DataStore.tags ds))) k)
                + (if decide (k ∈ File.tags file) then 1 else 0)
                = length (files_with ds k)
                  + (if decide (k ∈ File.tags file') then 1 else 0))%nat)
    as Hlen.
  { intros k. unfold files_with, dict_values. cbn [DataStore.files].
    exact (filter_values_dict_set (λ f : File.t, k ∈ File.tags f)
             fk file file' (DataStore.files ds) Hfnd Hfile). }
  split_and!.
  - rewrite <-Hfk, <-Hfid. by apply (keyed_dict_set File.file_id).
  - rewrite <-Hkey, <-Htid. by apply (keyed_dict_set Tag.tag_id).
  - unfold tags_nodup, dict_values. cbn [DataStore.files].
    apply Forall_forall. intros f [-> | Hf]%elem_of_values_dict_set; [done|].
    by apply (proj1 (Forall_forall _ _) Hnodup).
  - unfold usage_consistent, dict_items. cbn [DataStore.tags].
    apply Forall_forall. intros [k t0] Hin. cbn [fst snd].
    specialize (Hlen k).
    apply elem_of_dict_set_NoDup in Hin as [[-> ->] | [Hne Hin]]; [| |done].
    + rewrite <-Hkey in *.
      destruct (decide (Tag.tag_id tag ∈ File.tags file)),
        (decide (Tag.tag_id tag ∈ File.tags file')); lia.
    + pose proof (proj1 (Forall_forall _ _) Husage _ Hin) as Hu.
      cbn [fst snd] in Hu.
      assert (k ≠ Tag.tag_id tag) as Hk by (by rewrite Hkey).
      pose proof (Hother k Hk).
      destruct (decide (k ∈ File.tags file)),
        (decide (k ∈ File.tags file')); try tauto; lia.
Qed.

Lemma mem_replace st fk file' key tag' :
  Tag.tag_id tag' = key →
  mem (update_tag tag'
         (set_tags
            (dict_set key tag'
               (DataStore.tags
                  (mem (set_files
                          (dict_set fk file' (DataStore.files (mem st)))
                          st))))
            (set_files (dict_set fk file' (DataStore.files (mem st))) st)))
  = DataStore.mk (dict_set fk file' (DataStore.files (mem st)))
      (dict_set key tag' (DataStore.tags (mem st))).
Proof. intros Hkey. cbn. by rewrite Hkey, dict_set_twice. Qed.

Lemma loop_inv_replace st0 fid (R : File.t → Prop) st file n file' key tag
    tag' m :
  loop_inv st0 fid R (st, file, n) →
  (key, tag) ∈ DataStore.tags (mem st) →
  File.file_id file' = File.file_id file → NoDup (File.tags file') →
  Tag.tag_id tag' = Tag.tag_id tag →
  (∀ k, k ≠ Tag.tag_id tag →
        k ∈ File.tags file' ↔ k ∈ File.tags file) →
  Z.of_nat (length (files_with (mem st) (Tag.tag_id tag)))
  + (if decide (Tag.tag_id tag ∈ File.tags file') then 1 else 0)
  - (if decide (Tag.tag_id tag ∈ File.tags file) then 1 else 0)
  ≤ Tag.usage_count tag' →
  R file' →
  loop_inv st0 fid R
    (update_tag tag'
       (set_tags
          (dict_set key tag'
             (DataStore.tags
                (mem (set_files
                        (dict_set fid file' (DataStore.files (mem st)))
                        st))))
          (set_files (dict_set fid file' (DataStore.files (mem st))) st)),
     file', m).
Proof.
  intros (Hcons & Hfile & Hfk & Htk & Hother & _) Htag Hfid Hnd Htid Hmem
    Hcount HR.
  cbn [fst snd] in *.
  assert (Tag.tag_id tag' = key) as Hkey.
  { rewrite Htid. destruct Hcons as (_ & [_ Htkey] & _).
    apply (proj1 (Forall_forall _ _) Htkey _ Htag). }
  unfold loop_inv. cbn [fst snd]. unfold get_file in *.
  rewrite mem_replace by done. cbn [DataStore.files DataStore.tags].
  split_and!.
  - by eapply replace_consistent.
  - apply dict_get_set_eq.
  - rewrite <-Hfk. apply dict_set_keys_present, dict_get_is_Some.
    by rewrite Hfile.
  - rewrite <-Htk. apply dict_set_keys_present.
    by apply (list_elem_of_fmap_2 fst) in Htag.
  - intros other Hne. unfold DataStore.get_file. cbn [DataStore.files].
    rewrite dict_get_set_ne by done. by apply Hother.
  - done.
Qed.

Lemma add_tag_step_inv st0 fid (file0 : File.t) name s :
  let R := λ file,
    File.tags file0 `prefix_of` File.tags file
    ∧ ∀ t, t ∈ File.tags file →
           t ∈ File.tags file0 ∨ t ∈ dict_keys (DataStore.tags (mem st0)) in
  loop_inv st0 fid R s → loop_inv st0 fid R (add_tag_step matches fid name s).
Proof.
  intros R Hinv. destruct s as [[st file] n]. unfold add_tag_step.
  cbn [fst snd].
  destruct (get_tag_by_name matches (mem st) name) as [[key tag]|] eqn:Hfind;
    [|done].
  apply get_tag_by_name_stored in Hfind.
  unfold FileMethods.has_tag.
  destruct (decide (Tag.tag_id tag ∈ File.tags file)) as [Hhas|Hnot].
  { by rewrite bool_decide_eq_true_2. }
  rewrite bool_decide_eq_false_2 by done. cbn [negb].
  pose proof Hinv as (Hcons & Hfile & _ & Htk & _ & Hpre & Hfrom).
  cbn [fst snd] in *.
  assert (File.tags (FileMethods.add_tag (Tag.tag_id tag) file)
          = (File.tags file ++ [Tag.tag_id tag])%list) as Htags.
  { unfold FileMethods.add_tag. by rewrite decide_True. }
  assert (NoDup (File.tags file)) as Hnd.
  { destruct Hcons as (_ & _ & Hnodup & _).
    apply (proj1 (Forall_forall _ _) Hnodup).
    apply dict_get_Some_elem in Hfile.
    by apply (list_elem_of_fmap_2 snd) in Hfile. }
  apply (loop_inv_replace st0 fid R st file n _ key tag); try done.
  - unfold FileMethods.add_tag. by rewrite decide_True.
  - rewrite Htags. apply NoDup_app. split_and!; [done | | apply NoDup_singleton].
    by intros x Hx ->%list_elem_of_singleton.
  - intros k Hk. rewrite Htags, elem_of_app, list_elem_of_singleton. tauto.
  - rewrite Htags. rewrite decide_True by (apply elem_of_app; right; left).
    rewrite decide_False by done.
    destruct Hcons as (_ & _ & _ & Husage).
    pose proof (proj1 (Forall_forall _ _) Husage _ Hfind) as Hu.
    cbn [fst snd] in Hu.
    assert (Tag.tag_id tag = key) as Hkey.
    { destruct Hinv as ((_ & [_ Htkey] & _) & _).
      apply (proj1 (Forall_forall _ _) Htkey _ Hfind). }
    rewrite Hkey. cbn. lia.
  - split.
    + rewrite Htags. etrans; [exact Hpre | by apply prefix_app_r].
    + intros t. rewrite Htags.
      intros [Ht | ->%list_elem_of_singleton]%elem_of_app; [by apply Hfrom|].
      right. rewrite <-Htk.
      assert (Tag.tag_id tag = key) as ->.
      { destruct Hinv as ((_ & [_ Htkey] & _) & _).
        apply (proj1 (Forall_forall _ _) Htkey _ Hfind). }
      by apply (list_elem_of_fmap_2 fst) in Hfind.
Qed.

Lemma remove_tag_step_inv st0 fid (file0 : File.t) name s :
  let R := λ file, File.tags file `sublist_of` File.tags file0 in
  loop_inv st0 fid R s →
  ∃ s', remove_tag_step matches fid name s = Return s'
        ∧ loop_inv st0 fid R s'.
Proof.
  intros R Hinv. destruct s as [[st file] n]. unfold remove_tag_step.
  cbn [fst snd].
  destruct (get_tag_by_name matches (mem st) name) as [[key tag]|] eqn:Hfind;
    [|by eauto].
  apply get_tag_by_name_stored in Hfind.
  unfold FileMethods.has_tag.
  destruct (decide (Tag.tag_id tag ∈ File.tags file)) as [Hhas|Hnot].
  2:{ rewrite bool_decide_eq_false_2 by done. by eauto. }
  rewrite bool_decide_eq_true_2 by done.
  pose proof Hinv as (Hcons & Hfile & _ & Htk & _ & Hsub).
  cbn [fst snd] in *.
  assert (NoDup (File.tags file)) as Hnd.
  { destruct Hcons as (_ & _ & Hnodup & _).
    apply (proj1 (Forall_forall _ _) Hnodup).
    apply dict_get_Some_elem in Hfile.
    by apply (list_elem_of_fmap_2 snd) in Hfile. }
  destruct (remove_tag_facts (Tag.tag_id tag) file)
    as (file' & -> & Hfid & _ & _ & _ & Hfilter & _).
  destruct (Hfilter Hnd) as [Htags _].
  rewrite bind_Return. eexists. split; [done|].
  apply (loop_inv_replace st0 fid R st file n _ key tag); try done.
  - rewrite Htags. by apply NoDup_filter.
  - intros k Hk. rewrite Htags, list_elem_of_filter. tauto.
  - rewrite decide_False by (rewrite Htags, list_elem_of_filter; tauto).
    rewrite decide_True by done. cbn.
    destruct Hcons as (_ & [_ Htkey] & _ & Husage).
    pose proof (proj1 (Forall_forall _ _) Husage _ Hfind) as Hu.
    pose proof (proj1 (Forall_forall _ _) Htkey _ Hfind) as Hkey.
    cbn [fst snd] in Hu, Hkey. rewrite Hkey. lia.
  - unfold R. etrans; [|exact Hsub]. rewrite Htags. apply sublist_filter.
Qed.

Lemma loop_inv_start st fid (R : File.t → Prop) file :
  store_consistent (mem st) → get_file fid st = Some file → R file →
  loop_inv st fid R (st, file, 0).
Proof. intros Hc Hf HR. by split_and!. Qed.

(** The closing [update_file] writes the file object back under its own
    id, where it is already. *)
Lemma loop_inv_finish st0 fid (R : File.t → Prop) s :
  loop_inv st0 fid R s →
  mem (if 0 <? s.2 then update_file s.1.2 s.1.1 else s.1.1) = mem s.1.1.
Proof.
  intros (Hcons & Hfile & _). destruct (0 <? s.2); [|done].
  unfold update_file. cbn.
  assert (File.file_id s.1.2 = fid) as ->.
  { destruct Hcons as ([_ Hkey] & _). apply dict_get_Some_elem in Hfile.
    apply (proj1 (Forall_forall _ _) Hkey _ Hfile). }
  rewrite dict_set_same by done. by destruct (mem s.1.1).
Qed.
Lemma filter_length_le {A} (P1 P2 : A → Prop) `{∀ y, Decision (P1 y)}
    `{∀ y, Decision (P2 y)} (l : list A) :
  (∀ y, P1 y → P2 y) → (length (filter P1 l) ≤ length (filter P2 l))%nat.
Proof.
  intros Himp. induction l as [|y l IH]; [done|].
  rewrite !filter_cons. specialize (Himp y).
  destruct (decide (P1 y)), (decide (P2 y)); cbn [length]; try lia. tauto.
Qed.

Lemma remove_tag_consistent tag_id st st' (found : bool) :
  store_consistent (mem st) →
  DataStoreMethods.remove_tag tag_id st = Return (st', found) →
  store_consistent (mem st')
  ∧ (found = true →
     get_tag tag_id st' = None
     ∧ ∀ file, file ∈ dict_values (DataStore.files (mem st')) →
               tag_id ∉ File.tags file).
Proof.
  intros (Hf & Ht & Hnodup & Husage). unfold DataStoreMethods.remove_tag.
  destruct (dict_contains _ _) eqn:Hc.
  2:{ intros [= <- <-]. by split. }
  apply bool_decide_eq_true in Hc.
  rewrite (dict_mapM_total _ (tags_without tag_id))
    by (intros file; apply remove_tag_visit).
  rewrite bind_Return. cbn.
  destruct (dict_del_present tag_id (DataStore.tags (mem st)))
    as (d' & -> & Hget & Hnone & Hsub); [by apply dict_get_is_Some|].
  rewrite bind_Return. intros [= <- <-]. cbn.
  assert (∀ f, f ∈ dict_values (DataStore.files (mem st)) →
               NoDup (File.tags f)) as Hall by (by apply Forall_forall).
  assert (dict_values (prod_map id (tags_without tag_id)
                         <$> DataStore.files (mem st))
          = tags_without tag_id <$> dict_values (DataStore.files (mem st)))
    as Hvalues.
  { unfold dict_values. rewrite <-!list_fmap_compose.
    by apply list_fmap_ext. }
  assert (∀ f, f ∈ dict_values (DataStore.files (mem st)) →
               File.tags (tags_without tag_id f)
               = filter (λ u, u ≠ tag_id) (File.tags f)) as Htags.
  { intros f Hin. apply tags_without_facts. by apply Hall. }
  split; [split_and!|].
  - destruct Hf as [Hnd Hkey]. split.
    + change (NoDup (dict_keys (prod_map id (tags_without tag_id)
                                  <$> DataStore.files (mem st)))).
      by rewrite dict_keys_fmap.
    + change (Forall (λ kf, File.file_id kf.2 = kf.1)
                (prod_map id (tags_without tag_id)
                   <$> DataStore.files (mem st))).
      rewrite Forall_fmap.
      eapply Forall_impl; [exact Hkey|]. intros [k f] Hk. cbn in *.
      by destruct (tags_without_facts tag_id f) as (_ & -> & _).
  - by apply (keyed_sublist Tag.tag_id _ _ Hsub).
  - unfold tags_nodup. cbn [DataStore.files]. rewrite Hvalues.
    apply Forall_fmap, Forall_forall. intros f Hin. cbn.
    rewrite Htags by done. apply NoDup_filter. by apply Hall.
  - unfold usage_consistent, dict_items. cbn [DataStore.tags].
    apply Forall_forall. intros [k t0] Hin. cbn [fst snd].
    apply (elem_of_sublist _ _ _ Hin) in Hsub.
    pose proof (proj1 (Forall_forall _ _) Husage _ Hsub) as Hu.
    cbn [fst snd] in Hu.
    enough (length (files_with
                      (DataStore.mk
                         (prod_map id (tags_without tag_id)
                            <$> DataStore.files (mem st)) d') k)
            ≤ length (files_with (mem st) k))%nat by lia.
    unfold files_with. cbn [DataStore.files]. rewrite Hvalues.
    clear -Htags.
    induction (dict_values (DataStore.files (mem st))) as [|f l IH];
      [done|].
    rewrite fmap_cons, !filter_cons.
    assert (k ∈ File.tags (tags_without tag_id f) → k ∈ File.tags f) as Himp.
    { rewrite Htags by left. by intros [_ ?]%list_elem_of_filter. }
    assert (length (filter (λ f, k ∈ File.tags f)
                      (tags_without tag_id <$> l))
            ≤ length (filter (λ f, k ∈ File.tags f) l))%nat as IH'.
    { apply IH. intros f' Hf'. apply Htags. by right. }
    destruct (decide (k ∈ File.tags (tags_without tag_id f))),
      (decide (k ∈ File.tags f)); cbn [length]; try lia. tauto.
  - intros _. split.
    + unfold get_tag, DataStore.get_tag. cbn. apply Hnone, Ht.
    + intros file Hin.
      change (file ∈ dict_values (prod_map id (tags_without tag_id)
                                    <$> DataStore.files (mem st))) in Hin.
      rewrite Hvalues in Hin.
      apply list_elem_of_fmap in Hin as (f & -> & Hin).
      rewrite Htags by done. rewrite list_elem_of_filter. tauto.
Qed.

(** X21.  The command that adds tags to a file keeps a consistent store
    consistent: every entry under its own id, no file with a repeated
    tag, and every usage count at least the number of files that carry
    the tag.  It changes no key and no other file; an unknown file id
    changes nothing; and the file keeps its tags in place and gains only
    ids of stored tags. *)
Theorem add_tag_to_file_consistent (file_id : string)
    (tag_names : list string) (st : state) :
  store_consistent (mem st) →
  store_consistent (mem (add_tag_to_file matches file_id tag_names st))
  ∧ dict_keys
      (DataStore.files (mem (add_tag_to_file matches file_id tag_names st)))
    = dict_keys (DataStore.files (mem st))
  ∧ dict_keys
      (DataStore.tags (mem (add_tag_to_file matches file_id tag_names st)))
    = dict_keys (DataStore.tags (mem st))
  ∧ (∀ other, other ≠ file_id →
       get_file other (add_tag_to_file matches file_id tag_names st)
       = get_file other st)
  ∧ (get_file file_id st = None →
     add_tag_to_file matches file_id tag_names st = st)
  ∧ (∀ file, get_file file_id st = Some file →
       ∃ file',
         get_file file_id (add_tag_to_file matches file_id tag_names st)
         = Some file'
         ∧ File.tags file `prefix_of` File.tags file'
         ∧ ∀ t, t ∈ File.tags file' →
                t ∈ File.tags file
                ∨ t ∈ dict_keys (DataStore.tags (mem st))).
Proof.
  intros Hcons. unfold add_tag_to_file.
  destruct (get_file file_id st) as [file|] eqn:Hfile.
  2:{ by split_and!. }
  cbn zeta.
  set (R := λ f : File.t,
         File.tags file `prefix_of` File.tags f
         ∧ ∀ t, t ∈ File.tags f →
                t ∈ File.tags file
                ∨ t ∈ dict_keys (DataStore.tags (mem st))).
  assert (loop_inv st file_id R
            (for_each tag_names (add_tag_step matches file_id)
               (st, file, 0))) as Hinv.
  { apply (for_each_inv (loop_inv st file_id R)).
    - intros name s _. apply (add_tag_step_inv st file_id file).
    - apply loop_inv_start; [done..|]. split; [done | by left]. }
  pose proof (loop_inv_finish st file_id R _ Hinv) as Hmem.
  set (s := for_each tag_names (add_tag_step matches file_id)
              (st, file, 0)) in *.
  destruct Hinv as (Hc & Hf & Hfk & Htk & Hother & Hpre & Hfrom).
  unfold get_file in *. rewrite Hmem.
  split_and!; try done.
  intros ? [= <-]. by exists s.1.2.
Qed.

(** X22.  The command that removes tags from a file does not raise and
    keeps a consistent store consistent.  It changes no key and no other
    file; an unknown file id changes nothing; and what is left of the
    file's tags is left in order. *)
Theorem remove_tag_from_file_consistent (file_id : string)
    (tag_names : list string) (st : state) :
  store_consistent (mem st) →
  ∃ st',
    remove_tag_from_file matches file_id tag_names st = Return st'
    ∧ store_consistent (mem st')
    ∧ dict_keys (DataStore.files (mem st'))
      = dict_keys (DataStore.files (mem st))
    ∧ dict_keys (DataStore.tags (mem st'))
      = dict_keys (DataStore.tags (mem st))
    ∧ (∀ other, other ≠ file_id → get_file other st' = get_file other st)
    ∧ (get_file file_id st = None → st' = st)
    ∧ (∀ file, get_file file_id st = Some file →
         ∃ file', get_file file_id st' = Some file'
                  ∧ File.tags file' `sublist_of` File.tags file).
Proof.
  intros Hcons. unfold remove_tag_from_file.
  destruct (get_file file_id st) as [file|] eqn:Hfile.
  2:{ exists st. by split_and!. }
  set (R := λ f : File.t, File.tags f `sublist_of` File.tags file).
  destruct (for_eachM_total (loop_inv st file_id R) tag_names
              (remove_tag_step matches file_id) (st, file, 0))
    as (s & -> & Hinv).
  { intros name s _. apply (remove_tag_step_inv st file_id file). }
  { apply loop_inv_start; [done | done | unfold R; reflexivity]. }
  rewrite bind_Return. eexists. split; [done|].
  pose proof (loop_inv_finish st file_id R _ Hinv) as Hmem.
  destruct Hinv as (Hc & Hf & Hfk & Htk & Hother & Hsub).
  unfold get_file in *. rewrite Hmem.
  split_and!; try done.
  intros ? [= <-]. by exists s.1.2.
Qed.

(** X23.  The command that deletes a tag by name does not raise and
    keeps a consistent store consistent; a name that no tag answers to
    changes nothing, and otherwise the tag found is stored no more and no
    file carries its id. *)
Theorem delete_tag_consistent (tag_name : string) (st : state) :
  store_consistent (mem st) →
  ∃ st',
    delete_tag matches tag_name st = Return st'
    ∧ store_consistent (mem st')
    ∧ (get_tag_by_name matches (mem st) tag_name = None → st' = st)
    ∧ (∀ key tag,
         get_tag_by_name matches (mem st) tag_name = Some (key, tag) →
         get_tag (Tag.tag_id tag) st' = None
         ∧ ∀ file, file ∈ dict_values (DataStore.files (mem st')) →
                   Tag.tag_id tag ∉ File.tags file).
Proof.
  intros Hcons. unfold delete_tag.
  destruct (get_tag_by_name matches (mem st) tag_name) as [[key tag]|]
    eqn:Hfind.
  2:{ exists st. by split_and!. }
  pose proof (get_tag_by_name_stored _ _ _ _ Hfind) as Hin.
  assert (Tag.tag_id tag = key) as Hkey.
  { destruct Hcons as (_ & [_ Htkey] & _).
    apply (proj1 (Forall_forall _ _) Htkey _ Hin). }
  assert (dict_contains (Tag.tag_id tag) (DataStore.tags (mem st)) = true)
    as Hc.
  { apply bool_decide_eq_true, dict_get_is_Some. rewrite Hkey.
    by apply (list_elem_of_fmap_2 fst) in Hin. }
  destruct (DataStoreMethods.remove_tag (Tag.tag_id tag) st)
    as [[st' found]|e] eqn:Hrem.
  2:{ exfalso. revert Hrem. unfold DataStoreMethods.remove_tag. rewrite Hc.
      rewrite (dict_mapM_total _ (tags_without (Tag.tag_id tag)))
        by (intros file; apply remove_tag_visit).
      rewrite bind_Return. cbn.
      destruct (dict_del_present (Tag.tag_id tag)
                  (DataStore.tags (mem st))) as (d' & -> & _).
      { apply bool_decide_eq_true in Hc. by apply dict_get_is_Some. }
      done. }
  assert (found = true) as ->.
  { revert Hrem. unfold DataStoreMethods.remove_tag. rewrite Hc.
    destruct (dict_mapM _ _) as [files|]; [|done]. cbn.
    destruct (dict_del _ _); [|done]. by intros [= _ <-]. }
  destruct (remove_tag_consistent _ _ _ _ Hcons Hrem) as [Hc' Hgone].
  rewrite bind_Return. exists st'. cbn [fst].
  split_and!; try done.
  intros key' tag' [= <- <-]. by apply Hgone.
Qed.
End TagCommandFacts.

Lemma add_tag_to_file_consistent_witness :
  store_consistent
    (DataStoreMethods.mem
       (TagCommands.add_tag_to_file name_matches "F4" ["b"] st0)).
Proof.
  assert (store_consistent (DataStoreMethods.mem st0)) as Hc.
  { split_and!.
    - split; apply (bool_decide_unpack _); vm_compute; exact I.
    - split; apply (bool_decide_unpack _); vm_compute; exact I.
    - unfold Store.tags_nodup. apply (bool_decide_unpack _).
      vm_compute. exact I.
    - unfold Store.usage_consistent. apply (bool_decide_unpack _).
      vm_compute. exact I. }
  apply (add_tag_to_file_consistent name_matches "F4" ["b"] st0 Hc).
Defined.

Lemma remove_tag_from_file_consistent_witness :
  ∃ st',
    TagCommands.remove_tag_from_file name_matches "F1" ["a"] st0 = Return st'
    ∧ store_consistent (DataStoreMethods.mem st').
Proof.
  assert (store_consistent (DataStoreMethods.mem st0)) as Hc.
  { split_and!.
    - split; apply (bool_decide_unpack _); vm_compute; exact I.
    - split; apply (bool_decide_unpack _); vm_compute; exact I.
    - unfold Store.tags_nodup. apply (bool_decide_unpack _).
      vm_compute. exact I.
    - unfold Store.usage_consistent. apply (bool_decide_unpack _).
      vm_compute. exact I. }
  destruct (remove_tag_from_file_consistent name_matches "F1" ["a"] st0 Hc)
    as (st' & Hst' & Hc' & _).
  exists st'. split; [exact Hst' | exact Hc'].
Defined.

Lemma delete_tag_consistent_witness :
  ∃ st',
    TagCommands.delete_tag name_matches "c" st0 = Return st'
    ∧ store_consistent (DataStoreMethods.mem st').
Proof.
  assert (store_consistent (DataStoreMethods.mem st0)) as Hc.
  { split_and!.
    - split; apply (bool_decide_unpack _); vm_compute; exact I.
    - split; apply (bool_decide_unpack _); vm_compute; exact I.
    - unfold Store.tags_nodup. apply (bool_decide_unpack _).
      vm_compute. exact I.
    - unfold Store.usage_consistent. apply (bool_decide_unpack _).
      vm_compute. exact I. }
  destruct (delete_tag_consistent name_matches "c" st0 Hc)
    as (st' & Hst' & Hc' & _).
  exists st'. split; [exact Hst' | exact Hc'].
Defined.
